(* ===== verification/_CoqProject ===== *)
-Q . S2P
Prelude.v
SqlText.v
Calendar.v
DateFormat.v
SqlQuery.v
PyDict.v
Handlers.v
App.v
Lifecycle.v
Response.v
Json.v
Setup.v
