(* ===== verification/Prelude.v ===== *)
(** * A verified model of the climate API of [src/app.py]

    The program is a Flask application of 118 lines.  At import time it
    creates an engine on the SQLite file [Resources/hawaii.sqlite],
    reflects its tables [measurement] and [station] into classes and opens
    a SQLAlchemy session; each route handler runs one to
    three SQL queries through that single global session, post-processes
    the rows in Python, and returns them through [jsonify]; a teardown hook
    closes the session after every request.

    ** Parts of the program and the files that model them

    The files are listed in dependency order (see [_CoqProject]).

    - [Prelude] (this file): Python's exceptions ([exn], those of the
      views and those that abort the import) and the error
      monad [res] with the notation [x <- c ;; k] in [py_scope], in which
      every handler is written; a bounded executable quantifier
      [forall_range] and the tactic [enum_Z] for finite case analysis on
      [Z]; generic lemmas on [Z.max] folds and [filter]; the hint
      databases [py] and [py_rw].
    - [SqlText], Module [Text]: SQLite's BINARY collation on TEXT values
      (memcmp of the bytes, then length) as [text_compare], and the SQL
      operators [<=]/[>=] ([text_le], [text_ge]) that every date filter of
      [app.py] uses (lines 59, 82, 94, 95, 110).
    - [Calendar], Module [Calendar]: the arithmetic of
      [most_recent_date_dt - timedelta(days=365)] (lines 56 and 75):
      CPython's proleptic Gregorian [_ymd2ord]/[_ord2ymd] ([ymd2ord],
      [ord2ymd], line by line) and the [OverflowError] range check of
      [datetime.__add__] ([sub_days]).
    - [DateFormat], Module [DateFormat]: [datetime.strptime(s, '%Y-%m-%d')]
      (line 55) with the regular expression of CPython's [_strptime], its
      alternatives and backtracking ([format_matches], [strptime]), and
      [strftime('%Y-%m-%d')] (line 56).
    - [SqlQuery], Module [Sql]: the two tables as lists of rows in rowid
      order ([Dataset]) and each [session.query] of the views as a
      function: [func.max(date)] ([q_max_date]), the date filters, SQLite's
      [min]/[max] aggregates (its [minmaxStep], generic over the class
      [SqlOrder] with instances for TEXT and REAL) and [avg], [GROUP BY
      station] ([group_by_station], groups sorted by key) and the stable
      [ORDER BY count DESC] with [.first()] ([q_most_active_row]).
    - [PyDict], Module [PyDict]: Python's insertion-ordered [dict], [d[k] =
      v] ([dict_setitem]) and the comprehension of line 60
      ([dict_comprehension]) over the list of items, with its invariant
      [dict_wf] (no key twice).
    - [Handlers], Module [Handlers]: the six views [welcome],
      [precipitation], [stations], [tobs], [start_end_date], [start_date]
      (lines 37-114) as functions from the database to the Python value
      handed to [jsonify] ([pyval]), in the monad [res]; their shared
      prefix [one_year_ago] (lines 54-56 and 73-75).
    - [App], Module [App]: Werkzeug's matcher (static segments before
      [<start>] converters, with backtracking) over the six [@app.route]
      rules ([route]), the response a path gets ([serve]: 200, 404, or 500
      on an exception), and the request lifecycle as a step relation
      [step] over a server state holding the database, the global session
      (closed or in a transaction), the requests in flight and the
      answered ones: arrivals, whole view runs and [shutdown_session]
      teardowns (lines 116-118) in any interleaving.
    - [Lifecycle], Module [Lifecycle]: each view as the sequence of its
      session queries in the order of the source ([prog]: [Query] nodes
      with the rest of the view as continuation; [precipitation_prog],
      [tobs_prog], ...), and the finer lifecycle [fstep] in which the
      queries, returns and teardowns of all requests interleave one at a
      time on the shared session, with an executable scheduler [fexec].
    - [Response], Module [Response]: a type system for the Python values
      the views return ([ty], [has_ty]) with the type the route table
      gives each view ([view_ty]), and Flask's [jsonify] with
      [sort_keys=True] as a map to JSON trees.
    - [Json], Module [Json]: the text of the response body, that is
      [json.dumps] with [sort_keys], the compact separators of Flask's
      JSON provider and [ensure_ascii] escaping ([escape_char], [escape],
      [encode_string], [join], [dumps]) followed by the newline Flask
      appends ([body]), and a reader in the manner of [json.loads]
      ([loads]) that inverts it.  Python's float [repr] is a section
      variable [num_repr], assumed only to print a JSON number token that
      the number reader [num_parse] reads back.
    - [Setup], Module [Setup]: the module body of lines 15-31 as
      [import_app], which threads a file system ([fs]: directories, and
      files keyed by absolute path) through [create_engine] (the path made
      absolute against the working directory, [abspath]), [Base.prepare]
      ([prepare]: [sqlite_connect], which creates a missing file, then
      [reflect] and [automap_classes]), the [Base.classes] lookups
      ([classes_getattr]) and [Session(engine)] ([module_rest]), and
      returns [App.init] of the file's rows or the exception.

    ** Theorems (by group)

    - [SqlText]: BINARY collation is a total order; on strings of equal
      length it is lexicographic per field ([text_compare_app]).
    - [Calendar]: [ord2ymd (ymd2ord d) = d] on every valid date and
      [ymd2ord (ord2ymd n) = n] on every positive ordinal; [ord2ymd] is
      increasing; [sub_days] returns the date [k] days earlier or raises
      [OverflowError] exactly out of range; 365 days back is the same day
      a year earlier exactly when no 29 February lies in between
      ([trailing_year]).
    - [DateFormat]: [strptime (strftime d) = Ok d]; on canonical
      [YYYY-MM-DD] strings the BINARY order is the order of the dates.
    - [SqlQuery]: [agg_max]/[agg_min] return an element of the non-NULL
      values bounding all of them, [avg] is their mean between min and
      max; the GROUP BY / ORDER BY / first query refines the abstract
      [is_most_active] (largest count, ties to the smallest key).
    - [PyDict]: the comprehension has no duplicate key and binds each key
      to its last value.
    - [Handlers]: on canonical dates [precipitation] and [tobs] return the
      rows of the trailing 365-day window (OverflowError near year 1);
      both raise [TypeError] on an empty table; the statistics routes
      return min/max/avg of the selected temperatures, all [None] when
      nothing is selected; [start_date] equals [start_end_date] with an
      upper bound above every date; a stored date that [strptime]
      rejects makes [precipitation] and [tobs] raise [ValueError]
      exactly when it sorts last ([malformed_latest_date]).
    - [App]: the matcher over the rules is an explicit dispatch table
      ([route_table]); in every interleaving the session is closed
      whenever no request is in flight.
    - [Lifecycle]: every run of [fstep] refines a run of [App.step] (a
      stuttering simulation, a lemma); from every reachable state all
      requests in flight can be answered, each with [serve] of the
      database, and the session closed ([fine_drains]); without arrivals
      at most five steps per request in flight can be made.  The
      teardown of one request can close the session between two queries
      of another ([session_closed_between_queries], an example).
    - [Response]: every 200 answer has the type of its view, 404 is an
      unmatched path and only [precipitation()] and [tobs()] answer 500.
    - [Json]: [loads (body j) = Some j] for every document whose numbers
      print faithfully; the body is ASCII
      when the numbers are; the body of the statistics routes is the
      literal text with keys [AVG], [MAX], [MIN] in that order.
    - [Setup]: the import succeeds exactly when the file at
      [<cwd>/Resources/hawaii.sqlite] is a database whose two tables have
      a primary key, and then starts [App.init] of that file's rows
      ([import_app_ok]); each exception of the import is characterised
      ([import_app_errors]); a missing file is replaced by an empty
      database, so restarts keep failing ([import_missing_creates_empty]);
      the path [create_engine] computes is normal, so a later change of
      directory does not change the file ([abspath_stable]).

    ** Bounds, fuel and assumptions

    - Years are restricted to Python's [MINYEAR .. MAXYEAR] = 1 .. 9999,
      and ordinals to 1 .. 3652059, exactly as CPython checks them.  The
      round trips are proved by 400-year periodicity of the calendar
      ([ymd2ord_shift], [ord2ymd_shift]) and a single exhaustive walk of
      one period of 146097 days ([walk_cycle], by [vm_compute]): this
      covers every ordinal since every ordinal is one of the period's
      shifted by a multiple of 146097.  [digits] takes its width (4 or 2)
      as structural fuel, which is exactly the width strftime pads to.
    - No definition uses recursion beyond structural recursion on lists,
      strings or [nat]; every definition evaluates.
    - [strftime('%Y')] is zero-padded to four digits (as Python documents;
      glibc prints years below 1000 unpadded, a difference that only
      arises when the latest date lies before 1001-01-01).
    - REAL columns are rationals [Q] (the aggregates are exact; floating
      rounding of [avg] is not modelled); TEXT is a Rocq [string] of
      ASCII characters; [date] and [station] are never NULL.
    - Rows are read in rowid order and [GROUP BY] yields its groups in
      ascending key order (what SQLite's sorter does without an index);
      the theorems about the most active station depend on that choice
      only through the tie-break.
    - [App.step] runs each view as one atomic step; [Lifecycle.fstep]
      interleaves single queries, each of which is atomic (one SQLite
      statement on a read-only database).  What happens inside the
      SQLAlchemy [Session] object when two threads use it at the same
      instant (it is not thread-safe) is not modelled.
    - Characters are Rocq [ascii] values, i.e. code points below 256;
      [ensure_ascii] escapes those outside 0x20 .. 0x7e as [\u00xx].  The
      JSON reader takes the length of its input as fuel, which suffices
      since every call consumes at least one character.
    - The bound of five steps per request is exact for [tobs()] (three
      queries, the return, the teardown) and is the measure ([work]) of
      the termination proof.

    ** Not modelled

    The imports of lines 1-8 define nothing the model uses.  [Setup] does
    not model file permissions, nor reflection column by column: the two
    tables are taken with the columns the views read, and the rows are
    those of the file at import time (nothing writes it afterwards; the
    session reads it per query).  The printing of numbers (Python's float [repr],
    shortest round-trip digits) is left abstract in [Json]; nor is the
    HTTP layer modelled (URL decoding, headers, the HTML content type
    of the welcome text), which are Flask and Werkzeug library code.
*)

From stdpp Require Export base list.
From Stdlib Require Export ZArith Lia.

(** ** Python exceptions and the error monad *)

(** The exceptions the code paths of [app.py] can raise, at import time
    and in the views. *)
Inductive exn : Type :=
  | TypeError      (** [strptime(None, ...)], [None[0]] *)
  | ValueError     (** a date string that does not parse *)
  | OverflowError  (** [datetime - timedelta] leaves [1 .. MAXORDINAL] *)
  | OperationalError (** [sqlalchemy.exc.OperationalError]: SQLite cannot open the file *)
  | DatabaseError  (** [sqlalchemy.exc.DatabaseError]: the file is not a database *)
  | AttributeError. (** [Base.classes] has no class of that name *)

#[export] Instance exn_eq_dec : EqDecision exn.
Proof. solve_decision. Defined.

(** A Python computation: it returns a value or raises. *)
Inductive res (A : Type) : Type :=
  | Ok (a : A)
  | Err (e : exn).
Arguments Ok {A} a.
Arguments Err {A} e.

Definition res_bind {A B} (c : res A) (k : A -> res B) : res B :=
  match c with
  | Ok a => k a
  | Err e => Err e
  end.

Definition res_map {A B} (f : A -> B) (c : res A) : res B :=
  res_bind c (fun a => Ok (f a)).

Declare Scope py_scope.
Delimit Scope py_scope with py.
Notation "x <- c ;; k" := (res_bind c (fun x => k))
  (at level 100, c at next level, right associativity) : py_scope.
Notation "'raise' e" := (Err e) (at level 10) : py_scope.

(** [of_option e o]: use of a Python value that is [None] raises [e]. *)
Definition of_option {A} (e : exn) (o : option A) : res A :=
  match o with
  | Some a => Ok a
  | None => Err e
  end.

Lemma res_bind_ok {A B} (a : A) (k : A -> res B) : res_bind (Ok a) k = k a.
Proof. reflexivity. Qed.

Lemma res_bind_err {A B} (e : exn) (k : A -> res B) : res_bind (Err e) k = Err e.
Proof. reflexivity. Qed.

Lemma res_bind_Ok_inv {A B} (c : res A) (k : A -> res B) (b : B) :
  res_bind c k = Ok b -> exists a, c = Ok a /\ k a = Ok b.
Proof. destruct c; simpl; [eauto | discriminate]. Qed.

Lemma res_bind_assoc {A B C} (c : res A) (k1 : A -> res B) (k2 : B -> res C) :
  res_bind (res_bind c k1) k2 = res_bind c (fun a => res_bind (k1 a) k2).
Proof. by destruct c. Qed.

Create HintDb py discriminated.
Create Rewrite HintDb py_rw.
#[export] Hint Rewrite @res_bind_ok @res_bind_err @res_bind_assoc : py_rw.

(** [simpl_res] evaluates the binds of a goal whose first computations
    are known. *)
Ltac simpl_res := repeat (autorewrite with py_rw in *; simpl in *).

(** ** Bounded quantification over an interval of [Z], executable *)

(** [forall_range f lo k] checks [f] on [lo, lo+1, ..., lo+k-1]; it is
    tail recursive so that [vm_compute] runs it on large intervals. *)
Fixpoint forall_range (f : Z -> bool) (lo : Z) (k : nat) : bool :=
  match k with
  | O => true
  | S k' => if f lo then forall_range f (Z.succ lo) k' else false
  end.

Lemma forall_range_spec (f : Z -> bool) (k : nat) :
  forall lo, forall_range f lo k = true ->
  forall z, (lo <= z < lo + Z.of_nat k)%Z -> f z = true.
Proof.
  induction k as [|k IH]; intros lo Hr z Hz; simpl in *; [lia|].
  destruct (f lo) eqn:Hf; [|discriminate].
  destruct (Z.eq_dec z lo) as [->|Hne]; [exact Hf|].
  apply (IH (Z.succ lo) Hr). lia.
Qed.

(** [enum_Z x lo k]: split the goal on the [k] values [lo .. lo+k-1] of
    [x], whose bounds are in the context. *)
Lemma Z_enum (lo x : Z) (k : nat) :
  (lo <= x < lo + Z.of_nat k)%Z -> In x (map (fun i => lo + Z.of_nat i)%Z (seq 0 k)).
Proof. intros H. apply in_map_iff. exists (Z.to_nat (x - lo)). split; [lia | apply in_seq; lia]. Qed.

Ltac enum_Z x lo k :=
  let H := fresh in
  assert (H : In x (map (fun i => lo + Z.of_nat i)%Z (seq 0 k))) by (apply Z_enum; lia);
  cbn [map seq Z.of_nat] in H; simpl in H;
  repeat (destruct H as [<-|H]); try contradiction.

(** ** Euclidean division facts shared by [Calendar] *)

Lemma Z_div_add_mul (a b k : Z) : (0 < b)%Z -> ((a + k * b) / b = a / b + k)%Z.
Proof. intros Hb. rewrite Z.div_add by lia. reflexivity. Qed.

Lemma Z_mod_add_mul (a b k : Z) : (0 < b)%Z -> ((a + k * b) mod b = a mod b)%Z.
Proof. intros Hb. apply Z.mod_add. lia. Qed.

#[export] Hint Rewrite Z_div_add_mul Z_mod_add_mul using lia : py_rw.

(** ** Lists *)

Lemma fold_max_upper (l : list Z) (a : Z) :
  (forall y, In y l -> (y <= a)%Z) -> fold_left Z.max l a = a.
Proof.
  induction l as [|y l IH]; intros Hl; simpl; [done|].
  rewrite Z.max_l by (apply Hl; left; done). apply IH. intros z Hz. apply Hl. by right.
Qed.

(** [fold_left Z.max l a] is the largest element of [l] when it is at
    least [a]. *)
Lemma fold_max_of (l : list Z) (a x : Z) : (a <= x)%Z -> In x l ->
  (forall y, In y l -> (y <= x)%Z) -> fold_left Z.max l a = x.
Proof.
  revert a; induction l as [|y l IH]; intros a Ha Hx Hl; simpl; [done|].
  destruct Hx as [<-|Hx].
  - rewrite Z.max_r by done. apply fold_max_upper. intros z Hz. apply Hl. by right.
  - apply IH; [|done|intros z Hz; apply Hl; by right].
    apply Z.max_lub; [done|]. apply Hl. by left.
Qed.

Lemma filter_and {A} (f g : A -> bool) (l : list A) :
  List.filter f (List.filter g l) = List.filter (fun x => g x && f x) l.
Proof.
  induction l as [|x l IH]; simpl; [done|].
  destruct (g x) eqn:Eg; simpl; [destruct (f x) eqn:Ef; simpl; by rewrite ?Ef, ?IH | done].
Qed.
