(* ===== verification/SqlText.v ===== *)
(** * SQLite TEXT comparison (BINARY collation)

    Every date filter of [src/app.py] ([Measurement.date >= one_year_ago],
    [Measurement.date >= start], [Measurement.date <= end]) and the
    aggregate [func.max(Measurement.date)] compare TEXT values in SQLite,
    whose default collation BINARY compares the bytes with [memcmp] and,
    when one string is a prefix of the other, the shorter one first.
    [text_compare] is that comparison on byte strings; this file proves it
    a total order and gives the lemmas on concatenation that [DateFormat]
    uses to relate it to the order of dates. *)

From S2P Require Import Prelude.
From stdpp Require Import strings.
From Stdlib Require Import Ascii String.

Module Text.

(** [binCollFunc]: memcmp on the common prefix, then the length. *)
Fixpoint text_compare (s1 s2 : string) : comparison :=
  match s1, s2 with
  | EmptyString, EmptyString => Eq
  | EmptyString, String _ _ => Lt
  | String _ _, EmptyString => Gt
  | String c1 r1, String c2 r2 =>
      match N.compare (N_of_ascii c1) (N_of_ascii c2) with
      | Eq => text_compare r1 r2
      | c => c
      end
  end.

(** The SQL operators [a <= b] and [a >= b] on TEXT. *)
Definition text_le (s1 s2 : string) : bool :=
  match text_compare s1 s2 with Gt => false | _ => true end.
Definition text_ge (s1 s2 : string) : bool := text_le s2 s1.

(** ** Order laws *)

Lemma ascii_N_inj (a b : ascii) : N_of_ascii a = N_of_ascii b -> a = b.
Proof.
  intros H. rewrite <- (ascii_N_embedding a), <- (ascii_N_embedding b), H.
  reflexivity.
Qed.

Lemma text_compare_antisym (s1 s2 : string) :
  text_compare s2 s1 = CompOpp (text_compare s1 s2).
Proof.
  revert s2; induction s1 as [|c1 r1 IH]; intros [|c2 r2]; simpl; auto.
  rewrite N.compare_antisym.
  destruct (N.compare (N_of_ascii c1) (N_of_ascii c2)); simpl; auto.
Qed.

Lemma text_compare_eq_iff (s1 s2 : string) : text_compare s1 s2 = Eq <-> s1 = s2.
Proof.
  split; [|intros <-].
  - revert s2; induction s1 as [|c1 r1 IH]; intros [|c2 r2]; simpl;
      try discriminate; auto.
    destruct (N.compare_spec (N_of_ascii c1) (N_of_ascii c2)) as [Hc|Hc|Hc];
      try discriminate.
    intros Hr. apply ascii_N_inj in Hc. f_equal; auto.
  - induction s1 as [|c r IH]; simpl; auto.
    by rewrite N.compare_refl.
Qed.

Lemma text_compare_refl (s : string) : text_compare s s = Eq.
Proof. by apply text_compare_eq_iff. Qed.

Lemma text_compare_lt_trans (s1 s2 s3 : string) :
  text_compare s1 s2 = Lt -> text_compare s2 s3 = Lt -> text_compare s1 s3 = Lt.
Proof.
  revert s2 s3; induction s1 as [|c1 r1 IH]; intros [|c2 r2] [|c3 r3];
    simpl; try discriminate; auto.
  destruct (N.compare_spec (N_of_ascii c1) (N_of_ascii c2)) as [H12|H12|H12],
    (N.compare_spec (N_of_ascii c2) (N_of_ascii c3)) as [H23|H23|H23];
    try discriminate; intros A B;
    destruct (N.compare_spec (N_of_ascii c1) (N_of_ascii c3)); eauto; lia.
Qed.

Lemma text_le_refl (s : string) : text_le s s = true.
Proof. unfold text_le. by rewrite text_compare_refl. Qed.

Lemma text_le_spec (s1 s2 : string) :
  text_le s1 s2 = true <-> text_compare s1 s2 = Lt \/ s1 = s2.
Proof.
  unfold text_le. rewrite <- text_compare_eq_iff.
  destruct (text_compare s1 s2); intuition congruence.
Qed.

Lemma text_le_trans (s1 s2 s3 : string) :
  text_le s1 s2 = true -> text_le s2 s3 = true -> text_le s1 s3 = true.
Proof.
  rewrite !text_le_spec.
  intros [H12| ->] [H23| ->]; auto.
  left. eauto using text_compare_lt_trans.
Qed.

Lemma text_le_antisym (s1 s2 : string) :
  text_le s1 s2 = true -> text_le s2 s1 = true -> s1 = s2.
Proof.
  unfold text_le. rewrite (text_compare_antisym s1 s2).
  destruct (text_compare s1 s2) eqn:E; simpl; try discriminate.
  intros _ _. by apply text_compare_eq_iff.
Qed.

Lemma text_le_total (s1 s2 : string) : text_le s1 s2 = true \/ text_le s2 s1 = true.
Proof.
  unfold text_le. rewrite (text_compare_antisym s1 s2).
  destruct (text_compare s1 s2); simpl; auto.
Qed.

Lemma text_le_false (s1 s2 : string) :
  text_le s1 s2 = false -> text_compare s2 s1 = Lt.
Proof.
  unfold text_le. rewrite (text_compare_antisym s1 s2).
  destruct (text_compare s1 s2); simpl; congruence.
Qed.

(** ** Concatenation of equal-length prefixes: lexicographic *)

Lemma length_append (s t : string) :
  String.length (s ++ t)%string = (String.length s + String.length t)%nat.
Proof. induction s as [|c s IH]; simpl; auto. Qed.

Lemma append_empty (s : string) : (s ++ EmptyString)%string = s.
Proof.
  induction s as [|c s IH]; [reflexivity|].
  change (String c (s ++ EmptyString) = String c s)%string. by rewrite IH.
Qed.

Lemma text_compare_app (p1 p2 t1 t2 : string) :
  String.length p1 = String.length p2 ->
  text_compare (p1 ++ t1)%string (p2 ++ t2)%string =
  match text_compare p1 p2 with Eq => text_compare t1 t2 | c => c end.
Proof.
  revert p2; induction p1 as [|c1 r1 IH]; intros [|c2 r2] Hl;
    simpl in *; try discriminate; auto.
  destruct (N.compare (N_of_ascii c1) (N_of_ascii c2)); auto.
Qed.

End Text.

#[export] Hint Resolve Text.text_le_refl : py.
