(* ===== verification/Calendar.v ===== *)
(** * Proleptic Gregorian calendar arithmetic of Python's [datetime]

    [app.py] computes [one_year_ago] as
    [(most_recent_date_dt - timedelta(days=365)).strftime('%Y-%m-%d')]
    (lines 55-56 and 74-75).  A [datetime] minus a [timedelta] of whole
    days converts the date to its ordinal ([_ymd2ord]), subtracts, checks
    that the result is in [1 .. MAXORDINAL] (else [OverflowError]) and
    converts back ([_ord2ymd]).  This file translates those functions of
    CPython's [datetime] module and proves the two round trips, the
    bounds of the ordinal of a year, and that the ordinal is an order
    isomorphism between valid dates (ordered lexicographically) and
    [1 .. MAXORDINAL]. *)

From S2P Require Import Prelude.

Open Scope Z_scope.

Module Calendar.

(** A [date]: year, month, day as Python ints. *)
Record date := mkdate { year : Z; month : Z; day : Z }.

#[export] Instance date_eq_dec : EqDecision date.
Proof. solve_decision. Defined.

Definition MINYEAR : Z := 1.
Definition MAXYEAR : Z := 9999.
Definition MAXORDINAL : Z := 3652059.

(** [_DAYS_IN_MONTH] and [_DAYS_BEFORE_MONTH], with the [-1]
    placeholder at index 0. *)
Definition DAYS_IN_MONTH : list Z := [-1; 31; 28; 31; 30; 31; 30; 31; 31; 30; 31; 30; 31].
Definition DAYS_BEFORE_MONTH : list Z := [-1; 0; 31; 59; 90; 120; 151; 181; 212; 243; 273; 304; 334].

(** [lst[i]] for an index in range. *)
Definition at_index (l : list Z) (i : Z) : Z := nth (Z.to_nat i) l (-1).

(** A Python bool used as an int. *)
Definition b2z (b : bool) : Z := if b then 1 else 0.

Definition is_leap (y : Z) : bool :=
  (y mod 4 =? 0) && (negb (y mod 100 =? 0) || (y mod 400 =? 0)).

Definition days_before_year (y0 : Z) : Z :=
  let y := y0 - 1 in y * 365 + y / 4 - y / 100 + y / 400.

Definition days_in_month (y m : Z) : Z :=
  if (m =? 2) && is_leap y then 29 else at_index DAYS_IN_MONTH m.

Definition days_before_month (y m : Z) : Z :=
  at_index DAYS_BEFORE_MONTH m + b2z ((m >? 2) && is_leap y).

Definition ymd2ord (d : date) : Z :=
  days_before_year (year d) + days_before_month (year d) (month d) + day d.

(** Module constants, evaluated once as at import time. *)
Definition DI400Y : Z := Eval vm_compute in days_before_year 401.
Definition DI100Y : Z := Eval vm_compute in days_before_year 101.
Definition DI4Y : Z := Eval vm_compute in days_before_year 5.

(** [_ord2ymd], line by line ([divmod] is floor division, [>>] is
    [Z.shiftr]). *)
Definition ord2ymd (n0 : Z) : date :=
  let n := n0 - 1 in
  let n400 := n / DI400Y in let n := n mod DI400Y in
  let year := n400 * 400 + 1 in
  let n100 := n / DI100Y in let n := n mod DI100Y in
  let n4 := n / DI4Y in let n := n mod DI4Y in
  let n1 := n / 365 in let n := n mod 365 in
  let year := year + n100 * 100 + n4 * 4 + n1 in
  if (n1 =? 4) || (n100 =? 4) then mkdate (year - 1) 12 31 else
  let leapyear := (n1 =? 3) && (negb (n4 =? 24) || (n100 =? 3)) in
  let month := Z.shiftr (n + 50) 5 in
  let preceding := at_index DAYS_BEFORE_MONTH month + b2z ((month >? 2) && leapyear) in
  if preceding >? n then
    let month := month - 1 in
    let preceding := preceding - (at_index DAYS_IN_MONTH month + b2z ((month =? 2) && leapyear)) in
    mkdate year month (n - preceding + 1)
  else mkdate year month (n - preceding + 1).

(** [_check_date_fields] as a test: the dates [date(y, m, d)] accepts. *)
Definition valid_date (d : date) : bool :=
  (MINYEAR <=? year d) && (year d <=? MAXYEAR) &&
  (1 <=? month d) && (month d <=? 12) &&
  (1 <=? day d) && (day d <=? days_in_month (year d) (month d)).

(** [datetime - timedelta(days=k)] on the date part: [self + -other] in
    [datetime.__add__], which raises [OverflowError] outside
    [1 .. MAXORDINAL]. *)
Definition sub_days (d : date) (k : Z) : res date :=
  let n := ymd2ord d - k in
  if (0 <? n) && (n <=? MAXORDINAL) then Ok (ord2ymd n) else Err OverflowError.

(** Lexicographic order on [(year, month, day)], Python's date order. *)
Definition date_compare (a b : date) : comparison :=
  match Z.compare (year a) (year b) with
  | Eq => match Z.compare (month a) (month b) with
          | Eq => Z.compare (day a) (day b)
          | c => c
          end
  | c => c
  end.

(** Shift by [k] whole 400-year cycles. *)
Definition shift_cycles (d : date) (k : Z) : date :=
  mkdate (year d + 400 * k) (month d) (day d).

(** The day after [d] in the Gregorian calendar. *)
Definition next_day (d : date) : date :=
  if day d <? days_in_month (year d) (month d) then mkdate (year d) (month d) (day d + 1)
  else if month d <? 12 then mkdate (year d) (month d + 1) 1
  else mkdate (year d + 1) 1 1.

(** Month and day in range, year positive (no upper bound). *)
Definition fields_ok (d : date) : bool :=
  (1 <=? year d) && (1 <=? month d) && (month d <=? 12) &&
  (1 <=? day d) && (day d <=? days_in_month (year d) (month d)).

(** The first day of the calendar, ordinal 1. *)
Definition epoch : date := mkdate 1 1 1.

(** [walk d n k]: the [k] ordinals from [n] on are, by [ord2ymd], the
    [k] successive days from [d] on.  Run on one 400-year cycle. *)
Fixpoint walk (d : date) (n : Z) (k : nat) : bool :=
  match k with
  | O => true
  | S k' => if bool_decide (ord2ymd n = d) then walk (next_day d) (Z.succ n) k' else false
  end.

(** ** 400-year periodicity *)

Lemma is_leap_shift (y k : Z) : is_leap (y + 400 * k) = is_leap y.
Proof.
  unfold is_leap.
  replace (y + 400 * k) with (y + (100 * k) * 4) by lia. rewrite Z_mod_add_mul by lia.
  replace (y + 100 * k * 4) with (y + (4 * k) * 100) by lia. rewrite Z_mod_add_mul by lia.
  replace (y + 4 * k * 100) with (y + k * 400) by lia. rewrite Z_mod_add_mul by lia.
  reflexivity.
Qed.

Lemma days_before_year_shift (y k : Z) :
  days_before_year (y + 400 * k) = days_before_year y + 146097 * k.
Proof.
  unfold days_before_year.
  replace (y + 400 * k - 1) with ((y - 1) + (100 * k) * 4) by lia.
  rewrite Z_div_add_mul by lia.
  replace (y - 1 + 100 * k * 4) with ((y - 1) + (4 * k) * 100) by lia.
  rewrite Z_div_add_mul by lia.
  replace (y - 1 + 4 * k * 100) with ((y - 1) + k * 400) by lia.
  rewrite Z_div_add_mul by lia. lia.
Qed.

Lemma days_in_month_shift (y m k : Z) : days_in_month (y + 400 * k) m = days_in_month y m.
Proof. unfold days_in_month. by rewrite is_leap_shift. Qed.

Lemma ymd2ord_shift (d : date) (k : Z) :
  ymd2ord (shift_cycles d k) = ymd2ord d + 146097 * k.
Proof.
  unfold ymd2ord, shift_cycles, days_before_month; simpl.
  rewrite days_before_year_shift, is_leap_shift. lia.
Qed.

Lemma ord2ymd_shift (n k : Z) : ord2ymd (n + 146097 * k) = shift_cycles (ord2ymd n) k.
Proof.
  unfold ord2ymd, shift_cycles.
  change DI400Y with 146097.
  replace (n + 146097 * k - 1) with ((n - 1) + k * 146097) by lia.
  rewrite Z_div_add_mul, Z_mod_add_mul by lia.
  cbv zeta. repeat case_match; simpl; f_equal; lia.
Qed.

Lemma fields_ok_shift (d : date) (k : Z) :
  0 <= k -> fields_ok d = true -> fields_ok (shift_cycles d k) = true.
Proof.
  unfold fields_ok, shift_cycles; simpl. rewrite days_in_month_shift.
  intros Hk H. repeat rewrite andb_true_iff in *. rewrite !Z.leb_le in *. lia.
Qed.

Lemma next_day_shift (d : date) (k : Z) :
  next_day (shift_cycles d k) = shift_cycles (next_day d) k.
Proof.
  unfold next_day, shift_cycles; simpl. rewrite days_in_month_shift.
  repeat case_match; simpl; f_equal; lia.
Qed.

(** ** Months of one year *)

(** Split a goal on the twelve months. *)
Ltac by_month m := enum_Z m 1 12%nat.

Ltac month_arith y :=
  unfold days_before_month, days_in_month, at_index; destruct (is_leap y); simpl; lia.

Lemma days_in_month_range (y m : Z) : 1 <= m <= 12 -> 28 <= days_in_month y m <= 31.
Proof. intros. by_month m; month_arith y. Qed.

Lemma days_before_month_succ (y m : Z) : 1 <= m <= 11 ->
  days_before_month y (m + 1) = days_before_month y m + days_in_month y m.
Proof. intros. by_month m; month_arith y. Qed.

Lemma days_before_month_le (y m m' : Z) : 1 <= m < m' -> m' <= 12 ->
  days_before_month y m + days_in_month y m <= days_before_month y m'.
Proof. intros. by_month m; by_month m'; month_arith y. Qed.

Lemma days_before_month_first (y : Z) : days_before_month y 1 = 0.
Proof. reflexivity. Qed.

Lemma days_before_month_last (y : Z) :
  days_before_month y 12 + days_in_month y 12 = 365 + b2z (is_leap y).
Proof. month_arith y. Qed.

(** ** Years *)

Lemma days_before_year_succ_cycle :
  forall_range (fun y => bool_decide (days_before_year (y + 1) =
    days_before_year y + 365 + b2z (is_leap y))) 0 400 = true.
Proof. vm_compute. reflexivity. Qed.

Lemma days_before_year_succ (y : Z) :
  days_before_year (y + 1) = days_before_year y + 365 + b2z (is_leap y).
Proof.
  pose proof (forall_range_spec _ _ _ days_before_year_succ_cycle (y mod 400)) as H.
  rewrite bool_decide_eq_true in H. rewrite (Z.div_mod y 400) by lia.
  replace (400 * (y / 400) + y mod 400 + 1) with ((y mod 400 + 1) + 400 * (y / 400)) by lia.
  rewrite (Z.add_comm (400 * (y / 400))), !days_before_year_shift, is_leap_shift.
  rewrite H by (pose proof (Z.mod_pos_bound y 400); lia). lia.
Qed.

Lemma days_before_year_mono (y y' : Z) : y <= y' -> days_before_year y <= days_before_year y'.
Proof.
  intros Hle. replace y' with (y + Z.of_nat (Z.to_nat (y' - y))) by lia.
  induction (Z.to_nat (y' - y)) as [|k IH]; [rewrite Z.add_0_r; lia|].
  replace (y + Z.of_nat (S k)) with ((y + Z.of_nat k) + 1) by lia.
  rewrite days_before_year_succ. destruct (is_leap _); simpl; lia.
Qed.

Lemma days_before_year_first : days_before_year 1 = 0.
Proof. reflexivity. Qed.

Lemma days_before_month_nonneg (y m : Z) : 1 <= m <= 12 -> 0 <= days_before_month y m.
Proof. intros. by_month m; month_arith y. Qed.

Lemma days_before_month_end (y m : Z) : 1 <= m <= 12 ->
  days_before_month y m + days_in_month y m <= 365 + b2z (is_leap y).
Proof. intros. by_month m; month_arith y. Qed.

(** ** Next day, and the ordinal of a year *)

Lemma fields_ok_spec (d : date) : fields_ok d = true <->
  1 <= year d /\ 1 <= month d <= 12 /\ 1 <= day d <= days_in_month (year d) (month d).
Proof. unfold fields_ok. rewrite !andb_true_iff, !Z.leb_le. tauto. Qed.

Lemma valid_date_spec (d : date) :
  valid_date d = true <-> fields_ok d = true /\ year d <= MAXYEAR.
Proof.
  rewrite fields_ok_spec. unfold valid_date, MINYEAR.
  rewrite !andb_true_iff, !Z.leb_le. tauto.
Qed.

Lemma ymd2ord_next_day (d : date) :
  fields_ok d = true -> ymd2ord (next_day d) = ymd2ord d + 1.
Proof.
  destruct d as [y m dd]. rewrite fields_ok_spec; simpl. intros (Hy & Hm & Hd).
  unfold next_day, ymd2ord; simpl.
  destruct (Z.ltb_spec dd (days_in_month y m)); simpl; [lia|].
  destruct (Z.ltb_spec m 12); simpl.
  - rewrite days_before_month_succ by lia. lia.
  - assert (m = 12) as -> by lia.
    rewrite days_before_year_succ, days_before_month_first.
    pose proof (days_before_month_last y). lia.
Qed.

Lemma fields_ok_next_day (d : date) :
  fields_ok d = true -> fields_ok (next_day d) = true.
Proof.
  destruct d as [y m dd]. rewrite !fields_ok_spec; simpl. intros (Hy & Hm & Hd).
  unfold next_day; simpl.
  destruct (Z.ltb_spec dd (days_in_month y m)); simpl; [lia|].
  destruct (Z.ltb_spec m 12); simpl;
    [pose proof (days_in_month_range y (m + 1)) | pose proof (days_in_month_range (y + 1) 1)]; lia.
Qed.

(** The ordinals of the days of year [y] are [days_before_year y + 1 ..
    days_before_year (y + 1)]. *)
Lemma ymd2ord_bounds (d : date) : fields_ok d = true ->
  days_before_year (year d) < ymd2ord d <= days_before_year (year d + 1).
Proof.
  destruct d as [y m dd]. rewrite fields_ok_spec; simpl. intros (Hy & Hm & Hd).
  unfold ymd2ord; simpl. rewrite days_before_year_succ.
  pose proof (days_before_month_nonneg y m Hm).
  pose proof (days_before_month_end y m Hm). lia.
Qed.

Lemma ymd2ord_pos (d : date) : fields_ok d = true -> 1 <= ymd2ord d.
Proof.
  intros H. pose proof (ymd2ord_bounds d H). apply fields_ok_spec in H.
  pose proof (days_before_year_mono 1 (year d)). rewrite days_before_year_first in *. lia.
Qed.

(** ** [date_compare] is the lexicographic total order *)

Lemma date_compare_eq (a b : date) : date_compare a b = Eq -> a = b.
Proof.
  destruct a as [y1 m1 d1], b as [y2 m2 d2]; unfold date_compare; simpl.
  destruct (Z.compare_spec y1 y2), (Z.compare_spec m1 m2), (Z.compare_spec d1 d2);
    intros; subst; congruence.
Qed.

Lemma date_compare_antisym (a b : date) : date_compare b a = CompOpp (date_compare a b).
Proof.
  unfold date_compare.
  rewrite (Z.compare_antisym (year b)), (Z.compare_antisym (month b)), (Z.compare_antisym (day b)).
  destruct (year b ?= year a), (month b ?= month a), (day b ?= day a); reflexivity.
Qed.

Lemma ymd2ord_lt (a b : date) : fields_ok a = true -> fields_ok b = true ->
  date_compare a b = Lt -> ymd2ord a < ymd2ord b.
Proof.
  intros Ha Hb. pose proof (ymd2ord_bounds a Ha). pose proof (ymd2ord_bounds b Hb).
  destruct a as [y1 m1 d1], b as [y2 m2 d2].
  apply fields_ok_spec in Ha, Hb; simpl in *. unfold date_compare; simpl.
  destruct (Z.compare_spec y1 y2) as [<-|Hy|Hy]; [|intros _|discriminate].
  - unfold ymd2ord; simpl.
    destruct (Z.compare_spec m1 m2) as [<-|Hm|Hm]; [|intros _|discriminate].
    + rewrite Z.compare_lt_iff. lia.
    + pose proof (days_before_month_le y1 m1 m2). lia.
  - pose proof (days_before_year_mono (y1 + 1) y2). lia.
Qed.

(** ** One 400-year cycle, by evaluation *)

Lemma walk_spec (k : nat) : forall d n, walk d n k = true ->
  forall i : nat, (i < k)%nat -> ord2ymd (n + Z.of_nat i) = Nat.iter i next_day d.
Proof.
  induction k as [|k IH]; intros d n Hw i Hi; [lia|]. simpl in Hw.
  case_bool_decide as Hn; [|discriminate].
  destruct i as [|i]; [rewrite Z.add_0_r; exact Hn|].
  rewrite Nat.iter_succ_r, <- (IH _ _ Hw i) by lia. f_equal. lia.
Qed.

Lemma walk_cycle : walk epoch 1 (Z.to_nat 146098) = true.
Proof. vm_compute. reflexivity. Qed.

Lemma ord2ymd_succ_cycle (n0 : Z) : 1 <= n0 <= 146097 ->
  ord2ymd (n0 + 1) = next_day (ord2ymd n0).
Proof.
  intros Hn. pose proof (walk_spec _ _ _ walk_cycle) as W.
  pose proof (W (Z.to_nat (n0 - 1)) ltac:(lia)) as E0.
  pose proof (W (Z.to_nat n0) ltac:(lia)) as E1.
  replace (1 + Z.of_nat (Z.to_nat (n0 - 1))) with n0 in E0 by lia.
  replace (1 + Z.of_nat (Z.to_nat n0)) with (n0 + 1) in E1 by lia.
  rewrite E1, E0. replace (Z.to_nat n0) with (S (Z.to_nat (n0 - 1))) by lia.
  reflexivity.
Qed.

(** ** Round trips *)

Lemma ord2ymd_succ (n : Z) : 1 <= n -> ord2ymd (n + 1) = next_day (ord2ymd n).
Proof.
  intros Hn. set (k := (n - 1) / 146097).
  assert (1 <= n - 146097 * k <= 146097).
  { subst k. pose proof (Z.mod_pos_bound (n - 1) 146097). pose proof (Z.div_mod (n - 1) 146097). lia. }
  replace (n + 1) with ((n - 146097 * k + 1) + 146097 * k) by lia.
  replace n with ((n - 146097 * k) + 146097 * k) at 2 by lia.
  rewrite !ord2ymd_shift, ord2ymd_succ_cycle by lia. symmetry. apply next_day_shift.
Qed.

Lemma ord2ymd_iter (i : nat) : ord2ymd (1 + Z.of_nat i) = Nat.iter i next_day epoch.
Proof.
  induction i as [|i IH]; [reflexivity|].
  replace (1 + Z.of_nat (S i)) with ((1 + Z.of_nat i) + 1) by lia.
  rewrite ord2ymd_succ, IH by lia. reflexivity.
Qed.

Lemma iter_next_day (i : nat) :
  fields_ok (Nat.iter i next_day epoch) = true /\ ymd2ord (Nat.iter i next_day epoch) = 1 + Z.of_nat i.
Proof.
  induction i as [|i [IHf IHo]]; [split; reflexivity|]. simpl.
  rewrite ymd2ord_next_day, IHo by exact IHf. split; [by apply fields_ok_next_day | lia].
Qed.

(** [ord2ymd] of a positive ordinal is a well-formed date. *)
Lemma fields_ok_ord2ymd (n : Z) : 1 <= n -> fields_ok (ord2ymd n) = true.
Proof.
  intros Hn. replace n with (1 + Z.of_nat (Z.to_nat (n - 1))) by lia.
  rewrite ord2ymd_iter. apply iter_next_day.
Qed.

(** [_ymd2ord] inverts [_ord2ymd] on every positive ordinal. *)
Lemma ymd2ord_ord2ymd (n : Z) : 1 <= n -> ymd2ord (ord2ymd n) = n.
Proof.
  intros Hn. replace n with (1 + Z.of_nat (Z.to_nat (n - 1))) at 1 by lia.
  rewrite ord2ymd_iter, (proj2 (iter_next_day _)). lia.
Qed.

(** [ymd2ord] is an order embedding of well-formed dates. *)
Lemma ymd2ord_compare (a b : date) : fields_ok a = true -> fields_ok b = true ->
  Z.compare (ymd2ord a) (ymd2ord b) = date_compare a b.
Proof.
  intros Ha Hb. destruct (date_compare a b) eqn:E.
  - apply date_compare_eq in E as ->. apply Z.compare_refl.
  - apply Z.compare_lt_iff. by apply ymd2ord_lt.
  - apply Z.compare_gt_iff. apply ymd2ord_lt; [done|done|].
    by rewrite date_compare_antisym, E.
Qed.

Lemma ymd2ord_inj (a b : date) : fields_ok a = true -> fields_ok b = true ->
  ymd2ord a = ymd2ord b -> a = b.
Proof.
  intros Ha Hb E. apply date_compare_eq. rewrite <- ymd2ord_compare by done.
  by apply Z.compare_eq_iff.
Qed.

Lemma ord2ymd_ymd2ord (d : date) : fields_ok d = true -> ord2ymd (ymd2ord d) = d.
Proof.
  intros H. pose proof (ymd2ord_pos d H).
  apply ymd2ord_inj; [by apply fields_ok_ord2ymd | done | by apply ymd2ord_ord2ymd].
Qed.

(** ** Python's range: years [1 .. 9999], ordinals [1 .. MAXORDINAL] *)

Lemma days_before_year_10000 : days_before_year (MAXYEAR + 1) = MAXORDINAL.
Proof. reflexivity. Qed.

Lemma valid_date_ord_range (d : date) : valid_date d = true -> 1 <= ymd2ord d <= MAXORDINAL.
Proof.
  rewrite valid_date_spec. intros [H Hy].
  pose proof (ymd2ord_pos d H). pose proof (ymd2ord_bounds d H).
  pose proof (days_before_year_mono (year d + 1) (MAXYEAR + 1)).
  rewrite days_before_year_10000 in *. lia.
Qed.

Lemma valid_date_ord2ymd (n : Z) : 1 <= n <= MAXORDINAL -> valid_date (ord2ymd n) = true.
Proof.
  intros Hn. pose proof (fields_ok_ord2ymd n ltac:(lia)) as H.
  apply valid_date_spec. split; [done|].
  pose proof (ymd2ord_bounds _ H). rewrite ymd2ord_ord2ymd in * by lia.
  destruct (Z.le_gt_cases (year (ord2ymd n)) MAXYEAR); [done|].
  pose proof (days_before_year_mono (MAXYEAR + 1) (year (ord2ymd n))).
  rewrite days_before_year_10000 in *. lia.
Qed.

(** ** The trailing year of line 56 *)

(** Whether a 29 February lies between [d] and the same day a year
    earlier: that of year [y] when [d] is after February, that of [y - 1]
    otherwise. *)
Definition feb29_in_window (d : date) : bool :=
  if 2 <? month d then is_leap (year d) else is_leap (year d - 1).

(** The same day one year earlier. *)
Definition year_before (d : date) : date := mkdate (year d - 1) (month d) (day d).

Lemma is_leap_pred (y : Z) : is_leap y = true -> is_leap (y - 1) = false.
Proof.
  unfold is_leap. rewrite andb_true_iff, Z.eqb_eq. intros [H _].
  replace ((y - 1) mod 4 =? 0) with false; [done|]. symmetry. apply Z.eqb_neq. intros E.
  pose proof (Z.div_mod y 4 ltac:(lia)). pose proof (Z.div_mod (y - 1) 4 ltac:(lia)). lia.
Qed.

(** A year holds 365 days, plus the 29 February it crosses. *)
Lemma ymd2ord_year_before (d : date) : 1 <= month d <= 12 ->
  ymd2ord d = ymd2ord (year_before d) + 365 + b2z (feb29_in_window d).
Proof.
  destruct d as [y m dd]. unfold ymd2ord, year_before, feb29_in_window; simpl. intros Hm.
  replace y with ((y - 1) + 1) at 1 2 by lia. rewrite days_before_year_succ.
  replace (y - 1 + 1) with y by lia.
  unfold days_before_month. rewrite Z.gtb_ltb.
  destruct (2 <? m), (is_leap y), (is_leap (y - 1)); simpl; lia.
Qed.

(** [d - timedelta(days=k)] lands on [e] when the ordinals say so. *)
Lemma sub_days_to (d e : date) (k : Z) : valid_date d = true -> fields_ok e = true -> 0 <= k ->
  ymd2ord d - k = ymd2ord e -> sub_days d k = Ok e.
Proof.
  intros Hd He Hk E. pose proof (valid_date_ord_range d Hd). pose proof (ymd2ord_pos e He).
  unfold sub_days. rewrite E.
  destruct (Z.ltb_spec 0 (ymd2ord e)), (Z.leb_spec (ymd2ord e) MAXORDINAL); simpl; try lia.
  by rewrite ord2ymd_ymd2ord.
Qed.

(** ** Main theorems *)

(** C26: every date Python accepts has an ordinal in [1 .. MAXORDINAL],
    and [_ord2ymd] gives the date back. *)
Theorem ordinal_of_valid_date (d : date) : valid_date d = true ->
  1 <= ymd2ord d <= MAXORDINAL /\ ord2ymd (ymd2ord d) = d.
Proof.
  intros H. split; [by apply valid_date_ord_range|].
  apply ord2ymd_ymd2ord. by apply valid_date_spec.
Qed.

(** C27: every ordinal in [1 .. MAXORDINAL] is the ordinal of a date
    Python accepts, namely [_ord2ymd n]. *)
Theorem date_of_valid_ordinal (n : Z) : 1 <= n <= MAXORDINAL ->
  valid_date (ord2ymd n) = true /\ ymd2ord (ord2ymd n) = n.
Proof.
  intros H. split; [by apply valid_date_ord2ymd | apply ymd2ord_ord2ymd; lia].
Qed.

(** C28: [_ord2ymd] is strictly increasing: the order of ordinals is the
    lexicographic order of the dates. *)
Theorem ord2ymd_compare (n n' : Z) : 1 <= n -> 1 <= n' ->
  date_compare (ord2ymd n) (ord2ymd n') = Z.compare n n'.
Proof.
  intros H H'.
  rewrite <- ymd2ord_compare by (by apply fields_ok_ord2ymd).
  rewrite !ymd2ord_ord2ymd by done. reflexivity.
Qed.

(** C5: [d - timedelta(days=k)] on a valid date either returns the valid
    date whose ordinal is [k] less, or raises [OverflowError] exactly
    when that ordinal leaves [1 .. MAXORDINAL]. *)
Theorem sub_days_spec (d : date) (k : Z) : valid_date d = true ->
  match sub_days d k with
  | Ok d' => valid_date d' = true /\ ymd2ord d' = ymd2ord d - k
  | Err e => e = OverflowError /\ (ymd2ord d - k < 1 \/ MAXORDINAL < ymd2ord d - k)
  end.
Proof.
  intros Hd. unfold sub_days.
  destruct (Z.ltb_spec 0 (ymd2ord d - k)), (Z.leb_spec (ymd2ord d - k) MAXORDINAL); simpl;
    [split; [apply valid_date_ord2ymd | apply ymd2ord_ord2ymd]; lia | split; [done | lia] ..].
Qed.

(** C14: the trailing year of line 56 on a date [d] of a year after 1:
    [d - timedelta(days=365)] is the same day one year earlier exactly
    when no 29 February lies in between, the day after it when one does,
    and 1 March of the year before when [d] is itself a 29 February. *)
Theorem trailing_year (d : date) : valid_date d = true -> 2 <= year d ->
  sub_days d 365 =
    Ok (if (month d =? 2) && (day d =? 29) then mkdate (year d - 1) 3 1
        else if feb29_in_window d then next_day (year_before d) else year_before d).
Proof.
  intros Hv Hy. pose proof (valid_date_ord_range d Hv) as Hr.
  pose proof Hv as Hv'. apply valid_date_spec in Hv' as [Hf Hmax]. pose proof Hf as Hf'.
  apply fields_ok_spec in Hf' as (_ & Hm & Hd).
  pose proof (ymd2ord_year_before d Hm) as Hy1.
  assert (Hb : fields_ok (year_before d) = true \/ (month d = 2 /\ day d = 29)).
  { destruct (decide (month d = 2 /\ day d = 29)) as [|Hn]; [by right|left].
    apply fields_ok_spec. destruct d as [y m dd]; unfold year_before, days_in_month in *; simpl in *.
    destruct (Z.eqb_spec m 2) as [->|]; simpl in *; [assert (dd <> 29) by tauto|];
      unfold at_index in *; destruct (is_leap y), (is_leap (y - 1)); simpl in *; lia. }
  destruct (Z.eqb_spec (month d) 2), (Z.eqb_spec (day d) 29); simpl.
  1: { (* 29 February: the year is leap, the year before is not *)
    destruct d as [y m dd]; simpl in *; subst m dd.
    assert (Hl : is_leap y = true) by (unfold days_in_month, at_index in Hd; destruct (is_leap y); simpl in *; [done|lia]).
    apply sub_days_to; [done|apply fields_ok_spec; simpl; unfold days_in_month, at_index; simpl; lia|lia|].
    unfold ymd2ord, days_before_month; simpl. replace y with ((y - 1) + 1) at 1 by lia.
    rewrite days_before_year_succ, (is_leap_pred y Hl). unfold at_index. simpl. lia. }
  all: destruct Hb as [Hb|[? ?]]; [|lia..].
    all: destruct (feb29_in_window d) eqn:Hw; simpl in Hy1;
      (apply sub_days_to; [done|try (by apply fields_ok_next_day)|lia|]);
      first [rewrite ymd2ord_next_day by done; lia | lia | done].
Qed.

(** ** Concrete values *)

Example DI400Y_value : DI400Y = 146097 /\ DI100Y = 36524 /\ DI4Y = 1461.
Proof. vm_compute. auto. Qed.

Example maxordinal_value : ymd2ord (mkdate 9999 12 31) = MAXORDINAL.
Proof. reflexivity. Qed.

Example trailing_year_2017 :
  sub_days (mkdate 2017 8 23) 365 = Ok (mkdate 2016 8 23).
Proof. reflexivity. Qed.

(** ** Witnesses *)

Lemma ordinal_of_valid_date_witness : valid_date (mkdate 2016 2 29) = true /\
  (1 <= ymd2ord (mkdate 2016 2 29) <= MAXORDINAL /\ ord2ymd (ymd2ord (mkdate 2016 2 29)) = mkdate 2016 2 29).
Proof. split; [reflexivity | apply ordinal_of_valid_date; reflexivity]. Defined.

Lemma date_of_valid_ordinal_witness : 1 <= 736564 <= MAXORDINAL /\
  (valid_date (ord2ymd 736564) = true /\ ymd2ord (ord2ymd 736564) = 736564).
Proof. split; [unfold MAXORDINAL; lia | apply date_of_valid_ordinal; unfold MAXORDINAL; lia]. Defined.

Lemma ord2ymd_compare_witness : 1 <= 736564 /\ 1 <= 736929 /\
  date_compare (ord2ymd 736564) (ord2ymd 736929) = Z.compare 736564 736929.
Proof. split; [lia | split; [lia | apply ord2ymd_compare; lia]]. Defined.

Lemma sub_days_spec_witness : valid_date (mkdate 2017 8 23) = true /\
  match sub_days (mkdate 2017 8 23) 365 with
  | Ok d' => valid_date d' = true /\ ymd2ord d' = ymd2ord (mkdate 2017 8 23) - 365
  | Err e => e = OverflowError /\ (ymd2ord (mkdate 2017 8 23) - 365 < 1 \/
                                   MAXORDINAL < ymd2ord (mkdate 2017 8 23) - 365)
  end.
Proof. split; [reflexivity | apply sub_days_spec; reflexivity]. Defined.

Lemma trailing_year_witness : valid_date (mkdate 2016 8 23) = true /\ 2 <= 2016 /\
  sub_days (mkdate 2016 8 23) 365 =
    Ok (if (8 =? 2) && (23 =? 29) then mkdate (2016 - 1) 3 1
        else if feb29_in_window (mkdate 2016 8 23) then next_day (year_before (mkdate 2016 8 23))
        else year_before (mkdate 2016 8 23)).
Proof.
  split; [reflexivity|]. split; [lia|].
  apply (trailing_year (mkdate 2016 8 23)); [reflexivity | simpl; lia].
Defined.

End Calendar.
