(* ===== verification/DateFormat.v ===== *)
(** * [datetime.strptime(s, '%Y-%m-%d')] and [strftime('%Y-%m-%d')]

    [app.py] parses the result of [func.max(Measurement.date)] with
    [datetime.strptime(most_recent_date, '%Y-%m-%d')] and prints the
    window start with [.strftime('%Y-%m-%d')] (lines 55-56, 74-75).

    CPython's [_strptime] compiles the format to the regular expression
    [(?P<Y>\d\d\d\d)-(?P<m>1[0-2]|0[1-9]|[1-9])-(?P<d>3[01]|[12]\d|0[1-9]|[1-9]| [1-9])],
    takes the first match found by backtracking ([re.match]), raises
    [ValueError] when there is none or when characters remain after it
    ("unconverted data remains"), converts each group with [int()] and
    builds the date, which raises [ValueError] out of range.  The regular
    expression is modelled by the list of its matches in backtracking
    order (list of successes); [\d] is an ASCII digit.

    The theorems: [strptime] inverts [strftime] on every valid date, and
    the BINARY collation order of [strftime] strings is the order of the
    dates, which is what makes the SQL string comparisons of [app.py]
    date comparisons. *)

From S2P Require Import Prelude SqlText Calendar.
From Stdlib Require Import Ascii String.
Import Calendar.

Open Scope Z_scope.

Module DateFormat.

(** ** Characters *)

Definition char_code (c : ascii) : Z := Z.of_N (N_of_ascii c).

(** A regular-expression character class [[lo-hi]]. *)
Definition char_range (lo hi : ascii) (c : ascii) : bool :=
  (char_code lo <=? char_code c) && (char_code c <=? char_code hi).

Definition char_is (c0 : ascii) (c : ascii) : bool := char_range c0 c0 c.

(** [\d] on ASCII text. *)
Definition is_digit : ascii -> bool := char_range "0" "9".

(** The digit character of [0 <= r < 10]. *)
Definition digit_char (r : Z) : ascii := ascii_of_N (Z.to_N (48 + r)).

(** ** [int()] of a matched group *)

(** Decimal value of a digit string. *)
Fixpoint digits_value_acc (acc : Z) (s : string) : Z :=
  match s with
  | EmptyString => acc
  | String c r => digits_value_acc (10 * acc + (char_code c - 48)) r
  end.

(** [int(t)] on the groups the expression can match: leading blanks
    are stripped, the rest are digits. *)
Fixpoint int_of_group (t : string) : Z :=
  match t with
  | String " " r => int_of_group r
  | _ => digits_value_acc 0 t
  end.

(** ** The regular expression, as the list of its matches *)

(** A sequence of character classes; [Some (matched, rest)]. *)
Fixpoint match_seq (p : list (ascii -> bool)) (s : string) : option (string * string) :=
  match p with
  | [] => Some (EmptyString, s)
  | cls :: p' =>
      match s with
      | String c r =>
          if cls c then
            match match_seq p' r with
            | Some (t, rest) => Some (String c t, rest)
            | None => None
            end
          else None
      | EmptyString => None
      end
  end.

(** A named group [(?P<x>alt1|alt2|...)]: the alternatives in order, each
    giving the [int()] of its text and the rest of the input. *)
Definition group (alts : list (list (ascii -> bool))) (s : string) : list (Z * string) :=
  flat_map (fun p => match match_seq p s with
                     | Some (t, rest) => [(int_of_group t, rest)]
                     | None => []
                     end) alts.

(** [\d\d\d\d] *)
Definition Y_ALTS : list (list (ascii -> bool)) := [[is_digit; is_digit; is_digit; is_digit]].
(** [1[0-2]|0[1-9]|[1-9]] *)
Definition m_ALTS : list (list (ascii -> bool)) :=
  [[char_is "1"; char_range "0" "2"]; [char_is "0"; char_range "1" "9"]; [char_range "1" "9"]].
(** [3[01]|[12]\d|0[1-9]|[1-9]| [1-9]] *)
Definition d_ALTS : list (list (ascii -> bool)) :=
  [[char_is "3"; char_range "0" "1"]; [char_range "1" "2"; is_digit];
   [char_is "0"; char_range "1" "9"]; [char_range "1" "9"]; [char_is " "; char_range "1" "9"]].

(** The literal [-] of the format. *)
Definition lit (c0 : ascii) (s : string) : list string :=
  match s with
  | String c r => if char_is c0 c then [r] else []
  | EmptyString => []
  end.

(** All matches of the whole expression at the start of [s], in the
    order [re.match] tries them: year, month, day and the unmatched rest. *)
Definition format_matches (s : string) : list (Z * Z * Z * string) :=
  flat_map (fun '(y, s1) =>
  flat_map (fun s2 =>
  flat_map (fun '(m, s3) =>
  flat_map (fun s4 =>
  map (fun '(d, rest) => (y, m, d, rest))
    (group d_ALTS s4)) (lit "-" s3)) (group m_ALTS s2)) (lit "-" s1)) (group Y_ALTS s).

(** [datetime.strptime(s, '%Y-%m-%d')] (the date part). *)
Definition strptime (s : string) : res date :=
  match head (format_matches s) with
  | None => Err ValueError
  | Some (y, m, d, rest) =>
      match rest with
      | EmptyString =>
          let dt := mkdate y m d in
          if valid_date dt then Ok dt else Err ValueError
      | String _ _ => Err ValueError
      end
  end.

(** ** [strftime('%Y-%m-%d')] *)

(** [k] decimal digits of [n], zero-padded ([%04d], [%02d]). *)
Fixpoint digits (k : nat) (n : Z) : string :=
  match k with
  | O => EmptyString
  | S k' => (digits k' (n / 10) ++ String (digit_char (n mod 10)) EmptyString)%string
  end.

Definition strftime (d : date) : string :=
  (digits 4 (year d) ++ String "-" (digits 2 (month d) ++ String "-" (digits 2 (day d))))%string.

(** ** Digit strings *)

Lemma char_code_digit_char (r : Z) : 0 <= r < 10 -> char_code (digit_char r) = 48 + r.
Proof.
  intros Hr. unfold char_code, digit_char.
  rewrite N_ascii_embedding by lia. lia.
Qed.

Lemma length_digits (k : nat) (n : Z) : String.length (digits k n) = k.
Proof.
  revert n; induction k as [|k IH]; intros n; [reflexivity|]. simpl.
  rewrite Text.length_append, IH. simpl. lia.
Qed.

(** The order of numbers read digit by digit. *)
Lemma Z_compare_div_mod10 (a b : Z) : 0 <= a -> 0 <= b ->
  Z.compare a b =
  match Z.compare (a / 10) (b / 10) with Eq => Z.compare (a mod 10) (b mod 10) | c => c end.
Proof.
  intros Ha Hb.
  pose proof (Z.div_mod a 10 ltac:(lia)). pose proof (Z.mod_pos_bound a 10 ltac:(lia)).
  pose proof (Z.div_mod b 10 ltac:(lia)). pose proof (Z.mod_pos_bound b 10 ltac:(lia)).
  destruct (Z.compare_spec (a / 10) (b / 10)), (Z.compare_spec (a mod 10) (b mod 10));
    first [apply Z.compare_eq_iff | apply Z.compare_lt_iff | apply Z.compare_gt_iff]; lia.
Qed.

(** Fixed-width decimal strings compare as their values. *)
Lemma digits_compare (k : nat) (a b : Z) : 0 <= a < 10 ^ Z.of_nat k -> 0 <= b < 10 ^ Z.of_nat k ->
  Text.text_compare (digits k a) (digits k b) = Z.compare a b.
Proof.
  revert a b; induction k as [|k IH]; intros a b Ha Hb.
  - simpl in *. assert (a = 0) as -> by lia. assert (b = 0) as -> by lia. reflexivity.
  - rewrite Nat2Z.inj_succ, Z.pow_succ_r in Ha, Hb by lia. simpl.
    rewrite Text.text_compare_app by (by rewrite !length_digits).
    rewrite IH by (split; [apply Z.div_pos | apply Z.div_lt_upper_bound]; lia).
    rewrite (Z_compare_div_mod10 a b) by lia.
    destruct (Z.compare (a / 10) (b / 10)); [|reflexivity|reflexivity]. simpl.
    pose proof (char_code_digit_char (a mod 10) ltac:(apply Z.mod_pos_bound; lia)) as Ea.
    pose proof (char_code_digit_char (b mod 10) ltac:(apply Z.mod_pos_bound; lia)) as Eb.
    unfold char_code in Ea, Eb. rewrite <- N2Z.inj_compare, Ea, Eb, Z.add_compare_mono_l.
    by destruct (Z.compare _ _).
Qed.

(** ** [strftime] preserves the order of dates *)

Lemma valid_date_digit_bounds (d : date) : valid_date d = true ->
  0 <= year d < 10 ^ 4 /\ 0 <= month d < 10 ^ 2 /\ 0 <= day d < 10 ^ 2.
Proof.
  rewrite valid_date_spec, fields_ok_spec. unfold MAXYEAR. intros [(Hy & Hm & Hd) Hy'].
  pose proof (days_in_month_range (year d) (month d) Hm). simpl. lia.
Qed.

(** ** Reading digit strings back *)

Fixpoint all_digits (s : string) : bool :=
  match s with
  | EmptyString => true
  | String c r => is_digit c && all_digits r
  end.

Lemma all_digits_app (s t : string) :
  all_digits (s ++ t)%string = all_digits s && all_digits t.
Proof. induction s as [|c s IH]; simpl; [done|]. by rewrite IH, andb_assoc. Qed.

Lemma is_digit_digit_char (r : Z) : 0 <= r < 10 -> is_digit (digit_char r) = true.
Proof.
  intros Hr. unfold is_digit, char_range. rewrite char_code_digit_char by done.
  apply andb_true_iff. rewrite !Z.leb_le. unfold char_code. simpl. lia.
Qed.

Lemma all_digits_digits (k : nat) (n : Z) : all_digits (digits k n) = true.
Proof.
  revert n; induction k as [|k IH]; intros n; [done|]. simpl.
  rewrite all_digits_app, IH. simpl. rewrite is_digit_digit_char by (apply Z.mod_pos_bound; lia). done.
Qed.

Lemma match_seq_digits (t r : string) : all_digits t = true ->
  match_seq (repeat is_digit (String.length t)) (t ++ r)%string = Some (t, r).
Proof.
  induction t as [|c t IH]; [done|]. simpl. intros [Hc Ht]%andb_true_iff.
  by rewrite Hc, IH.
Qed.

Lemma digits_value_app (acc : Z) (s t : string) :
  digits_value_acc acc (s ++ t)%string = digits_value_acc (digits_value_acc acc s) t.
Proof. revert acc; induction s as [|c s IH]; intros acc; simpl; auto. Qed.

Lemma digits_value_digits (k : nat) (acc n : Z) : 0 <= n < 10 ^ Z.of_nat k ->
  digits_value_acc acc (digits k n) = acc * 10 ^ Z.of_nat k + n.
Proof.
  revert acc n; induction k as [|k IH]; intros acc n Hn.
  - simpl in *. lia.
  - rewrite Nat2Z.inj_succ, Z.pow_succ_r in * by lia. simpl.
    rewrite digits_value_app, IH by (split; [apply Z.div_pos | apply Z.div_lt_upper_bound]; lia).
    simpl. rewrite char_code_digit_char by (apply Z.mod_pos_bound; lia).
    pose proof (Z.div_mod n 10 ltac:(lia)). lia.
Qed.

Lemma int_of_group_nonblank (c : ascii) (r : string) : c <> " "%char ->
  int_of_group (String c r) = digits_value_acc 0 (String c r).
Proof. destruct c as [[] [] [] [] [] [] [] []]; intros; (reflexivity || congruence). Qed.

Lemma digits_head (k : nat) (n : Z) : exists c r, digits (S k) n = String c r /\ is_digit c = true.
Proof.
  pose proof (all_digits_digits (S k) n) as H.
  destruct (digits (S k) n) as [|c r] eqn:E.
  - pose proof (length_digits (S k) n) as L. rewrite E in L. discriminate.
  - exists c, r. split; [done|]. simpl in H. by apply andb_true_iff in H as [? _].
Qed.

Lemma int_of_group_digits (k : nat) (n : Z) : 0 <= n < 10 ^ Z.of_nat (S k) ->
  int_of_group (digits (S k) n) = n.
Proof.
  intros Hn. destruct (digits_head k n) as (c & r & E & Hc). rewrite E.
  rewrite int_of_group_nonblank, <- E, digits_value_digits by (try done; intros ->; discriminate).
  lia.
Qed.

(** ** The groups on the text [strftime] writes *)

Lemma group_Y_digits (y : Z) (r : string) : 0 <= y < 10 ^ 4 ->
  group Y_ALTS (digits 4 y ++ r)%string = [(y, r)].
Proof.
  intros Hy. pose proof (match_seq_digits (digits 4 y) r (all_digits_digits 4 y)) as M.
  rewrite length_digits in M. unfold group, Y_ALTS. cbn [flat_map repeat] in *.
  rewrite M, int_of_group_digits by done. reflexivity.
Qed.

Lemma group_m_digits (m : Z) (r : string) : 1 <= m <= 12 ->
  exists rest, group m_ALTS (digits 2 m ++ r)%string = (m, r) :: rest.
Proof. intros Hm. enum_Z m 1 12%nat; eexists; reflexivity. Qed.

Lemma group_d_digits (d : Z) (r : string) : 1 <= d <= 31 ->
  exists rest, group d_ALTS (digits 2 d ++ r)%string = (d, r) :: rest.
Proof. intros Hd. enum_Z d 1 31%nat; eexists; reflexivity. Qed.

(** ** Round trip and order *)

Lemma text_compare_dash (s t : string) :
  Text.text_compare (String "-" s) (String "-" t) = Text.text_compare s t.
Proof. reflexivity. Qed.

Lemma strptime_strftime_ok (d : date) : valid_date d = true -> strptime (strftime d) = Ok d.
Proof.
  intros Hv. pose proof (valid_date_digit_bounds d Hv) as (Hy & Hm & Hd).
  pose proof Hv as Hv'. apply valid_date_spec in Hv' as [Hf _]. apply fields_ok_spec in Hf.
  pose proof (days_in_month_range (year d) (month d) ltac:(lia)).
  destruct (group_m_digits (month d) (String "-" (digits 2 (day d))) ltac:(lia)) as [rm Em].
  destruct (group_d_digits (day d) EmptyString ltac:(lia)) as [rd Ed].
  rewrite Text.append_empty in Ed.
  unfold strptime, format_matches, strftime.
  rewrite group_Y_digits by done. cbn [flat_map lit app].
  replace (char_is "-" "-") with true by reflexivity. cbn [flat_map app].
  rewrite Em. cbn [flat_map lit app].
  replace (char_is "-" "-") with true by reflexivity. cbn [flat_map app].
  rewrite Ed. destruct d as [y m dd]; simpl in *. by rewrite Hv.
Qed.

(** The BINARY order of [strftime] strings is the order of the dates. *)
Lemma strftime_compare (a b : date) : valid_date a = true -> valid_date b = true ->
  Text.text_compare (strftime a) (strftime b) = Z.compare (ymd2ord a) (ymd2ord b).
Proof.
  intros Ha Hb.
  rewrite ymd2ord_compare by (by apply valid_date_spec).
  pose proof (valid_date_digit_bounds a Ha) as (Hya & Hma & Hda).
  pose proof (valid_date_digit_bounds b Hb) as (Hyb & Hmb & Hdb).
  unfold strftime, date_compare.
  rewrite Text.text_compare_app by (by rewrite !length_digits).
  rewrite digits_compare by done. destruct (year a ?= year b); [|done|done].
  rewrite text_compare_dash, Text.text_compare_app by (by rewrite !length_digits).
  rewrite digits_compare by done. destruct (month a ?= month b); [|done|done].
  rewrite text_compare_dash. by apply digits_compare.
Qed.

(** ** Behaviour on concrete inputs *)

Example strptime_canonical : strptime "2017-08-23" = Ok (mkdate 2017 8 23).
Proof. reflexivity. Qed.

Example strptime_unpadded : strptime "2017-8-5" = Ok (mkdate 2017 8 5).
Proof. reflexivity. Qed.

Example strptime_blank_day : strptime "2017-08- 5" = Ok (mkdate 2017 8 5).
Proof. reflexivity. Qed.

Example strptime_trailing : strptime "2017-08-231" = Err ValueError.
Proof. reflexivity. Qed.

Example strptime_not_leap : strptime "2017-02-29" = Err ValueError.
Proof. reflexivity. Qed.

Example strptime_year0 : strptime "0000-01-01" = Err ValueError.
Proof. reflexivity. Qed.

Example strftime_2016 : strftime (mkdate 2016 8 23) = "2016-08-23"%string.
Proof. reflexivity. Qed.

(** ** The date strings [strftime] writes *)

(** A string is a canonical date when [strftime] gives it back from
    what [strptime] reads in it. *)
Definition canonical_date (s : string) : bool :=
  match strptime s with Ok d => String.eqb (strftime d) s | Err _ => false end.

(** The ordinal of the date a string denotes ([0] when it does not parse). *)
Definition date_ord (s : string) : Z :=
  match strptime s with Ok d => ymd2ord d | Err _ => 0 end.

Lemma strptime_valid (s : string) (d : date) : strptime s = Ok d -> valid_date d = true.
Proof.
  unfold strptime. destruct (head (format_matches s)) as [[[[y m] dd] rest]|]; [|discriminate].
  destruct rest; [|discriminate]. destruct (valid_date (mkdate y m dd)) eqn:E; [|discriminate].
  by intros [= <-].
Qed.

Lemma canonical_spec (s : string) :
  canonical_date s = true <-> exists d, valid_date d = true /\ s = strftime d.
Proof.
  unfold canonical_date. split.
  - destruct (strptime s) as [d|] eqn:E; [|discriminate].
    intros Hs%String.eqb_eq. exists d. split; [by eapply strptime_valid | done].
  - intros (d & Hv & ->). rewrite strptime_strftime_ok by done. apply String.eqb_refl.
Qed.

Lemma date_ord_strftime (d : date) : valid_date d = true -> date_ord (strftime d) = ymd2ord d.
Proof. intros Hv. unfold date_ord. by rewrite strptime_strftime_ok. Qed.

Lemma canonical_text_compare (a b : string) : canonical_date a = true -> canonical_date b = true ->
  Text.text_compare a b = Z.compare (date_ord a) (date_ord b).
Proof.
  intros (da & Ha & ->)%canonical_spec (db & Hb & ->)%canonical_spec.
  rewrite !date_ord_strftime by done. by apply strftime_compare.
Qed.

Lemma canonical_text_le (a b : string) : canonical_date a = true -> canonical_date b = true ->
  Text.text_le a b = (date_ord a <=? date_ord b).
Proof.
  intros Ha Hb. unfold Text.text_le. rewrite canonical_text_compare by done.
  destruct (Z.compare_spec (date_ord a) (date_ord b)); symmetry; apply Z.leb_le || apply Z.leb_gt; lia.
Qed.

Lemma date_ord_range (s : string) : canonical_date s = true -> 1 <= date_ord s <= MAXORDINAL.
Proof.
  intros (d & Hv & ->)%canonical_spec. rewrite date_ord_strftime by done.
  by apply valid_date_ord_range.
Qed.

(** ** Main theorems *)

(** C21: [strptime(d.strftime('%Y-%m-%d'), '%Y-%m-%d')] gives back every
    valid date. *)
Theorem strptime_strftime (d : date) : valid_date d = true -> strptime (strftime d) = Ok d.
Proof. apply strptime_strftime_ok. Qed.

(** C4: on canonical date strings, SQLite's BINARY comparison is the
    comparison of the dates' ordinals: the string filters of [app.py]
    are date filters. *)
Theorem canonical_text_order (a b : string) : canonical_date a = true -> canonical_date b = true ->
  Text.text_compare a b = Z.compare (date_ord a) (date_ord b) /\
  Text.text_le a b = (date_ord a <=? date_ord b).
Proof. intros Ha Hb. split; [by apply canonical_text_compare | by apply canonical_text_le]. Qed.

(** ** Witnesses *)

Lemma strptime_strftime_witness : valid_date (mkdate 2016 2 29) = true /\
  strptime (strftime (mkdate 2016 2 29)) = Ok (mkdate 2016 2 29).
Proof. split; [reflexivity | apply strptime_strftime; reflexivity]. Defined.

Lemma canonical_text_order_witness :
  canonical_date "2016-08-23" = true /\ canonical_date "2017-01-05" = true /\
  (Text.text_compare "2016-08-23" "2017-01-05" = Z.compare (date_ord "2016-08-23") (date_ord "2017-01-05") /\
   Text.text_le "2016-08-23" "2017-01-05" = (date_ord "2016-08-23" <=? date_ord "2017-01-05")).
Proof. split; [reflexivity | split; [reflexivity | apply canonical_text_order; reflexivity]]. Defined.

End DateFormat.
