(* ===== verification/SqlQuery.v ===== *)
(** * The SQL of [app.py] over the two tables

    [app.py] reflects the tables [measurement] and [station] of
    [Resources/hawaii.sqlite] (lines 15-23) and queries them through one
    SQLAlchemy session.  This file models the tables as lists of rows in
    rowid order (the order of a full scan without [ORDER BY]) and each
    SQL construct the handlers use:
    - the aggregates [max], [min] and [avg] with SQLite's NULL rules
      ([minmaxStep]: NULLs skipped, the first best value kept; [avg] of no
      value is NULL), generic over the order of the column through the
      interface [SqlOrder] (TEXT under BINARY collation, REAL numerically);
    - the [WHERE] filters on the date column;
    - [GROUP BY station ORDER BY count(station) DESC] with [.first()].
    REAL values are modelled by rationals [Q] (no rounding). *)

From S2P Require Import Prelude SqlText.
From stdpp Require Import strings.
From Stdlib Require Import String QArith Lqa Sorted.

Module Sql.

(** ** The order of a column, as an interface *)

(** What an aggregate needs of a column type: SQLite's [<=] on it. *)
Class SqlOrder (A : Type) := sql_le : A -> A -> bool.

(** The laws of that order: a total preorder. *)
Class SqlOrderLaws (A : Type) `{SqlOrder A} := {
  sql_le_refl : forall a, sql_le a a = true;
  sql_le_trans : forall a b c, sql_le a b = true -> sql_le b c = true -> sql_le a c = true;
  sql_le_total : forall a b, sql_le a b = true \/ sql_le b a = true
}.

(** TEXT under BINARY collation. *)
#[export] Instance text_order : SqlOrder string := Text.text_le.
(** REAL, compared as numbers. *)
#[export] Instance real_order : SqlOrder Q := Qle_bool.

#[export] Instance text_order_laws : SqlOrderLaws string.
Proof.
  split; unfold sql_le, text_order.
  - apply Text.text_le_refl.
  - apply Text.text_le_trans.
  - apply Text.text_le_total.
Qed.

#[export] Instance real_order_laws : SqlOrderLaws Q.
Proof.
  split; unfold sql_le, real_order; intros; rewrite ?Qle_bool_iff in *.
  - apply Qle_refl.
  - eapply Qle_trans; eauto.
  - destruct (Qlt_le_dec a b) as [Hab|Hba];
      [left; apply Qlt_le_weak, Hab | right; exact Hba].
Qed.

(** ** Aggregates *)

Section Aggregates.
Context {A : Type} `{SqlOrder A}.

(** [minmaxStep] of [max]: the argument replaces the best so far when
    the best compares strictly below it; NULL arguments are skipped. *)
Definition max_step (best : option A) (arg : option A) : option A :=
  match arg, best with
  | None, _ => best
  | Some a, None => Some a
  | Some a, Some b => if sql_le a b then Some b else Some a
  end.

(** [minmaxStep] of [min]. *)
Definition min_step (best : option A) (arg : option A) : option A :=
  match arg, best with
  | None, _ => best
  | Some a, None => Some a
  | Some a, Some b => if sql_le b a then Some b else Some a
  end.

(** [SELECT max(x)] / [SELECT min(x)] over the column values in scan order. *)
Definition agg_max (col : list (option A)) : option A := fold_left max_step col None.
Definition agg_min (col : list (option A)) : option A := fold_left min_step col None.

End Aggregates.

(** The non-NULL values of a column. *)
Fixpoint non_null {A} (col : list (option A)) : list A :=
  match col with
  | [] => []
  | Some a :: col' => a :: non_null col'
  | None :: col' => non_null col'
  end.

Lemma non_null_map_Some {B A} (f : B -> A) (l : list B) :
  non_null (map (fun x => Some (f x)) l) = map f l.
Proof. induction l as [|x l IH]; simpl; by rewrite ?IH. Qed.

(** [avg(x)]: the sum of the non-NULL values over their count; NULL when
    there is none. *)
Definition agg_avg (col : list (option Q)) : option Q :=
  let vals := non_null col in
  match vals with
  | [] => None
  | _ => Some (fold_left Qplus vals 0 / inject_Z (Z.of_nat (List.length vals)))
  end.

(** ** Laws of the aggregates, against the interface *)

Section AggregateLaws.
Context {A : Type} `{SqlOrderLaws A}.

Lemma fold_max_none (col : list (option A)) (best : option A) :
  fold_left max_step col best = None <-> best = None /\ non_null col = [].
Proof.
  revert best; induction col as [|[a|] col IH]; intros best; simpl; [tauto| |].
  - rewrite IH. destruct best; simpl; [case_match|]; split; intros [? ?]; discriminate.
  - rewrite IH. destruct best; simpl; tauto.
Qed.

Lemma fold_max_some (col : list (option A)) (best : option A) (m : A) :
  fold_left max_step col best = Some m ->
  (best = Some m \/ In m (non_null col)) /\
  (forall b, best = Some b -> sql_le b m = true) /\
  (forall x, In x (non_null col) -> sql_le x m = true).
Proof.
  revert best; induction col as [|[a|] col IH]; intros best Hf; simpl in *.
  - subst best. split; [by left|]. split; [|done]. intros b [= ->]. apply sql_le_refl.
  - destruct (IH _ Hf) as (Hin & Hbest & Hall). unfold max_step in *.
    destruct best as [b|]; [destruct (sql_le a b) eqn:Hab|].
    + split; [destruct Hin as [[= ->]|]; auto|]. split.
      * intros ? [= <-]. by apply Hbest.
      * intros x [<-|Hx]; [eapply sql_le_trans; [exact Hab | by apply Hbest]|auto].
    + split; [destruct Hin as [[= ->]|]; auto|]. split.
      * intros ? [= <-]. destruct (sql_le_total a b) as [?|Hba]; [congruence|].
        eapply sql_le_trans; [exact Hba | by apply Hbest].
      * intros x [<-|Hx]; [by apply Hbest | auto].
    + split; [destruct Hin as [[= ->]|]; auto|]. split; [discriminate|].
      intros x [<-|Hx]; [by apply Hbest | auto].
  - destruct (IH _ Hf) as (Hin & Hbest & Hall). auto.
Qed.

(** [max(x)] is NULL exactly when every value is NULL; otherwise it is
    one of the values and no value is above it. *)
Lemma agg_max_spec (col : list (option A)) :
  match agg_max col with
  | None => non_null col = []
  | Some m => In m (non_null col) /\ forall x, In x (non_null col) -> sql_le x m = true
  end.
Proof.
  unfold agg_max. destruct (fold_left max_step col None) as [m|] eqn:E.
  - destruct (fold_max_some _ _ _ E) as ([?|?] & _ & Hall); [discriminate|auto].
  - by apply fold_max_none in E as [_ ?].
Qed.

End AggregateLaws.

(** The reversed order satisfies the laws too. *)
Definition flip_order {A} (le : SqlOrder A) : SqlOrder A := fun a b => le b a.

Lemma flip_order_laws {A} `{SqlOrderLaws A} : @SqlOrderLaws A (flip_order _).
Proof.
  split; unfold sql_le, flip_order; intros.
  - apply sql_le_refl.
  - eapply sql_le_trans; eauto.
  - apply sql_le_total.
Qed.

(** [min] is [max] for the reversed order. *)
Lemma agg_min_flip {A} (le : SqlOrder A) (col : list (option A)) :
  agg_min col = @agg_max A (flip_order le) col.
Proof. reflexivity. Qed.

Lemma agg_min_spec {A} `{SqlOrderLaws A} (col : list (option A)) :
  match agg_min col with
  | None => non_null col = []
  | Some m => In m (non_null col) /\ forall x, In x (non_null col) -> sql_le m x = true
  end.
Proof. rewrite agg_min_flip. apply (@agg_max_spec A _ flip_order_laws). Qed.

Lemma agg_avg_none (col : list (option Q)) : agg_avg col = None <-> non_null col = [].
Proof. unfold agg_avg. destruct (non_null col); split; congruence. Qed.

(** ** The tables, in rowid order *)

(** A row of [measurement]: [id, station, date, prcp, tobs]. *)
Record Measurement := mkMeasurement {
  m_id : Z; m_station : string; m_date : string; m_prcp : option Q; m_tobs : option Q }.

(** A row of [station]: [id, station, name, latitude, longitude, elevation]. *)
Record Station := mkStation {
  s_id : Z; s_station : string; s_name : string;
  s_latitude : option Q; s_longitude : option Q; s_elevation : option Q }.

(** The database the session reads; nothing writes it. *)
Record Dataset := mkDataset { measurement : list Measurement; station : list Station }.

(** ** Queries *)

(** [session.query(func.max(Measurement.date)).scalar()]: [None] on an
    empty table. *)
Definition q_max_date (db : Dataset) : option string :=
  agg_max (map (fun r => Some (m_date r)) (measurement db)).

(** The SQL condition [Measurement.date >= s]. *)
Definition date_ge (s : string) (r : Measurement) : bool := Text.text_ge (m_date r) s.
(** The SQL condition [Measurement.date <= s]. *)
Definition date_le (s : string) (r : Measurement) : bool := Text.text_le (m_date r) s.

(** [session.query(Measurement.date, Measurement.prcp).filter(Measurement.date >= s).all()] *)
Definition q_date_prcp_since (db : Dataset) (s : string) : list (string * option Q) :=
  map (fun r => (m_date r, m_prcp r)) (List.filter (date_ge s) (measurement db)).

(** [session.query(Station.station).all()], then [station[0]] of each row. *)
Definition q_station_ids (db : Dataset) : list string := map s_station (station db).

(** [GROUP BY Measurement.station]: one group per distinct key, in
    ascending BINARY order, with its [count(Measurement.station)]. *)
Fixpoint group_insert (k : string) (g : list (string * nat)) : list (string * nat) :=
  match g with
  | [] => [(k, 1%nat)]
  | (k', n) :: g' =>
      match Text.text_compare k k' with
      | Lt => (k, 1%nat) :: g
      | Eq => (k', S n) :: g'
      | Gt => (k', n) :: group_insert k g'
      end
  end.

Definition group_by_station (rows : list Measurement) : list (string * nat) :=
  fold_left (fun g r => group_insert (m_station r) g) rows [].

(** [ORDER BY count(Measurement.station) DESC], stable: a group goes
    before the first group whose count is not larger. *)
Fixpoint insert_desc (x : string * nat) (l : list (string * nat)) : list (string * nat) :=
  match l with
  | [] => [x]
  | y :: l' => if (y.2 <=? x.2)%nat then x :: l else y :: insert_desc x l'
  end.

Definition order_by_count_desc (g : list (string * nat)) : list (string * nat) :=
  fold_right insert_desc [] g.

(** [session.query(Measurement.station).group_by(...).order_by(...).first()]:
    [None] when there is no row. *)
Definition q_most_active_row (db : Dataset) : option (string * nat) :=
  head (order_by_count_desc (group_by_station (measurement db))).

(** [...filter(Measurement.station == st).filter(Measurement.date >= s).all()]
    on [(Measurement.date, Measurement.tobs)]. *)
Definition q_date_tobs_for (db : Dataset) (st s : string) : list (string * option Q) :=
  map (fun r => (m_date r, m_tobs r))
    (List.filter (fun r => bool_decide (m_station r = st) && date_ge s r) (measurement db)).

(** [session.query(func.min(tobs), func.max(tobs), func.avg(tobs))] over
    the rows the condition keeps: the single result row. *)
Definition q_tobs_stats (db : Dataset) (cond : Measurement -> bool) :
    option Q * option Q * option Q :=
  let col := map m_tobs (List.filter cond (measurement db)) in
  (agg_min col, agg_max col, agg_avg col).

(** The number of rows of station [st]: what [count(station)] counts in
    its group. *)
Definition count_station (st : string) (rows : list Measurement) : nat :=
  List.length (List.filter (fun r => bool_decide (m_station r = st)) rows).

(** ** GROUP BY: the groups are the per-station counts, keys ascending *)

(** The count of key [k] among the groups ([0] when absent). *)
Fixpoint glookup (k : string) (g : list (string * nat)) : nat :=
  match g with
  | [] => 0%nat
  | (k', n) :: g' => if bool_decide (k = k') then n else glookup k g'
  end.

(** Strictly ascending keys. *)
Definition key_lt (a b : string * nat) : Prop := Text.text_compare a.1 b.1 = Lt.
Definition keys_sorted (g : list (string * nat)) : Prop := StronglySorted key_lt g.

(** The invariant of the groups built from [rows]. *)
Definition group_inv (rows : list Measurement) (g : list (string * nat)) : Prop :=
  keys_sorted g /\ Forall (fun x => (0 < x.2)%nat) g /\
  forall k, glookup k g = count_station k rows.

Lemma text_lt_ne (a b : string) : Text.text_compare a b = Lt -> a <> b.
Proof. intros H ->. by rewrite Text.text_compare_refl in H. Qed.

Lemma text_gt_lt (a b : string) : Text.text_compare a b = Gt -> Text.text_compare b a = Lt.
Proof. intros H. by rewrite Text.text_compare_antisym, H. Qed.

Lemma glookup_absent (k : string) (g : list (string * nat)) :
  Forall (fun x => x.1 <> k) g -> glookup k g = 0%nat.
Proof.
  induction 1 as [|[k' n] g' Hne _ IH]; simpl in *; [done|].
  rewrite bool_decide_false by congruence. exact IH.
Qed.

Lemma group_insert_keys (k : string) (g : list (string * nat)) (x : string * nat) :
  In x (group_insert k g) -> x.1 = k \/ In x.1 (map fst g).
Proof.
  induction g as [|[k' n] g' IH]; simpl; [intros [<-|[]]; auto|].
  destruct (Text.text_compare k k'); simpl; intros Hx.
  - destruct Hx as [<-|Hx]; [by right; left | right; right; by apply (in_map fst)].
  - destruct Hx as [<-|[<-|Hx]]; [by left | by right; left | right; right; by apply (in_map fst)].
  - destruct Hx as [<-|Hx]; [by right; left|]. destruct (IH Hx); auto.
Qed.

Lemma keys_sorted_insert (k : string) (g : list (string * nat)) :
  keys_sorted g -> keys_sorted (group_insert k g).
Proof.
  induction 1 as [|[k' n] g' Hs IH Hf]; simpl; [repeat constructor|].
  destruct (Text.text_compare k k') eqn:E.
  - apply Text.text_compare_eq_iff in E as ->. constructor; [done|].
    eapply Forall_impl; [exact Hf|]. by unfold key_lt.
  - constructor; [by constructor|]. constructor; [done|].
    eapply Forall_impl; [exact Hf|]. unfold key_lt; simpl. intros x Hx.
    eapply Text.text_compare_lt_trans; eauto.
  - constructor; [exact IH|]. apply List.Forall_forall. intros x Hx. unfold key_lt; simpl.
    destruct (group_insert_keys k g' x Hx) as [->|Hk]; [by apply text_gt_lt|].
    apply in_map_iff in Hk as [[k2 n2] [<- Hin]]. rewrite List.Forall_forall in Hf.
    exact (Hf _ Hin).
Qed.

Lemma glookup_insert (k k0 : string) (g : list (string * nat)) : keys_sorted g ->
  glookup k0 (group_insert k g) = (glookup k0 g + if bool_decide (k0 = k) then 1 else 0)%nat.
Proof.
  induction 1 as [|[k' n] g' Hs IH Hf]; simpl; [case_bool_decide; lia|].
  destruct (Text.text_compare k k') eqn:E; simpl.
  - apply Text.text_compare_eq_iff in E as ->. case_bool_decide; lia.
  - case_bool_decide as Hk0; [subst k0|lia].
    rewrite bool_decide_false by (by apply text_lt_ne).
    rewrite glookup_absent; [lia|].
    eapply Forall_impl; [exact Hf|]. intros [k2 n2] H2; unfold key_lt in *; simpl in *.
    apply not_eq_sym, text_lt_ne. eapply Text.text_compare_lt_trans; eauto.
  - destruct (decide (k0 = k')) as [->|Hne].
    + rewrite !bool_decide_true by done. rewrite bool_decide_false; [lia|].
      intros ->. by rewrite Text.text_compare_refl in E.
    + rewrite !(bool_decide_false (k0 = k')) by done. exact IH.
Qed.

Lemma group_insert_pos (k : string) (g : list (string * nat)) :
  Forall (fun x => (0 < x.2)%nat) g -> Forall (fun x => (0 < x.2)%nat) (group_insert k g).
Proof.
  induction 1 as [|[k' n] g' Hn Hf IH]; simpl; [repeat constructor; simpl; lia|].
  destruct (Text.text_compare k k'); repeat constructor; simpl in *; auto; lia.
Qed.

Lemma count_station_snoc (k : string) (rows : list Measurement) (r : Measurement) :
  count_station k (rows ++ [r]) =
  (count_station k rows + if bool_decide (m_station r = k) then 1 else 0)%nat.
Proof. unfold count_station. rewrite List.filter_app, length_app. simpl. case_bool_decide; simpl; lia. Qed.

Lemma group_by_station_fold (rows0 rows : list Measurement) (g : list (string * nat)) :
  group_inv rows0 g ->
  group_inv (rows0 ++ rows) (fold_left (fun g r => group_insert (m_station r) g) rows g).
Proof.
  revert rows0 g; induction rows as [|r rows IH]; intros rows0 g (Hs & Hp & Hc); simpl.
  - rewrite app_nil_r. done.
  - replace (rows0 ++ r :: rows) with ((rows0 ++ [r]) ++ rows) by (rewrite <- app_assoc; reflexivity).
    apply IH. split; [by apply keys_sorted_insert|]. split; [by apply group_insert_pos|].
    intros k. rewrite glookup_insert, count_station_snoc, Hc by done.
    repeat case_bool_decide; congruence || lia.
Qed.

Lemma group_by_station_inv (rows : list Measurement) : group_inv rows (group_by_station rows).
Proof. apply (group_by_station_fold [] rows []). split; [constructor|]. split; [constructor|]. done. Qed.

Lemma glookup_in (k : string) (g : list (string * nat)) :
  (0 < glookup k g)%nat -> In (k, glookup k g) g.
Proof. induction g as [|[k' n] g' IH]; simpl; [lia|]. case_bool_decide; subst; auto. Qed.

Lemma in_glookup (k : string) (n : nat) (g : list (string * nat)) :
  keys_sorted g -> In (k, n) g -> glookup k g = n.
Proof.
  induction 1 as [|[k' n'] g' Hs IH Hf]; simpl; [done|].
  intros [[= -> ->]|Hin]; [by rewrite bool_decide_true|].
  rewrite bool_decide_false; [by apply IH|]. intros ->.
  rewrite List.Forall_forall in Hf. specialize (Hf _ Hin). unfold key_lt in Hf. simpl in Hf.
  by apply text_lt_ne in Hf.
Qed.

Lemma sorted_after {T} (R : T -> T -> Prop) (pre post : list T) (x : T) :
  StronglySorted R (pre ++ x :: post) -> Forall (R x) post.
Proof.
  induction pre as [|y pre IH]; simpl; intros H; apply StronglySorted_inv in H as [H1 H2]; auto.
Qed.

(** ** ORDER BY count DESC, then [.first()]: the first group of largest count *)

Lemma insert_desc_nonempty (x : string * nat) (l : list (string * nat)) : insert_desc x l <> [].
Proof. destruct l; simpl; [done|]. by case_match. Qed.

Lemma order_by_head (g : list (string * nat)) (x : string * nat) :
  head (order_by_count_desc g) = Some x ->
  exists pre post, g = pre ++ x :: post /\
    Forall (fun y => (y.2 < x.2)%nat) pre /\ Forall (fun y => (y.2 <= x.2)%nat) post.
Proof.
  revert x; induction g as [|y g' IH]; intros x; simpl; [discriminate|].
  fold (order_by_count_desc g').
  destruct (order_by_count_desc g') as [|z L] eqn:E; simpl.
  - intros [= <-]. destruct g'; [|simpl in E; by apply insert_desc_nonempty in E].
    exists [], []. auto.
  - destruct (Nat.leb_spec z.2 y.2) as [Hzy|Hzy]; simpl; intros [= <-].
    + destruct (IH z eq_refl) as (pre & post & -> & Hpre & Hpost).
      exists [], (pre ++ z :: post). split; [done|]. split; [constructor|].
      apply Forall_app; split; [|constructor; [done|]];
        eapply Forall_impl; eauto; simpl; intros; lia.
    + destruct (IH z eq_refl) as (pre & post & -> & Hpre & Hpost).
      exists (y :: pre), post. split; [done|]. split; [constructor; [lia|done]|done].
Qed.

(** ** The most active station: abstract specification and refinement *)

(** [st] has rows, and every other station has fewer rows, or as many
    and a key not below [st]: the station with the largest count, ties
    going to the smallest key under BINARY collation. *)
Definition is_most_active (rows : list Measurement) (st : string) : Prop :=
  (0 < count_station st rows)%nat /\
  forall s, (count_station s rows < count_station st rows)%nat \/
            (count_station s rows = count_station st rows /\ Text.text_le st s = true).

Lemma is_most_active_unique (rows : list Measurement) (s1 s2 : string) :
  is_most_active rows s1 -> is_most_active rows s2 -> s1 = s2.
Proof.
  intros [_ H1] [_ H2]. destruct (H1 s2) as [?|[? ?]], (H2 s1) as [?|[? ?]]; try lia.
  by apply Text.text_le_antisym.
Qed.

Lemma count_station_first (r : Measurement) (rows : list Measurement) :
  (0 < count_station (m_station r) (r :: rows))%nat.
Proof. unfold count_station. simpl. rewrite bool_decide_true by done. simpl. lia. Qed.

Lemma group_by_station_nil (rows : list Measurement) :
  group_by_station rows = [] -> rows = [].
Proof.
  destruct rows as [|r rows]; [done|]. intros E.
  destruct (group_by_station_inv (r :: rows)) as (_ & _ & Hc).
  pose proof (count_station_first r rows) as Hp. rewrite <- Hc, E in Hp. simpl in Hp. lia.
Qed.

Lemma most_active_row_spec (db : Dataset) :
  match q_most_active_row db with
  | None => measurement db = []
  | Some (st, n) => n = count_station st (measurement db) /\ is_most_active (measurement db) st
  end.
Proof.
  unfold q_most_active_row. set (rows := measurement db). set (g := group_by_station rows).
  destruct (group_by_station_inv rows) as (Hs & Hp & Hc). fold g in Hs, Hp, Hc.
  destruct (head (order_by_count_desc g)) as [[st n]|] eqn:E.
  - destruct (order_by_head g _ E) as (pre & post & Hg & Hpre & Hpost).
    assert (Hin : In (st, n) g) by (rewrite Hg; apply in_or_app; right; left; done).
    assert (Hn : n = count_station st rows) by (rewrite <- Hc; symmetry; by apply in_glookup).
    rewrite List.Forall_forall in Hp. pose proof (Hp _ Hin) as Hpos; simpl in Hpos.
    split; [done|]. split; [lia|]. intros s.
    destruct (Nat.eq_dec (count_station s rows) 0%nat) as [H0|H0]; [left; lia|].
    assert (Hs' : In (s, count_station s rows) g) by (rewrite <- Hc; apply glookup_in; rewrite Hc; lia).
    rewrite Hg in Hs'. apply in_app_or in Hs' as [Hpre'|[Heq|Hpost']].
    + left. rewrite List.Forall_forall in Hpre. specialize (Hpre _ Hpre'). simpl in Hpre. lia.
    + injection Heq as -> ->. right. split; [done|]. apply Text.text_le_refl.
    + rewrite List.Forall_forall in Hpost. specialize (Hpost _ Hpost'). simpl in Hpost.
      destruct (Nat.eq_dec (count_station s rows) n) as [He|He]; [right|left; lia].
      split; [lia|]. apply Text.text_le_spec. left.
      unfold keys_sorted in Hs. rewrite Hg in Hs. apply sorted_after in Hs.
      rewrite List.Forall_forall in Hs. exact (Hs _ Hpost').
  - apply group_by_station_nil. fold g. clearbody g. destruct g as [|x g']; [done|].
    exfalso. simpl in E. pose proof (insert_desc_nonempty x (order_by_count_desc g')) as Hne.
    destruct (insert_desc x _); [contradiction | discriminate].
Qed.

(** C3: [GROUP BY station ORDER BY count(station) DESC .first()] refines
    the specification: it returns the row [(st, count of st)] exactly
    when [st] is the most active station (largest count, ties to the
    smallest key). *)
Theorem most_active_refines (db : Dataset) (st : string) :
  q_most_active_row db = Some (st, count_station st (measurement db)) <->
  is_most_active (measurement db) st.
Proof.
  pose proof (most_active_row_spec db) as Hspec. split.
  - intros E. rewrite E in Hspec. apply Hspec.
  - intros Hm. destruct (q_most_active_row db) as [[st' n]|] eqn:E.
    + destruct Hspec as [-> Hm']. by rewrite (is_most_active_unique _ st' st Hm' Hm).
    + destruct Hm as [Hpos _]. unfold count_station in Hpos. rewrite Hspec in Hpos. simpl in Hpos. lia.
Qed.

(** ** The temperature statistics *)

(** The non-NULL [tobs] of the rows a condition keeps, in scan order. *)
Definition selected_tobs (db : Dataset) (cond : Measurement -> bool) : list Q :=
  non_null (map m_tobs (List.filter cond (measurement db))).

Lemma fold_Qplus_lower (l : list Q) (a m : Q) : (forall x, In x l -> m <= x) ->
  a + inject_Z (Z.of_nat (List.length l)) * m <= fold_left Qplus l a.
Proof.
  revert a; induction l as [|x l IH]; intros a Hl; simpl.
  - rewrite Qmult_0_l, Qplus_0_r. apply Qle_refl.
  - assert (m <= x) by (apply Hl; left; done).
    specialize (IH (a + x) (fun y Hy => Hl y (or_intror Hy))).
    rewrite Nat2Z.inj_succ, <- Z.add_1_r, inject_Z_plus, Qmult_plus_distr_l.
    change (inject_Z 1) with 1. rewrite Qmult_1_l. lra.
Qed.

Lemma fold_Qplus_upper (l : list Q) (a m : Q) : (forall x, In x l -> x <= m) ->
  fold_left Qplus l a <= a + inject_Z (Z.of_nat (List.length l)) * m.
Proof.
  revert a; induction l as [|x l IH]; intros a Hl; simpl.
  - rewrite Qmult_0_l, Qplus_0_r. apply Qle_refl.
  - assert (x <= m) by (apply Hl; left; done).
    specialize (IH (a + x) (fun y Hy => Hl y (or_intror Hy))).
    rewrite Nat2Z.inj_succ, <- Z.add_1_r, inject_Z_plus, Qmult_plus_distr_l.
    change (inject_Z 1) with 1. rewrite Qmult_1_l. lra.
Qed.

(** The mean of values bounded by [lo] and [hi] lies between them. *)
Lemma mean_bounds (l : list Q) (lo hi : Q) : l <> [] ->
  (forall x, In x l -> lo <= x <= hi) ->
  lo <= fold_left Qplus l 0 / inject_Z (Z.of_nat (List.length l)) <= hi.
Proof.
  intros Hne Hb.
  assert (Hn : 0 < inject_Z (Z.of_nat (List.length l))).
  { destruct l; [done|]. unfold Qlt, inject_Z. simpl. lia. }
  pose proof (fold_Qplus_lower l 0 lo (fun x H => proj1 (Hb x H))).
  pose proof (fold_Qplus_upper l 0 hi (fun x H => proj2 (Hb x H))).
  split; [apply Qle_shift_div_l | apply Qle_shift_div_r]; auto; rewrite Qmult_comm; lra.
Qed.

(** What the three aggregates of a statistics row promise about the
    selected temperatures [sel]: all NULL when there is none; otherwise
    [min] and [max] are temperatures bounding all of them and [avg] is
    their mean, between the two. *)
Definition stats_ok (sel : list Q) (r : option Q * option Q * option Q) : Prop :=
  match r with
  | (None, None, None) => sel = []
  | (Some mn, Some mx, Some av) =>
      In mn sel /\ In mx sel /\ (forall x, In x sel -> mn <= x <= mx) /\
      av = fold_left Qplus sel 0 / inject_Z (Z.of_nat (List.length sel)) /\ mn <= av <= mx
  | _ => False
  end.

Lemma tobs_stats_spec (db : Dataset) (cond : Measurement -> bool) :
  stats_ok (selected_tobs db cond) (q_tobs_stats db cond).
Proof.
  unfold stats_ok, q_tobs_stats, selected_tobs. set (col := map m_tobs _).
  pose proof (@agg_min_spec Q _ _ col) as Hmin. pose proof (@agg_max_spec Q _ _ col) as Hmax.
  unfold agg_avg. destruct (non_null col) as [|v vs] eqn:E.
  - destruct (agg_min col) as [mn|]; [by destruct Hmin as [[] _]|].
    destruct (agg_max col) as [mx|]; [by destruct Hmax as [[] _]|]. done.
  - destruct (agg_min col) as [mn|]; [|discriminate].
    destruct (agg_max col) as [mx|]; [|discriminate].
    destruct Hmin as [Hmn Hmin], Hmax as [Hmx Hmax].
    assert (Hb : forall x, In x (v :: vs) -> mn <= x <= mx).
    { intros x Hx. split; [apply Qle_bool_iff, Hmin | apply Qle_bool_iff, Hmax]; done. }
    split; [done|]. split; [done|]. split; [done|]. split; [done|].
    apply mean_bounds; [done|exact Hb].
Qed.

End Sql.
