(* ===== verification/PyDict.v ===== *)
(** * Python's [dict] and the comprehension of [precipitation()]

    [app.py] line 60 builds [{date: prcp for date, prcp in precipitation_data}].
    A Python [dict] keeps its items in insertion order; [d[k] = v] on an
    existing key replaces the value in place, on a new key appends the
    item; the comprehension performs [d[k] = v] for the pairs in order.
    So when several rows share a date (several stations), the value kept
    is the one of the last row, at the position of the first.

    This file models the dict as its list of items and proves its
    invariant (keys without duplicates) and the lookup after the
    comprehension: every date is bound to the value of its last row. *)

From S2P Require Import Prelude.
From stdpp Require Import gmap.

Module PyDict.

Section Dict.
Context {K V : Type} `{Countable K}.

(** [d.get(k)]: the value of the first item with key [k]. *)
Fixpoint dict_get (k : K) (d : list (K * V)) : option V :=
  match d with
  | [] => None
  | (k', v') :: d' => if decide (k = k') then Some v' else dict_get k d'
  end.

(** [d[k] = v]. *)
Fixpoint dict_setitem (k : K) (v : V) (d : list (K * V)) : list (K * V) :=
  match d with
  | [] => [(k, v)]
  | (k', v') :: d' => if decide (k = k') then (k', v) :: d' else (k', v') :: dict_setitem k v d'
  end.

(** [{k: v for k, v in items}]. *)
Definition dict_comprehension (items : list (K * V)) : list (K * V) :=
  fold_left (fun d kv => dict_setitem kv.1 kv.2 d) items [].

(** The invariant of a dict: no key twice. *)
Definition dict_wf (d : list (K * V)) : Prop := NoDup d.*1.

(** ** Operations *)

Lemma dict_get_setitem (k k' : K) (v : V) (d : list (K * V)) :
  dict_get k' (dict_setitem k v d) = if decide (k' = k) then Some v else dict_get k' d.
Proof.
  induction d as [|[k0 v0] d IH]; simpl; [done|].
  destruct (decide (k = k0)) as [->|Hk]; simpl.
  - by destruct (decide (k' = k0)).
  - rewrite IH. destruct (decide (k' = k0)), (decide (k' = k)); congruence.
Qed.

Lemma keys_setitem (k : K) (v : V) (d : list (K * V)) :
  (dict_setitem k v d).*1 = if decide (k ∈ d.*1) then d.*1 else d.*1 ++ [k].
Proof.
  induction d as [|[k0 v0] d IH]; [done|]. cbn [dict_setitem].
  destruct (decide (k = k0)) as [->|Hk]; rewrite !fmap_cons; simpl.
  - rewrite decide_True; [done|]. set_solver.
  - rewrite IH. destruct (decide (k ∈ d.*1)), (decide (k ∈ k0 :: d.*1)); simpl;
      first [done | set_solver].
Qed.

Lemma dict_wf_setitem (k : K) (v : V) (d : list (K * V)) :
  dict_wf d -> dict_wf (dict_setitem k v d).
Proof.
  unfold dict_wf. rewrite keys_setitem. case_decide; [done|].
  intros Hd. apply NoDup_app. split; [done|]. split; [set_solver|]. apply NoDup_singleton.
Qed.

(** ** The comprehension *)

(** The values the pairs give to key [k], in order. *)
Definition values_of (k : K) (items : list (K * V)) : list V :=
  (List.filter (fun kv => bool_decide (kv.1 = k)) items).*2.

Lemma dict_get_fold (items d : list (K * V)) (k : K) :
  dict_get k (fold_left (fun d kv => dict_setitem kv.1 kv.2 d) items d) =
  match last (values_of k items) with Some v => Some v | None => dict_get k d end.
Proof.
  revert d; induction items as [|[k0 v0] items IH]; intros d; simpl; [done|].
  rewrite IH, dict_get_setitem. unfold values_of; simpl.
  destruct (decide (k = k0)) as [->|Hk].
  - rewrite bool_decide_true by done. rewrite fmap_cons, last_cons. by destruct (last _).
  - rewrite bool_decide_false by done. done.
Qed.

Lemma dict_wf_fold (items d : list (K * V)) :
  dict_wf d -> dict_wf (fold_left (fun d kv => dict_setitem kv.1 kv.2 d) items d).
Proof.
  revert d; induction items as [|kv items IH]; intros d Hd; simpl; [done|].
  apply IH, dict_wf_setitem, Hd.
Qed.

(** C22: the comprehension builds a dict (no key twice) in which every key
    is bound to the value of its last pair. *)
Theorem dict_comprehension_spec (items : list (K * V)) :
  dict_wf (dict_comprehension items) /\
  forall k, dict_get k (dict_comprehension items) = last (values_of k items).
Proof.
  split; [apply dict_wf_fold; constructor|].
  intros k. unfold dict_comprehension. rewrite dict_get_fold. by destruct (last _).
Qed.

(** A property of all the values of the pairs holds of the values of
    the comprehension. *)
Lemma dict_setitem_Forall (P : V -> Prop) (k : K) (v : V) (d : list (K * V)) :
  Forall (fun kv => P kv.2) d -> P v -> Forall (fun kv => P kv.2) (dict_setitem k v d).
Proof.
  induction d as [|[k0 v0] d IH]; simpl; intros Hd Hv; [by constructor|].
  apply Forall_cons in Hd as [H0 Hd]. case_decide; constructor; auto.
Qed.

Lemma dict_comprehension_Forall (P : V -> Prop) (items : list (K * V)) :
  Forall (fun kv => P kv.2) items -> Forall (fun kv => P kv.2) (dict_comprehension items).
Proof.
  unfold dict_comprehension. intros Hit.
  assert (Hd : Forall (fun kv : K * V => P kv.2) []) by constructor. revert Hd.
  generalize (@nil (K * V)) as d. induction Hit as [|kv items Hkv _ IH]; intros d Hd; simpl; [done|].
  apply IH, dict_setitem_Forall; done.
Qed.

End Dict.

End PyDict.
