(* ===== verification/Handlers.v ===== *)
(** * The route handlers of [app.py]

    Each Flask view of [src/app.py] (lines 37-114) as a function from the
    database to the Python value it passes to [jsonify], in the error
    monad [res]: the exceptions it can raise ([TypeError] when the
    [measurement] table is empty, [ValueError] from [strptime],
    [OverflowError] from the date arithmetic) are values.  The handlers
    are composed of the SQL of [SqlQuery], the date functions of
    [Calendar] and [DateFormat] and the dict of [PyDict], in the order of
    the source.

    The theorems state each handler's result in terms of dates: on a
    database whose dates are canonical [YYYY-MM-DD] strings, the string
    filters of the source select exactly the rows of the trailing
    365-day window, and the statistics routes compute min, max and mean
    of the selected temperatures, all NULL when there is none. *)

From S2P Require Import Prelude SqlText Calendar DateFormat SqlQuery PyDict.
From stdpp Require Import strings.
From Stdlib Require Import String QArith.
Import Calendar DateFormat Sql PyDict.

Module Handlers.

(** The Python values the views hand to [jsonify]. *)
Inductive pyval : Type :=
  | PNone
  | PFloat (q : Q)
  | PStr (s : string)
  | PList (l : list pyval)
  | PDict (d : list (string * pyval)).

(** A REAL column value: [None] for NULL. *)
Definition of_real (o : option Q) : pyval :=
  match o with Some q => PFloat q | None => PNone end.

Local Open Scope py_scope.
Local Open Scope Z_scope.

(** Lines 54-56 (and 73-75): [most_recent_date], parsed, minus 365 days,
    printed back.  [strptime(None, ...)] raises [TypeError]. *)
Definition one_year_ago (db : Dataset) : res string :=
  most_recent_date <- of_option TypeError (q_max_date db) ;;
  most_recent_date_dt <- strptime most_recent_date ;;
  start <- sub_days most_recent_date_dt 365 ;;
  Ok (strftime start).

(** [welcome()], lines 38-49. *)
Definition welcome_text : string :=
  "Hi! Welcome to my climate API!<br/>" ++
  "Available Routes:<br/>" ++
  "/api/v1.0/precipitation<br/>" ++
  "/api/v1.0/stations<br/>" ++
  "/api/v1.0/tobs<br/>" ++
  "Enter a start date in the format 'YYYY-MM-DD' to get the minimum, average, and maximum temperature from that date:<br/>" ++
  "/api/v1.0/&lt;start&gt;<br/>" ++
  "Enter a start date and an end date in the format 'YYYY-MM-DD' to get the minimum, average, and maximum temperature between those dates:<br/>" ++
  "/api/v1.0/&lt;start&gt;/&lt;end&gt".

(** [precipitation()], lines 53-61. *)
Definition precipitation (db : Dataset) : res pyval :=
  one_year_ago <- one_year_ago db ;;
  let precipitation_data := q_date_prcp_since db one_year_ago in
  Ok (PDict (dict_comprehension (map (fun '(date, prcp) => (date, of_real prcp)) precipitation_data))).

(** [stations()], lines 65-68. *)
Definition stations (db : Dataset) : res pyval :=
  Ok (PList (map PStr (q_station_ids db))).

(** [tobs()], lines 72-83: [.first()] is [None] on an empty table and
    [None[0]] raises [TypeError]. *)
Definition tobs (db : Dataset) : res pyval :=
  one_year_ago <- one_year_ago db ;;
  row <- of_option TypeError (q_most_active_row db) ;;
  let most_active_station := row.1 in
  let tobs_data := q_date_tobs_for db most_active_station one_year_ago in
  Ok (PList (map (fun '(_, temp) => of_real temp) tobs_data)).

(** The [{"MIN": ..., "MAX": ..., "AVG": ...}] of lines 98 and 113. *)
Definition stats_dict (r : option Q * option Q * option Q) : pyval :=
  let '(mn, mx, av) := r in
  PDict [("MIN", of_real mn); ("MAX", of_real mx); ("AVG", of_real av)].

(** [start_end_date(start, end)], lines 87-99. *)
Definition start_end_date (db : Dataset) (start end_ : string) : res pyval :=
  Ok (stats_dict (q_tobs_stats db (fun r => date_ge start r && date_le end_ r))).

(** [start_date(start)], lines 103-114. *)
Definition start_date (db : Dataset) (start : string) : res pyval :=
  Ok (stats_dict (q_tobs_stats db (date_ge start))).

(** ** The handlers in terms of dates *)

(** Every [measurement.date] is a canonical [YYYY-MM-DD] string. *)
Definition dates_canonical (db : Dataset) : bool :=
  forallb (fun r => canonical_date (m_date r)) (measurement db).

(** The ordinal of the most recent date. *)
Definition latest_ordinal (db : Dataset) : Z :=
  fold_left Z.max (map (fun r => date_ord (m_date r)) (measurement db)) 0.

(** A row of the trailing window: at most 365 days before the latest. *)
Definition in_window (db : Dataset) (r : Measurement) : bool :=
  latest_ordinal db - 365 <=? date_ord (m_date r).

Definition window_rows (db : Dataset) : list Measurement :=
  List.filter (in_window db) (measurement db).

Lemma dates_canonical_in (db : Dataset) (r : Measurement) :
  dates_canonical db = true -> In r (measurement db) -> canonical_date (m_date r) = true.
Proof. unfold dates_canonical. rewrite forallb_forall. auto. Qed.

Lemma q_max_date_spec (db : Dataset) : dates_canonical db = true -> measurement db <> [] ->
  exists M, q_max_date db = Some M /\ canonical_date M = true /\ date_ord M = latest_ordinal db.
Proof.
  intros Hc Hne. unfold q_max_date.
  pose proof (@agg_max_spec string _ _ (map (fun r => Some (m_date r)) (measurement db))) as Hm.
  rewrite non_null_map_Some in Hm.
  destruct (agg_max _) as [M|]; [|by apply map_eq_nil in Hm].
  destruct Hm as [HM Hall]. apply in_map_iff in HM as [r0 [<- Hr0]].
  pose proof (dates_canonical_in db r0 Hc Hr0) as Hc0.
  exists (m_date r0). split; [done|]. split; [done|].
  unfold latest_ordinal. symmetry. apply fold_max_of.
  - pose proof (date_ord_range _ Hc0). lia.
  - by apply (in_map (fun r => date_ord (m_date r))).
  - intros y Hy. apply in_map_iff in Hy as [r [<- Hr]].
    specialize (Hall (m_date r) (in_map _ _ _ Hr)). unfold sql_le, text_order in Hall.
    rewrite canonical_text_le in Hall by eauto using dates_canonical_in.
    by apply Z.leb_le in Hall.
Qed.

Lemma latest_ordinal_range (db : Dataset) : dates_canonical db = true -> measurement db <> [] ->
  1 <= latest_ordinal db <= MAXORDINAL.
Proof.
  intros Hc Hne. destruct (q_max_date_spec db Hc Hne) as (M & _ & HcM & <-).
  by apply date_ord_range.
Qed.

(** Lines 54-56: the window start, or [OverflowError] when the latest
    date is within the first 365 days of year 1. *)
Lemma one_year_ago_spec (db : Dataset) : dates_canonical db = true -> measurement db <> [] ->
  one_year_ago db =
  if 365 <? latest_ordinal db then Ok (strftime (ord2ymd (latest_ordinal db - 365)))
  else Err OverflowError.
Proof.
  intros Hc Hne. pose proof (latest_ordinal_range db Hc Hne).
  destruct (q_max_date_spec db Hc Hne) as (M & HM & HcM & Hord).
  apply canonical_spec in HcM as (dM & HvM & ->).
  rewrite date_ord_strftime in Hord by done.
  unfold one_year_ago. rewrite HM. simpl. rewrite strptime_strftime_ok by done. simpl.
  unfold sub_days. rewrite Hord.
  destruct (Z.ltb_spec 365 (latest_ordinal db)), (Z.ltb_spec 0 (latest_ordinal db - 365)),
    (Z.leb_spec (latest_ordinal db - 365) MAXORDINAL); simpl; done || lia.
Qed.

(** On canonical dates, the SQL filter [date >= one_year_ago] is the
    window test. *)
Lemma date_ge_window (db : Dataset) (r : Measurement) :
  dates_canonical db = true -> measurement db <> [] -> 365 < latest_ordinal db ->
  In r (measurement db) ->
  date_ge (strftime (ord2ymd (latest_ordinal db - 365))) r = in_window db r.
Proof.
  intros Hc Hne Hl Hr. pose proof (latest_ordinal_range db Hc Hne).
  assert (Hw : valid_date (ord2ymd (latest_ordinal db - 365)) = true)
    by (apply valid_date_ord2ymd; lia).
  assert (Hcw : canonical_date (strftime (ord2ymd (latest_ordinal db - 365))) = true)
    by (apply canonical_spec; eauto).
  unfold date_ge, Text.text_ge, in_window.
  rewrite canonical_text_le by first [exact Hcw | exact (dates_canonical_in db r Hc Hr)].
  rewrite date_ord_strftime, ymd2ord_ord2ymd by (done || lia). reflexivity.
Qed.

(** ** Main theorems *)

(** C1: on a database of canonical dates, [precipitation()] returns the
    dict comprehension over the rows of the trailing 365-day window
    (each date bound to the [prcp] of its last row), or raises
    [OverflowError] when the latest date is within 365 days of
    0001-01-01. *)
Theorem precipitation_spec (db : Dataset) :
  dates_canonical db = true -> measurement db <> [] ->
  precipitation db =
  if 365 <? latest_ordinal db then
    Ok (PDict (dict_comprehension (map (fun r => (m_date r, of_real (m_prcp r))) (window_rows db))))
  else Err OverflowError.
Proof.
  intros Hc Hne. unfold precipitation. rewrite one_year_ago_spec by done.
  destruct (Z.ltb_spec 365 (latest_ordinal db)); [simpl|done].
  unfold q_date_prcp_since, window_rows.
  rewrite (List.filter_ext_in _ (in_window db)) by (intros; by apply date_ge_window).
  by rewrite map_map.
Qed.

(** C2: on a database of canonical dates, [tobs()] returns, in rowid
    order, the temperatures of the trailing-window rows of the most
    active station, or raises [OverflowError] as [precipitation()]. *)
Theorem tobs_spec (db : Dataset) :
  dates_canonical db = true -> measurement db <> [] ->
  exists st, is_most_active (measurement db) st /\
  tobs db =
  if 365 <? latest_ordinal db then
    Ok (PList (map (fun r => of_real (m_tobs r))
                 (List.filter (fun r => bool_decide (m_station r = st)) (window_rows db))))
  else Err OverflowError.
Proof.
  intros Hc Hne. pose proof (most_active_row_spec db) as Hm.
  destruct (q_most_active_row db) as [[st n]|] eqn:E; [|done].
  exists st. split; [apply Hm|].
  unfold tobs. rewrite one_year_ago_spec by done.
  destruct (Z.ltb_spec 365 (latest_ordinal db)); [simpl|done]. rewrite E. simpl.
  unfold q_date_tobs_for, window_rows. rewrite filter_and, map_map.
  do 3 f_equal. apply List.filter_ext_in. intros r Hr.
  rewrite date_ge_window by done. apply andb_comm.
Qed.

(** C7: with an empty [measurement] table, [precipitation()] and [tobs()]
    raise [TypeError] ([strptime(None, ...)]): Flask answers 500, where
    the specification asks for an empty or null payload. *)
Theorem empty_table_type_error (db : Dataset) : measurement db = [] ->
  precipitation db = Err TypeError /\ tobs db = Err TypeError.
Proof.
  intros E. unfold precipitation, tobs, one_year_ago, q_max_date. rewrite E. done.
Qed.

(** On canonical dates, the SQL range [start <= date <= end] is the
    range of ordinals. *)
Lemma date_range_filter (db : Dataset) (s e : string) :
  dates_canonical db = true -> canonical_date s = true -> canonical_date e = true ->
  List.filter (fun r => date_ge s r && date_le e r) (measurement db) =
  List.filter (fun r => (date_ord s <=? date_ord (m_date r)) && (date_ord (m_date r) <=? date_ord e))
    (measurement db).
Proof.
  intros Hc Hs He. apply List.filter_ext_in. intros r Hr.
  unfold date_ge, date_le, Text.text_ge.
  by rewrite !canonical_text_le by eauto using dates_canonical_in.
Qed.

(** C6: [start_end_date(start, end)] returns [{"MIN", "MAX", "AVG"}] with
    the statistics of the temperatures of the rows with
    [start <= date <= end] as strings; on canonical dates these are the
    rows whose ordinal lies between those of [start] and [end]. *)
Theorem start_end_date_spec (db : Dataset) (s e : string) :
  exists r, start_end_date db s e = Ok (stats_dict r) /\
  stats_ok (selected_tobs db (fun m => date_ge s m && date_le e m)) r /\
  (dates_canonical db = true -> canonical_date s = true -> canonical_date e = true ->
   selected_tobs db (fun m => date_ge s m && date_le e m) =
   non_null (map m_tobs (List.filter
     (fun m => (date_ord s <=? date_ord (m_date m)) && (date_ord (m_date m) <=? date_ord e))
     (measurement db)))).
Proof.
  eexists. split; [reflexivity|]. split; [apply tobs_stats_spec|].
  intros Hc Hs He. unfold selected_tobs. by rewrite date_range_filter.
Qed.

(** C23: when [end] is an earlier canonical date than [start], all three
    statistics are [None] (JSON null). *)
Theorem start_after_end_null (db : Dataset) (s e : string) :
  dates_canonical db = true -> canonical_date s = true -> canonical_date e = true ->
  date_ord e < date_ord s ->
  start_end_date db s e = Ok (stats_dict (None, None, None)).
Proof.
  intros Hc Hs He Hlt. unfold start_end_date, q_tobs_stats.
  rewrite date_range_filter by done.
  rewrite (List.filter_ext_in _ (fun _ => false)).
  - clear. induction (measurement db); simpl; done.
  - intros r _. destruct (Z.leb_spec (date_ord s) (date_ord (m_date r))); simpl; [|done].
    apply Z.leb_gt. lia.
Qed.

(** C24: [start_date(start)] has no upper bound: it equals
    [start_end_date(start, end)] for any [end] not below any stored date. *)
Theorem start_date_unbounded (db : Dataset) (s e : string) :
  forallb (fun r => Text.text_le (m_date r) e) (measurement db) = true ->
  start_date db s = start_end_date db s e.
Proof.
  intros Hall. unfold start_date, start_end_date, q_tobs_stats.
  rewrite (List.filter_ext_in (date_ge s) (fun r => date_ge s r && date_le e r)); [done|].
  intros r Hr. rewrite forallb_forall in Hall.
  unfold date_le. rewrite (Hall r Hr). symmetry. apply andb_true_r.
Qed.

(** [strptime] raises only [ValueError], the date arithmetic only
    [OverflowError]. *)
Lemma strptime_err (s : string) (e : exn) : strptime s = Err e -> e = ValueError.
Proof.
  unfold strptime. destruct (head (format_matches s)) as [[[[y m] d] rest]|]; [|congruence].
  destruct rest; [|congruence]. destruct (valid_date _); congruence.
Qed.

Lemma sub_days_err (d : date) (k : Z) (e : exn) : sub_days d k = Err e -> e = OverflowError.
Proof. unfold sub_days. destruct (_ && _); congruence. Qed.

Lemma one_year_ago_value_error (db : Dataset) :
  one_year_ago db = Err ValueError <-> exists s, q_max_date db = Some s /\ strptime s = Err ValueError.
Proof.
  unfold one_year_ago. destruct (q_max_date db) as [s|]; simpl; [|split; [discriminate|by intros (? & ? & _)]].
  destruct (strptime s) as [dt|e] eqn:E; simpl.
  - split; [|intros (? & [= <-] & ?); congruence]. destruct (sub_days dt 365) eqn:Es; simpl; [discriminate|].
    intros [= ->]. apply sub_days_err in Es. discriminate.
  - pose proof (strptime_err s e E) as ->. split; [eauto|done].
Qed.

(** C12: [precipitation()] and [tobs()] raise [ValueError] exactly when
    the latest stored date is a string [strptime] rejects: stored dates
    are never validated, and only the latest one is ever parsed. *)
Theorem malformed_latest_date (db : Dataset) :
  (precipitation db = Err ValueError <-> exists s, q_max_date db = Some s /\ strptime s = Err ValueError) /\
  (tobs db = Err ValueError -> exists s, q_max_date db = Some s /\ strptime s = Err ValueError).
Proof.
  rewrite <- one_year_ago_value_error. unfold precipitation, tobs.
  destruct (one_year_ago db) as [start|e]; simpl;
    [|split; [split|]; intros H; injection H as ->; reflexivity].
  split; [split; discriminate|]. destruct (q_most_active_row db); simpl; intros H; discriminate H.
Qed.

(** ** A concrete database *)

Definition example_db : Dataset := mkDataset
  [mkMeasurement 1 "USC1" "2016-08-22" (Some (1#2)%Q) (Some 70%Q);
   mkMeasurement 2 "USC1" "2016-08-23" (Some (1#10)%Q) (Some 72%Q);
   mkMeasurement 3 "USC2" "2017-08-23" None (Some 80%Q);
   mkMeasurement 4 "USC2" "2017-08-23" (Some (3#10)%Q) (Some 78%Q);
   mkMeasurement 5 "USC2" "2017-01-01" (Some 0%Q) (Some 60%Q)]
  [mkStation 1 "USC1" "A" None None None; mkStation 2 "USC2" "B" None None None].

Definition empty_db : Dataset := mkDataset [] [].

(** 2016-08-22 is out of the window, 2016-08-23 (exactly 365 days
    before 2017-08-23) is in; the second row of 2017-08-23 wins. *)
Example precipitation_example :
  precipitation example_db =
  Ok (PDict [("2016-08-23", PFloat (1#10)%Q); ("2017-08-23", PFloat (3#10)%Q); ("2017-01-01", PFloat 0%Q)]).
Proof. vm_compute. reflexivity. Qed.

Example tobs_example : tobs example_db = Ok (PList [PFloat 80%Q; PFloat 78%Q; PFloat 60%Q]).
Proof. vm_compute. reflexivity. Qed.

Example stations_example : stations example_db = Ok (PList [PStr "USC1"; PStr "USC2"]).
Proof. reflexivity. Qed.

Example start_end_example :
  start_end_date example_db "2016-08-23" "2017-01-01" =
  Ok (PDict [("MIN", PFloat 60%Q); ("MAX", PFloat 72%Q); ("AVG", PFloat (132 # 2)%Q)]).
Proof. vm_compute. reflexivity. Qed.

(** The examples of the specification (section 8). *)

(** [n] rows of station [st]. *)
Definition rows_of (st : string) (n : nat) : list Measurement :=
  repeat (mkMeasurement 0 st "2017-01-01" None (Some 70%Q)) n.

(** Counts [A:5, B:9, C:9], rows of [C] stored before those of [B]: the
    tie goes to [B], the smaller key, whatever the storage order. *)
Example spec_most_active_tie :
  q_most_active_row (mkDataset (rows_of "A" 5 ++ rows_of "C" 9 ++ rows_of "B" 9) []) = Some ("B", 9%nat).
Proof. vm_compute. reflexivity. Qed.

(** The selection [60, 70, 80] gives [MIN 60, MAX 80, AVG 70]. *)
Example spec_stats_60_70_80 :
  start_date (mkDataset [mkMeasurement 1 "S" "2017-01-01" None (Some 60%Q);
                         mkMeasurement 2 "S" "2017-01-02" None (Some 70%Q);
                         mkMeasurement 3 "S" "2017-01-03" None (Some 80%Q)] []) "2017-01-01" =
  Ok (PDict [("MIN", PFloat 60%Q); ("MAX", PFloat 80%Q); ("AVG", PFloat (210 # 3)%Q)]).
Proof. vm_compute. reflexivity. Qed.

(** An empty selection gives three [None]. *)
Example spec_stats_empty :
  start_end_date example_db "2018-01-01" "2018-12-31" = Ok (stats_dict (None, None, None)).
Proof. vm_compute. reflexivity. Qed.

(** ** Witnesses *)

Lemma precipitation_spec_witness :
  dates_canonical example_db = true /\ measurement example_db <> [] /\
  precipitation example_db =
  if 365 <? latest_ordinal example_db then
    Ok (PDict (dict_comprehension (map (fun r => (m_date r, of_real (m_prcp r))) (window_rows example_db))))
  else Err OverflowError.
Proof.
  split; [vm_compute; reflexivity|]. split; [discriminate|].
  apply precipitation_spec; [vm_compute; reflexivity | discriminate].
Defined.

Lemma tobs_spec_witness :
  dates_canonical example_db = true /\ measurement example_db <> [] /\
  exists st, is_most_active (measurement example_db) st /\
  tobs example_db =
  if 365 <? latest_ordinal example_db then
    Ok (PList (map (fun r => of_real (m_tobs r))
                 (List.filter (fun r => bool_decide (m_station r = st)) (window_rows example_db))))
  else Err OverflowError.
Proof.
  split; [vm_compute; reflexivity|]. split; [discriminate|].
  apply tobs_spec; [vm_compute; reflexivity | discriminate].
Defined.

Lemma empty_table_type_error_witness : measurement empty_db = [] /\
  (precipitation empty_db = Err TypeError /\ tobs empty_db = Err TypeError).
Proof. split; [reflexivity | apply empty_table_type_error; reflexivity]. Defined.

Lemma start_end_date_spec_witness :
  exists r, start_end_date example_db "2016-08-23" "2017-01-01" = Ok (stats_dict r) /\
  stats_ok (selected_tobs example_db (fun m => date_ge "2016-08-23" m && date_le "2017-01-01" m)) r /\
  (dates_canonical example_db = true -> canonical_date "2016-08-23" = true ->
   canonical_date "2017-01-01" = true ->
   selected_tobs example_db (fun m => date_ge "2016-08-23" m && date_le "2017-01-01" m) =
   non_null (map m_tobs (List.filter
     (fun m => (date_ord "2016-08-23" <=? date_ord (m_date m)) && (date_ord (m_date m) <=? date_ord "2017-01-01"))
     (measurement example_db)))).
Proof. apply (start_end_date_spec example_db "2016-08-23" "2017-01-01"). Defined.

(** A database whose latest date is malformed: month 13. *)
Definition malformed_db : Dataset := mkDataset
  [mkMeasurement 1 "USC1" "2017-08-23" None (Some 70%Q);
   mkMeasurement 2 "USC1" "2017-13-01" None (Some 71%Q)]
  [].

Example malformed_precipitation : precipitation malformed_db = Err ValueError.
Proof. vm_compute. reflexivity. Qed.

Lemma start_after_end_null_witness :
  dates_canonical example_db = true /\ canonical_date "2017-08-23" = true /\
  canonical_date "2016-08-23" = true /\ date_ord "2016-08-23" < date_ord "2017-08-23" /\
  start_end_date example_db "2017-08-23" "2016-08-23" = Ok (stats_dict (None, None, None)).
Proof.
  split; [vm_compute; reflexivity|]. split; [reflexivity|]. split; [reflexivity|].
  split; [vm_compute; reflexivity|].
  apply start_after_end_null; vm_compute; reflexivity.
Defined.

Lemma start_date_unbounded_witness :
  forallb (fun r => Text.text_le (m_date r) "9999-12-31") (measurement example_db) = true /\
  start_date example_db "2017-01-01" = start_end_date example_db "2017-01-01" "9999-12-31".
Proof. split; [reflexivity | apply start_date_unbounded; reflexivity]. Defined.

Lemma malformed_latest_date_witness :
  q_max_date malformed_db = Some "2017-13-01" /\ strptime "2017-13-01" = Err ValueError /\
  ((precipitation malformed_db = Err ValueError <->
    exists s, q_max_date malformed_db = Some s /\ strptime s = Err ValueError) /\
   (tobs malformed_db = Err ValueError ->
    exists s, q_max_date malformed_db = Some s /\ strptime s = Err ValueError)).
Proof.
  split; [vm_compute; reflexivity|]. split; [vm_compute; reflexivity|].
  apply (malformed_latest_date malformed_db).
Defined.

End Handlers.
