(* ===== verification/App.v ===== *)
(** * Routing and the request lifecycle of [app.py]

    [app.py] registers six rules with [@app.route] (lines 37, 52, 64, 71,
    86, 102) and a teardown hook [shutdown_session] that calls
    [session.close()] on the single global session after every request
    (lines 116-118).

    - Routing: Werkzeug's matcher walks the path segment by segment,
      trying the static segments of the rules before their converters
      (all [<start>]/[<end>] use the default [string] converter: one
      non-empty segment), with backtracking.  [match_parts] is that
      matcher over a rule table, [app_rules] the table of [app.py], and
      [route_table] shows that it is the explicit dispatch [spec_route]:
      in particular [/api/v1.0/tobs] reaches [tobs()], not [start_date].
    - Responses: a view's value is answered with status 200, an exception
      with 500, an unmatched path with 404 ([serve]).
    - Lifecycle: requests arrive, run and are torn down in any
      interleaving ([step]); a run executes the view's queries atomically
      on the shared session, which autobegins a transaction, and each
      teardown closes the session.  The invariant of the reachable
      states ([server_inv]: the database never changes and every response
      is [serve] of it) carries the theorem that the session is closed
      whenever no request is in flight. *)

From S2P Require Import Prelude SqlText Calendar DateFormat SqlQuery PyDict Handlers.
From stdpp Require Import strings gmap.
From Stdlib Require Import String.
Import Sql Handlers.

Module App.

(** ** Routing *)

(** A segment of a rule: literal text, or a [<name>] converter. *)
Inductive seg_pat := Static (s : string) | Conv (name : string).

(** The views of [app.py]. *)
Inductive view := VWelcome | VPrecipitation | VStations | VTobs | VStartEnd | VStart.

(** The rules whose next segment is the literal [p], advanced past it. *)
Fixpoint static_next {A} (p : string) (rules : list (list seg_pat * A)) : list (list seg_pat * A) :=
  match rules with
  | [] => []
  | (Static s :: pats, a) :: rules' =>
      if String.eqb s p then (pats, a) :: static_next p rules' else static_next p rules'
  | _ :: rules' => static_next p rules'
  end.

(** The rules whose next segment is a converter, advanced past it. *)
Fixpoint conv_next {A} (rules : list (list seg_pat * A)) : list (list seg_pat * A) :=
  match rules with
  | [] => []
  | (Conv _ :: pats, a) :: rules' => (pats, a) :: conv_next rules'
  | _ :: rules' => conv_next rules'
  end.

(** The rules that end here. *)
Fixpoint finished {A} (rules : list (list seg_pat * A)) : list A :=
  match rules with
  | [] => []
  | ([], a) :: rules' => a :: finished rules'
  | _ :: rules' => finished rules'
  end.

(** The [string] converter: any non-empty segment. *)
Definition string_converter (p : string) : bool := negb (String.eqb p "").

(** Werkzeug's state-machine matcher: static transitions first, then the
    converter, backtracking; the converter values in order. *)
Fixpoint match_parts {A} (rules : list (list seg_pat * A)) (parts vals : list string) :
    option (A * list string) :=
  match parts with
  | [] => option_map (fun a => (a, vals)) (head (finished rules))
  | p :: ps =>
      match match_parts (static_next p rules) ps vals with
      | Some r => Some r
      | None => if string_converter p then match_parts (conv_next rules) ps (vals ++ [p]) else None
      end
  end.

(** The [@app.route] rules, in the order of the source. *)
Definition app_rules : list (list seg_pat * view) :=
  [([], VWelcome);
   ([Static "api"; Static "v1.0"; Static "precipitation"], VPrecipitation);
   ([Static "api"; Static "v1.0"; Static "stations"], VStations);
   ([Static "api"; Static "v1.0"; Static "tobs"], VTobs);
   ([Static "api"; Static "v1.0"; Conv "start"; Conv "end"], VStartEnd);
   ([Static "api"; Static "v1.0"; Conv "start"], VStart)].

(** The path of a request, as its segments after the leading [/]. *)
Definition route (parts : list string) : option (view * list string) :=
  match_parts app_rules parts [].

(** Calling the view with the converter values. *)
Definition run_view (db : Dataset) (v : view) (vals : list string) : res pyval :=
  match v, vals with
  | VWelcome, [] => Ok (PStr welcome_text)
  | VPrecipitation, [] => precipitation db
  | VStations, [] => stations db
  | VTobs, [] => tobs db
  | VStartEnd, [s; e] => start_end_date db s e
  | VStart, [s] => start_date db s
  | _, _ => Err TypeError
  end.

(** ** Responses *)

Inductive response := Http200 (v : pyval) | Http404 | Http500 (e : exn).

Definition serve (db : Dataset) (parts : list string) : response :=
  match route parts with
  | None => Http404
  | Some (v, vals) =>
      match run_view db v vals with
      | Ok pv => Http200 pv
      | Err e => Http500 e
      end
  end.

(** Whether the view queries the session ([welcome] and 404 do not). *)
Definition uses_session (parts : list string) : bool :=
  match route parts with
  | None | Some (VWelcome, _) => false
  | Some _ => true
  end.

(** ** The dispatch table the rules amount to *)

(** Which view a path reaches, written out: the three static routes, then
    one or two date segments. *)
Definition spec_route (parts : list string) : option (view * list string) :=
  match parts with
  | [] => Some (VWelcome, [])
  | [a; b; x] =>
      if String.eqb "api" a && String.eqb "v1.0" b then
        if String.eqb "precipitation" x then Some (VPrecipitation, [])
        else if String.eqb "stations" x then Some (VStations, [])
        else if String.eqb "tobs" x then Some (VTobs, [])
        else if string_converter x then Some (VStart, [x]) else None
      else None
  | [a; b; s; e] =>
      if String.eqb "api" a && String.eqb "v1.0" b && string_converter s && string_converter e
      then Some (VStartEnd, [s; e]) else None
  | _ => None
  end.

(** ** The request lifecycle *)

(** The global [session]: closed, or in the transaction a query
    autobegins. *)
Inductive session_state := SessionClosed | SessionInTx.

(** The server: the database, the shared session, the requests in flight
    (path and, once the view has run, its response) and the answered
    requests in order. *)
Record server := mkServer {
  srv_db : Dataset;
  srv_session : session_state;
  srv_inflight : gmap nat (list string * option response);
  srv_done : list (nat * list string * response) }.

Definition init (db : Dataset) : server := mkServer db SessionClosed ∅ [].

(** One event of any interleaving of the requests. *)
Inductive step : server -> server -> Prop :=
  | step_arrive db ss inf dn id parts :
      inf !! id = None ->
      step (mkServer db ss inf dn) (mkServer db ss (<[id := (parts, None)]> inf) dn)
  | step_run db ss inf dn id parts :
      inf !! id = Some (parts, None) ->
      step (mkServer db ss inf dn)
           (mkServer db (if uses_session parts then SessionInTx else ss)
                     (<[id := (parts, Some (serve db parts))]> inf) dn)
  | step_teardown db ss inf dn id parts r :
      inf !! id = Some (parts, Some r) ->
      step (mkServer db ss inf dn) (mkServer db SessionClosed (delete id inf) (dn ++ [(id, parts, r)])).

Inductive star : server -> server -> Prop :=
  | star_refl s : star s s
  | star_step s1 s2 s3 : step s1 s2 -> star s2 s3 -> star s1 s3.

Lemma star_trans (s1 s2 s3 : server) : star s1 s2 -> star s2 s3 -> star s1 s3.
Proof. induction 1; eauto using star. Qed.

(** The invariant of every reachable state from [init db0]. *)
Definition server_inv (db0 : Dataset) (s : server) : Prop :=
  srv_db s = db0 /\
  (forall id parts r, srv_inflight s !! id = Some (parts, Some r) -> r = serve db0 parts) /\
  (forall id parts r, In (id, parts, r) (srv_done s) -> r = serve db0 parts) /\
  (srv_session s = SessionInTx -> exists id parts r, srv_inflight s !! id = Some (parts, Some r)).

Lemma init_inv (db : Dataset) : server_inv db (init db).
Proof.
  split; [done|]. split; [intros id p r; simpl; by rewrite lookup_empty|].
  split; [intros id p r []|discriminate].
Qed.

Lemma step_inv (db0 : Dataset) (s s' : server) : server_inv db0 s -> step s s' -> server_inv db0 s'.
Proof.
  intros (Hdb & Hin & Hdone & Hses) Hstep. destruct Hstep; unfold server_inv; simpl in *; subst db.
  - split; [done|]. split; [|split; [done|]].
    + intros id' p' r'. rewrite lookup_insert. case_decide; [congruence|apply Hin].
    + intros Hs. destruct (Hses Hs) as (id' & p' & r' & H').
      exists id', p', r'. rewrite lookup_insert_ne; [done|congruence].
  - split; [done|]. split; [|split; [done|]].
    + intros id' p' r'. rewrite lookup_insert. case_decide; [congruence|apply Hin].
    + intros Hs. destruct (uses_session parts).
      * exists id, parts, (serve db0 parts). by rewrite lookup_insert_eq.
      * destruct (Hses Hs) as (id' & p' & r' & H'). exists id', p', r'.
        rewrite lookup_insert_ne; [done|congruence].
  - split; [done|]. split; [|split; [|discriminate]].
    + intros id' p' r'. rewrite lookup_delete. case_decide; [discriminate|apply Hin].
    + intros id' p' r' [Hd|[[= -> -> ->]|[]]]%in_app_or; [by eapply Hdone|by eapply Hin].
Qed.

Lemma star_inv (db0 : Dataset) (s s' : server) : server_inv db0 s -> star s s' -> server_inv db0 s'.
Proof. intros Hs Hst. induction Hst; eauto using step_inv. Qed.

(** ** Main theorems *)

(** With no rule left, nothing matches. *)
Lemma match_parts_nil {A} (parts vals : list string) : match_parts (A:=A) [] parts vals = None.
Proof.
  revert vals; induction parts as [|p ps IH]; intros vals; simpl; [done|].
  rewrite IH. by destruct (string_converter p).
Qed.

(** The matcher over the rules, case by case on the segments. *)
Lemma route_eq_spec_route (parts : list string) : route parts = spec_route parts.
Proof.
  unfold route, spec_route.
  destruct parts as [|a [|b [|c [|d [|e rest]]]]]; cbn -[String.eqb string_converter];
    repeat (match goal with
            | |- context [String.eqb ?x ?y] => destruct (String.eqb_spec x y); subst
            | |- context [string_converter ?x] => destruct (string_converter x)
            end; cbn -[String.eqb string_converter]; rewrite ?match_parts_nil); congruence.
Qed.

(** C15: Werkzeug's matcher over the six rules of [app.py] is the explicit
    dispatch table: static segments win over [<start>], one or two
    non-empty date segments reach [start_date] / [start_end_date], any
    other path is unmatched (404). *)
Theorem route_table (parts : list string) : route parts = spec_route parts.
Proof. apply route_eq_spec_route. Qed.

(** C20: whenever no request is in flight, [shutdown_session] has left the
    session closed. *)
Theorem session_closed_when_idle (db : Dataset) (s : server) :
  star (init db) s -> srv_inflight s = ∅ -> srv_session s = SessionClosed.
Proof.
  intros Hst Hemp. destruct (star_inv db _ _ (init_inv db) Hst) as (_ & _ & _ & Hses).
  destruct (srv_session s) eqn:E; [done|].
  destruct (Hses eq_refl) as (id & p & r & H). rewrite Hemp, lookup_empty in H. discriminate.
Qed.

(** ** A request from arrival to teardown *)

Definition tobs_path : list string := ["api"; "v1.0"; "tobs"].

Definition s_arrived : server :=
  mkServer example_db SessionClosed (<[0%nat := (tobs_path, None)]> ∅) [].

Definition s_done : server :=
  mkServer example_db SessionClosed
    (delete 0%nat (<[0%nat := (tobs_path, Some (serve example_db tobs_path))]>
                     (<[0%nat := (tobs_path, None)]> ∅)))
    [(0%nat, tobs_path, serve example_db tobs_path)].

Lemma trace_arrived : star (init example_db) s_arrived.
Proof. eapply star_step; [apply step_arrive; reflexivity|]. apply star_refl. Qed.

Lemma trace_done : star (init example_db) s_done.
Proof.
  eapply star_trans; [apply trace_arrived|].
  eapply star_step; [apply (step_run _ _ _ _ 0%nat tobs_path); reflexivity|].
  eapply star_step; [apply (step_teardown _ _ _ _ 0%nat tobs_path); reflexivity|]. apply star_refl.
Qed.

Lemma session_closed_when_idle_witness :
  star (init example_db) s_done /\ srv_inflight s_done = ∅ /\ srv_session s_done = SessionClosed.
Proof.
  split; [apply trace_done|]. split; [reflexivity|].
  apply (session_closed_when_idle example_db s_done trace_done). reflexivity.
Defined.

Example route_tobs : route ["api"; "v1.0"; "tobs"] = Some (VTobs, []).
Proof. reflexivity. Qed.

Example route_start : route ["api"; "v1.0"; "2017-01-01"] = Some (VStart, ["2017-01-01"]).
Proof. reflexivity. Qed.

Example route_start_end :
  route ["api"; "v1.0"; "2017-01-01"; "2017-02-01"] = Some (VStartEnd, ["2017-01-01"; "2017-02-01"]).
Proof. reflexivity. Qed.

Example route_trailing_slash : route ["api"; "v1.0"; "tobs"; ""] = None.
Proof. reflexivity. Qed.

End App.
