(* ===== verification/Lifecycle.v ===== *)
(** * The views as sequences of session queries, and their interleaving

    [App] runs a view in one step.  In [app.py] a view is a sequence of
    statements on the one global [session] (lines 54, 58-59 for
    [precipitation()], lines 73, 77-78, 80-82 for [tobs()], ...) with
    Python computation in between, and the teardown of another request
    ([shutdown_session], lines 116-118) may close the session between
    two of them; the next statement then autobegins a new transaction.

    This file writes each view as a [prog]: a tree whose nodes are the
    session queries, in the order of the source, with the rest of the
    view as continuation (the shape of an interaction tree, finite).
    [fstep] interleaves the queries of all requests one at a time.  The
    theorems: each [prog] computes its view; every run of [fstep]
    refines a run of [App.step] (a stuttering simulation), so every
    answer is [serve] of the database; from every reachable state the
    requests in flight can all be answered and torn down, leaving the
    session closed; without new arrivals at most five steps per request
    in flight can be made (three queries, the return, the teardown). *)

From S2P Require Import Prelude SqlText Calendar DateFormat SqlQuery PyDict Handlers App.
From stdpp Require Import strings gmap.
From Stdlib Require Import String.
Import Calendar DateFormat Sql PyDict Handlers App.

Module Lifecycle.

Local Open Scope py_scope.

(** ** Views as programs over the session *)

(** A view in progress: finished with its value or exception, or about
    to run the query [q] on the session and continue with its rows. *)
Inductive prog : Type :=
  | Done (r : res pyval)
  | Query (B : Type) (q : Dataset -> B) (k : B -> prog).
Arguments Query {B} q k.

(** Python computation between two queries: an exception ends the view. *)
Definition then_res {A} (c : res A) (k : A -> prog) : prog :=
  match c with Ok a => k a | Err e => Done (Err e) end.

(** Running a program on the database. *)
Fixpoint run_prog (db : Dataset) (p : prog) : res pyval :=
  match p with
  | Done r => r
  | Query q k => run_prog db (k (q db))
  end.

(** The number of queries a program still issues on [db]. *)
Fixpoint queries (db : Dataset) (p : prog) : nat :=
  match p with
  | Done _ => 0
  | Query q k => S (queries db (k (q db)))
  end.

(** Lines 55-56 (74-75): from the result of [func.max(Measurement.date)]
    to the window start. *)
Definition window_start (most_recent_date : option string) : res string :=
  most_recent_date <- of_option TypeError most_recent_date ;;
  most_recent_date_dt <- strptime most_recent_date ;;
  start <- sub_days most_recent_date_dt 365 ;;
  Ok (strftime start).

(** [precipitation()], lines 53-61: two queries. *)
Definition precipitation_prog : prog :=
  Query q_max_date (fun most_recent_date =>
  then_res (window_start most_recent_date) (fun one_year_ago =>
  Query (fun db => q_date_prcp_since db one_year_ago) (fun precipitation_data =>
  Done (Ok (PDict (dict_comprehension
                     (map (fun '(date, prcp) => (date, of_real prcp)) precipitation_data))))))).

(** [stations()], lines 65-68: one query. *)
Definition stations_prog : prog :=
  Query q_station_ids (fun stations_list => Done (Ok (PList (map PStr stations_list)))).

(** [tobs()], lines 72-83: three queries. *)
Definition tobs_prog : prog :=
  Query q_max_date (fun most_recent_date =>
  then_res (window_start most_recent_date) (fun one_year_ago =>
  Query q_most_active_row (fun first =>
  then_res (of_option TypeError first) (fun row =>
  Query (fun db => q_date_tobs_for db row.1 one_year_ago) (fun tobs_data =>
  Done (Ok (PList (map (fun '(_, temp) => of_real temp) tobs_data)))))))).

(** [start_end_date(start, end)], lines 87-99: one query. *)
Definition start_end_prog (start end_ : string) : prog :=
  Query (fun db => q_tobs_stats db (fun r => date_ge start r && date_le end_ r))
    (fun results => Done (Ok (stats_dict results))).

(** [start_date(start)], lines 103-114: one query. *)
Definition start_prog (start : string) : prog :=
  Query (fun db => q_tobs_stats db (date_ge start)) (fun results => Done (Ok (stats_dict results))).

(** The program of a view called with the converter values. *)
Definition view_prog (v : view) (vals : list string) : prog :=
  match v, vals with
  | VWelcome, [] => Done (Ok (PStr welcome_text))
  | VPrecipitation, [] => precipitation_prog
  | VStations, [] => stations_prog
  | VTobs, [] => tobs_prog
  | VStartEnd, [s; e] => start_end_prog s e
  | VStart, [s] => start_prog s
  | _, _ => Done (Err TypeError)
  end.

Lemma one_year_ago_window_start (db : Dataset) : one_year_ago db = window_start (q_max_date db).
Proof. reflexivity. Qed.

Lemma run_then_res {A} (db : Dataset) (c : res A) (k : A -> prog) :
  run_prog db (then_res c k) = (a <- c ;; run_prog db (k a)).
Proof. by destruct c. Qed.

Lemma queries_then_res {A} (db : Dataset) (c : res A) (k : A -> prog) (n : nat) :
  (forall a, queries db (k a) <= n)%nat -> (queries db (then_res c k) <= n)%nat.
Proof. destruct c; simpl; [auto|lia]. Qed.

(** Each program computes its view. *)
Lemma run_view_prog (db : Dataset) (v : view) (vals : list string) :
  run_prog db (view_prog v vals) = run_view db v vals.
Proof.
  destruct v; destruct vals as [|s [|e [|x vals]]]; try reflexivity; simpl.
  - unfold precipitation. rewrite one_year_ago_window_start, run_then_res. done.
  - unfold tobs. rewrite one_year_ago_window_start, run_then_res.
    destruct (window_start _); simpl; [|done]. rewrite run_then_res. done.
Qed.

(** Each view issues at most three queries ([tobs()] issues three). *)
Lemma view_prog_queries (db : Dataset) (v : view) (vals : list string) :
  (queries db (view_prog v vals) <= 3)%nat.
Proof.
  destruct v; destruct vals as [|s [|e [|x vals]]]; simpl;
    repeat first [lia | apply le_n_S | apply queries_then_res; intros ?; simpl].
Qed.

(** ** The server with one query at a time *)

(** The response Flask builds from the outcome of a view. *)
Definition response_of (r : res pyval) : response :=
  match r with Ok pv => Http200 pv | Err e => Http500 e end.

(** A request in flight: its view running, or its response built and
    the teardown pending. *)
Inductive req_state := Running (p : prog) | Answered (r : response).

(** Dispatch: an unmatched path is answered 404 without running a view. *)
Definition start_request (parts : list string) : req_state :=
  match route parts with
  | None => Answered Http404
  | Some (v, vals) => Running (view_prog v vals)
  end.

Record fserver := mkFServer {
  f_db : Dataset;
  f_session : session_state;
  f_inflight : gmap nat (list string * req_state);
  f_done : list (nat * list string * response) }.

Definition finit (db : Dataset) : fserver := mkFServer db SessionClosed ∅ [].

(** A request arrives. *)
Inductive arrive : fserver -> fserver -> Prop :=
  | arrive_intro db ss inf dn id parts :
      inf !! id = None ->
      arrive (mkFServer db ss inf dn) (mkFServer db ss (<[id := (parts, start_request parts)]> inf) dn).

(** A request in flight makes progress: one query on the shared session
    (which autobegins a transaction), the view returns, or the teardown
    [shutdown_session] closes the session. *)
Inductive fwork : fserver -> fserver -> Prop :=
  | fwork_query db ss inf dn id parts B (q : Dataset -> B) k :
      inf !! id = Some (parts, Running (Query q k)) ->
      fwork (mkFServer db ss inf dn)
            (mkFServer db SessionInTx (<[id := (parts, Running (k (q db)))]> inf) dn)
  | fwork_return db ss inf dn id parts r :
      inf !! id = Some (parts, Running (Done r)) ->
      fwork (mkFServer db ss inf dn)
            (mkFServer db ss (<[id := (parts, Answered (response_of r))]> inf) dn)
  | fwork_teardown db ss inf dn id parts r :
      inf !! id = Some (parts, Answered r) ->
      fwork (mkFServer db ss inf dn)
            (mkFServer db SessionClosed (delete id inf) (dn ++ [(id, parts, r)])).

Definition fstep (s s' : fserver) : Prop := arrive s s' \/ fwork s s'.

(** ** Refinement of the atomic lifecycle of [App] *)

(** The atomic view of a request in flight: running, or answered. *)
Definition abs_req (x : list string * req_state) : list string * option response :=
  match x.2 with Running _ => (x.1, None) | Answered r => (x.1, Some r) end.

(** What a request in flight will answer, and how many queries it has
    left. *)
Definition req_ok (db : Dataset) (parts : list string) (st : req_state) : Prop :=
  match st with
  | Running p => serve db parts = response_of (run_prog db p) /\ (queries db p <= 3)%nat
  | Answered r => r = serve db parts
  end.

(** The invariant of the reachable states. *)
Definition fine_inv (db : Dataset) (fs : fserver) : Prop :=
  f_db fs = db /\ forall id parts st, f_inflight fs !! id = Some (parts, st) -> req_ok db parts st.

(** The simulation relation: same database, same requests, same
    answers; the session is not related. *)
Definition sim (fs : fserver) (s : server) : Prop :=
  srv_db s = f_db fs /\ srv_inflight s = abs_req <$> f_inflight fs /\ srv_done s = f_done fs.

Lemma start_request_ok (db : Dataset) (parts : list string) : req_ok db parts (start_request parts).
Proof.
  unfold start_request, req_ok, serve. destruct (route parts) as [[v vals]|]; [|done].
  rewrite run_view_prog. split; [by destruct (run_view db v vals) | apply view_prog_queries].
Qed.

Lemma fine_inv_init (db : Dataset) : fine_inv db (finit db).
Proof. split; [done|]. intros id parts st. simpl. by rewrite lookup_empty. Qed.

Lemma fine_inv_step (db : Dataset) (fs fs' : fserver) :
  fine_inv db fs -> fstep fs fs' -> fine_inv db fs'.
Proof.
  intros [Hdb Hok] [Hs|Hs]; destruct Hs; simpl in *; subst db0;
    split; try done; intros id' p' st'; cbn [f_inflight]; rewrite ?lookup_insert, ?lookup_delete;
    case_decide; subst; try (by apply Hok); intros [= <- <-].
  - apply start_request_ok.
  - destruct (Hok _ _ _ H) as [Hr Hq]. simpl in Hq. split; [done|lia].
  - destruct (Hok _ _ _ H) as [Hr _]. done.
Qed.

Lemma fstep_sim (db : Dataset) (fs fs' : fserver) (s : server) :
  fine_inv db fs -> sim fs s -> fstep fs fs' -> exists s', star s s' /\ sim fs' s'.
Proof.
  intros [Hdb Hok] Hsim Hst. destruct s as [adb ass ainf adn].
  destruct Hsim as (Hadb & Hainf & Hadn); simpl in *; subst adb ainf adn.
  destruct Hst as [Hs|Hs]; destruct Hs; simpl in *; subst db0.
  - assert (Hn : (abs_req <$> inf) !! id = None) by (by rewrite lookup_fmap, H).
    unfold start_request. destruct (route parts) as [[v vals]|] eqn:Er.
    + eexists. split; [eapply star_step; [by apply step_arrive|apply star_refl]|].
      repeat split; simpl. by rewrite fmap_insert.
    + eexists. split.
      * eapply star_step; [by apply step_arrive|].
        eapply star_step; [apply (step_run _ _ _ _ id parts); by rewrite lookup_insert_eq|].
        apply star_refl.
      * repeat split; simpl. rewrite fmap_insert, insert_insert_eq. unfold serve. by rewrite Er.
  - exists (mkServer db ass (abs_req <$> inf) dn). split; [apply star_refl|].
    repeat split; simpl. rewrite fmap_insert. symmetry. apply insert_id. by rewrite lookup_fmap, H.
  - eexists. split.
    + eapply star_step; [apply (step_run _ _ _ _ id parts); by rewrite lookup_fmap, H|]. apply star_refl.
    + destruct (Hok _ _ _ H) as [Hr _]. repeat split; simpl. by rewrite fmap_insert, Hr.
  - eexists. split.
    + eapply star_step; [apply (step_teardown _ _ _ _ id parts r); by rewrite lookup_fmap, H|].
      apply star_refl.
    + repeat split; simpl. by rewrite fmap_delete.
Qed.

Lemma fine_sim_star (db : Dataset) (fs fs' : fserver) (s : server) :
  fine_inv db fs -> sim fs s -> rtc fstep fs fs' ->
  exists s', star s s' /\ sim fs' s' /\ fine_inv db fs'.
Proof.
  intros Hinv Hsim Hst. revert s Hinv Hsim.
  induction Hst as [fs|fs1 fs2 fs3 H12 H23 IH]; intros s Hinv Hsim.
  { exists s. split; [apply star_refl|by split]. }
  destruct (fstep_sim db _ _ _ Hinv Hsim H12) as (s2 & Hs2 & Hsim2).
  destruct (IH s2 (fine_inv_step db _ _ Hinv H12) Hsim2) as (s3 & Hs3 & Hsim3 & Hinv3).
  exists s3. split; [by eapply star_trans|done].
Qed.

Lemma fine_sim_init (db : Dataset) : sim (finit db) (init db).
Proof. split; [done|]. split; [|done]. simpl. by rewrite fmap_empty. Qed.

(** Every answer recorded in a reachable state is [serve db] of its path. *)
Lemma fine_done_serve (db : Dataset) (fs : fserver) (id : nat) (parts : list string) (r : response) :
  rtc fstep (finit db) fs -> In (id, parts, r) (f_done fs) -> r = serve db parts.
Proof.
  intros Hst Hin. destruct (fine_sim_star db _ _ _ (fine_inv_init db) (fine_sim_init db) Hst)
    as (s & Hs & (_ & _ & Hdn) & _).
  destruct (star_inv db _ _ (init_inv db) Hs) as (_ & _ & Hdone & _).
  apply (Hdone id). by rewrite Hdn.
Qed.

(** ** The work left in a state *)

Section Work.
Context {A : Type} (cost : A -> nat).

(** The sum of the costs of the entries of a map. *)
Definition map_work (m : gmap nat A) : nat := map_fold (fun _ x acc => cost x + acc) 0 m.

Lemma map_work_delete (m : gmap nat A) (i : nat) (x : A) :
  m !! i = Some x -> map_work m = cost x + map_work (delete i m).
Proof. intros Hi. unfold map_work. apply (map_fold_delete_L (fun _ x acc => cost x + acc) 0 i x m); [intros; lia|done]. Qed.

Lemma map_work_update (m : gmap nat A) (i : nat) (x y : A) :
  m !! i = Some x -> map_work (<[i:=y]> m) = cost y + map_work (delete i m).
Proof.
  intros Hi. unfold map_work. rewrite <- insert_delete_eq.
  apply (map_fold_insert_L (fun _ x acc => cost x + acc)); [intros; lia|apply lookup_delete_eq].
Qed.

Lemma map_work_bound (m : gmap nat A) (c : nat) :
  (forall i x, m !! i = Some x -> cost x <= c) -> map_work m <= c * size m.
Proof.
  induction m as [|i x m Hi IH] using map_ind; intros Hc.
  { unfold map_work. rewrite map_fold_empty. lia. }
  unfold map_work in *. rewrite (map_fold_insert_L (fun _ x acc => cost x + acc)) by (intros; lia || done).
  rewrite map_size_insert_None by done.
  assert (cost x <= c) by (apply (Hc i); by rewrite lookup_insert_eq).
  assert (map_fold (fun _ x acc => cost x + acc) 0 m <= c * size m); [|lia].
  apply IH. intros j y Hj. apply (Hc j). rewrite lookup_insert_ne; [done|congruence].
Qed.

End Work.

(** A request costs its remaining queries, the return and the teardown. *)
Definition req_cost (db : Dataset) (x : list string * req_state) : nat :=
  match x.2 with Running p => queries db p + 2 | Answered _ => 1 end.

Definition work (fs : fserver) : nat := map_work (req_cost (f_db fs)) (f_inflight fs).

(** Every step of a request in flight does one unit of work. *)
Lemma fwork_work (fs fs' : fserver) : fwork fs fs' -> work fs = S (work fs').
Proof.
  unfold work. destruct 1; simpl; rewrite (map_work_delete _ _ _ _ H);
    [erewrite (map_work_update _ _ _ _ _ H)..|]; unfold req_cost; simpl; lia.
Qed.

Lemma nsteps_fwork_work (n : nat) (fs fs' : fserver) :
  nsteps fwork n fs fs' -> work fs = n + work fs'.
Proof. induction 1 as [|n fs1 fs2 fs3 H12 _ IH]; [done|]. rewrite (fwork_work _ _ H12). lia. Qed.

Lemma fine_inv_work (db : Dataset) (fs : fserver) :
  fine_inv db fs -> work fs <= 5 * size (f_inflight fs).
Proof.
  intros [Hdb Hok]. apply map_work_bound. intros id [parts st] Hid.
  specialize (Hok _ _ _ Hid). unfold req_cost. destruct st as [p|r]; simpl; [|lia].
  destruct Hok as [_ Hq]. subst db. lia.
Qed.

Lemma fine_inv_reach (db : Dataset) (fs : fserver) : rtc fstep (finit db) fs -> fine_inv db fs.
Proof.
  intros Hst. by destruct (fine_sim_star db _ _ _ (fine_inv_init db) (fine_sim_init db) Hst)
    as (_ & _ & _ & Hinv).
Qed.

(** A state with a request in flight can always make progress. *)
Lemma fwork_progress (fs : fserver) : f_inflight fs <> ∅ -> exists fs', fwork fs fs'.
Proof.
  intros Hne. destruct (map_choose _ Hne) as (id & [parts st] & Hid).
  destruct fs as [db ss inf dn]; simpl in *.
  destruct st as [[r|B q k]|r]; eexists.
  - by apply fwork_return.
  - by apply fwork_query.
  - by apply fwork_teardown.
Qed.

(** The session is in a transaction only while a request is in flight. *)
Definition session_ok (fs : fserver) : Prop :=
  f_session fs = SessionInTx -> f_inflight fs <> ∅.

Lemma session_ok_step (fs fs' : fserver) : session_ok fs -> fstep fs fs' -> session_ok fs'.
Proof.
  unfold session_ok. intros Hs [Ha|Hw]; [destruct Ha|destruct Hw]; simpl in *; intros Hx;
    first [discriminate | apply insert_non_empty].
Qed.

(** From a state in which every session transaction belongs to a request
    in flight, the requests in flight can all be completed. *)
Lemma drain (fs : fserver) :
  session_ok fs -> exists fs', rtc fwork fs fs' /\ f_inflight fs' = ∅ /\ f_session fs' = SessionClosed.
Proof.
  remember (work fs) as w eqn:Ew. revert fs Ew.
  induction w as [w IH] using lt_wf_ind; intros fs Ew Hs.
  destruct (decide (f_inflight fs = ∅)) as [He|Hne].
  - exists fs. split; [done|]. split; [done|].
    destruct (f_session fs) eqn:E; [done|]. by destruct (Hs E).
  - destruct (fwork_progress fs Hne) as [fs1 H1].
    destruct (IH (work fs1)) with fs1 as (fs' & H' & He & Hc).
    + rewrite Ew, (fwork_work _ _ H1). lia.
    + done.
    + apply (session_ok_step fs); [done|by right].
    + exists fs'. split; [by eapply rtc_l|done].
Qed.

(** ** An executable scheduler *)

(** A scheduling event: a request arrives, or request [id] takes its
    next step. *)
Inductive event := EArrive (id : nat) (parts : list string) | EWork (id : nat).

(** The step an event makes, if it can be made. *)
Definition fexec (e : event) (fs : fserver) : option fserver :=
  let '(mkFServer db ss inf dn) := fs in
  match e with
  | EArrive id parts =>
      match inf !! id with
      | None => Some (mkFServer db ss (<[id := (parts, start_request parts)]> inf) dn)
      | Some _ => None
      end
  | EWork id =>
      match inf !! id with
      | Some (parts, Running (Query q k)) =>
          Some (mkFServer db SessionInTx (<[id := (parts, Running (k (q db)))]> inf) dn)
      | Some (parts, Running (Done r)) =>
          Some (mkFServer db ss (<[id := (parts, Answered (response_of r))]> inf) dn)
      | Some (parts, Answered r) =>
          Some (mkFServer db SessionClosed (delete id inf) (dn ++ [(id, parts, r)]))
      | None => None
      end
  end.

Fixpoint fexec_all (es : list event) (fs : fserver) : option fserver :=
  match es with
  | [] => Some fs
  | e :: es' => fs' ← fexec e fs; fexec_all es' fs'
  end.

Lemma fexec_sound (e : event) (fs fs' : fserver) : fexec e fs = Some fs' -> fstep fs fs'.
Proof.
  destruct fs as [db ss inf dn]. destruct e as [id parts|id]; simpl;
    destruct (inf !! id) as [[parts' [[r|B q k]|r]]|] eqn:E; intros [= <-].
  all: first [by left; constructor | by right; constructor].
Qed.

Lemma fexec_all_sound (es : list event) (fs fs' : fserver) :
  fexec_all es fs = Some fs' -> rtc fstep fs fs'.
Proof.
  revert fs; induction es as [|e es IH]; intros fs; simpl; [by intros [= <-]|].
  destruct (fexec e fs) as [fs1|] eqn:E; simpl; [|done].
  intros H. eapply rtc_l; [by eapply fexec_sound|]. by apply IH.
Qed.

(** The state an interleaving leads to ([finit] when it is not possible). *)
Definition run_events (db : Dataset) (es : list event) : fserver :=
  from_option id (finit db) (fexec_all es (finit db)).

Lemma run_events_reach (db : Dataset) (es : list event) :
  is_Some (fexec_all es (finit db)) -> rtc fstep (finit db) (run_events db es).
Proof.
  unfold run_events. intros [fs E]. rewrite E. by apply (fexec_all_sound es).
Qed.

(** The program request [id] has left to run. *)
Definition running_prog (fs : fserver) (id : nat) : prog :=
  match f_inflight fs !! id with Some (_, Running p) => p | _ => Done (Err TypeError) end.

(** Two [tobs()] requests: request 1 runs its first query, then request 0
    runs to completion and is torn down. *)
Definition interleaving : list event :=
  [EArrive 0 tobs_path; EArrive 1 tobs_path; EWork 1;
   EWork 0; EWork 0; EWork 0; EWork 0; EWork 0].

Lemma fexec_work_sound (id : nat) (fs fs' : fserver) : fexec (EWork id) fs = Some fs' -> fwork fs fs'.
Proof.
  destruct fs as [db ss inf dn]; simpl.
  destruct (inf !! id) as [[parts [[r|B q k]|r]]|] eqn:E; intros [= <-]; by constructor.
Qed.

(** Request [id] taking [n] steps in a row. *)
Definition work_n (id n : nat) (fs : fserver) : fserver :=
  from_option (fun x => x) fs (fexec_all (repeat (EWork id) n) fs).

Lemma work_n_nsteps (id n : nat) (fs : fserver) :
  is_Some (fexec_all (repeat (EWork id) n) fs) -> nsteps fwork n fs (work_n id n fs).
Proof.
  unfold work_n. intros [fs' E]. rewrite E. simpl. revert fs E.
  induction n as [|n IH]; intros fs; simpl; [intros [= ->]; constructor|].
  destruct (fexec (EWork id) fs) as [fs1|] eqn:E1; simpl; [|done].
  intros E. econstructor; [by apply (fexec_work_sound id)|]. by apply IH.
Qed.

(** Every reachable state satisfies [session_ok]. *)
Lemma session_ok_reach (db : Dataset) (fs : fserver) : rtc fstep (finit db) fs -> session_ok fs.
Proof.
  intros Hst. assert (Hi : session_ok (finit db)) by (intros H; discriminate).
  induction Hst as [|fs1 fs2 fs3 H12 _ IH]; [done|]. apply IH. by eapply session_ok_step.
Qed.

(** ** Main theorems *)

(** C18: in a reachable state with [k] requests in flight, at most [5 k]
    steps can be made without a new arrival: each request issues at most
    three queries, then returns and is torn down. *)
Theorem fwork_steps_bound (db : Dataset) (fs fs' : fserver) (n : nat) :
  rtc fstep (finit db) fs -> nsteps fwork n fs fs' -> (n <= 5 * size (f_inflight fs))%nat.
Proof.
  intros Hst Hn. pose proof (fine_inv_work db fs (fine_inv_reach db fs Hst)).
  pose proof (nsteps_fwork_work n fs fs' Hn). lia.
Qed.

(** C17: from every reachable state, the requests in flight can all be
    answered, after which the session is closed and every answer is
    [serve db] of its path. *)
Theorem fine_drains (db : Dataset) (fs : fserver) :
  rtc fstep (finit db) fs ->
  exists fs', rtc fwork fs fs' /\ f_inflight fs' = ∅ /\ f_session fs' = SessionClosed /\
              forall id parts r, In (id, parts, r) (f_done fs') -> r = serve db parts.
Proof.
  intros Hst. destruct (drain fs (session_ok_reach db fs Hst)) as (fs' & Hw & He & Hc).
  exists fs'. split; [done|]. split; [done|]. split; [done|].
  intros id parts r Hin. apply (fine_done_serve db fs' id parts r); [|done].
  eapply rtc_trans; [exact Hst|]. eapply rtc_subrel; [|exact Hw]. intros x y H. by right.
Qed.

(** The teardown of one request closes the global session while another
    request is between two of its queries: with two [tobs()] requests,
    request 1 has run the first of its three queries when request 0 is
    torn down, and has exactly two left, which autobegin a new
    transaction on the closed session.  In this model the session state
    is not read by the queries (the rows do not change), so the
    interleaving is harmless here; what the real, thread-unsafe
    [Session] does when used from two threads at once is not modelled. *)
Example session_closed_between_queries :
  let fs := run_events example_db interleaving in
  rtc fstep (finit example_db) fs /\ f_session fs = SessionClosed /\
  f_inflight fs !! 1%nat = Some (tobs_path, Running (running_prog fs 1)) /\
  route tobs_path = Some (VTobs, []) /\
  (queries example_db (running_prog fs 1) = 2)%nat /\ (queries example_db tobs_prog = 3)%nat.
Proof.
  split; [apply run_events_reach; apply (bool_decide_unpack _); vm_compute; reflexivity|].
  vm_compute. repeat split.
Qed.

(** ** Witnesses *)

Definition one_tobs : fserver := run_events example_db [EArrive 0 tobs_path].

Local Ltac reach := apply run_events_reach; apply (bool_decide_unpack _); vm_compute; reflexivity.

Lemma fwork_steps_bound_witness :
  rtc fstep (finit example_db) one_tobs /\ nsteps fwork 5 one_tobs (work_n 0 5 one_tobs) /\
  (5 <= 5 * size (f_inflight one_tobs))%nat.
Proof.
  split; [reach|]. split; [apply work_n_nsteps; apply (bool_decide_unpack _); vm_compute; reflexivity|].
  apply (fwork_steps_bound example_db one_tobs (work_n 0 5 one_tobs)); [reach|].
  apply work_n_nsteps; apply (bool_decide_unpack _); vm_compute; reflexivity.
Defined.

Lemma fine_drains_witness :
  rtc fstep (finit example_db) (run_events example_db interleaving) /\
  exists fs', rtc fwork (run_events example_db interleaving) fs' /\ f_inflight fs' = ∅ /\
    f_session fs' = SessionClosed /\
    forall id parts r, In (id, parts, r) (f_done fs') -> r = serve example_db parts.
Proof. split; [reach|]. apply fine_drains. reach. Defined.

End Lifecycle.
