(* ===== verification/Response.v ===== *)
(** * What the views answer: the types of their values and [jsonify]

    The views of [app.py] hand a Python value to [jsonify] (lines 61, 68,
    83, 99, 114) or return a string ([welcome()], line 39).  The
    specification (its table of routes) fixes the shape of each answer:
    an object from dates to numbers or null, an array of strings, an
    array of numbers, an object [{MIN, MAX, AVG}].  This file gives the
    Python values a small type system ([ty], [has_ty]), the type each view
    promises ([view_ty]), and proves that every 200 answer of [serve] has
    the type of its view, and that only [precipitation()] and [tobs()]
    ever answer 500.

    Flask's [jsonify] serialises with [sort_keys=True]: the members of a
    JSON object come out in the order of their keys, whatever the order
    of the dict.  [jsonify] is modelled as the map from Python values to
    JSON trees (numbers are the rationals of the model; their printing is
    not modelled); the text it becomes is in [Json]. *)

From S2P Require Import Prelude SqlText Calendar DateFormat SqlQuery PyDict Handlers App.
From stdpp Require Import strings sorting.
From Stdlib Require Import String QArith.
Import Sql PyDict Handlers App.

Module Response.

(** ** The types of the answers *)

Inductive ty :=
  | TStr
  | TFloat
  | TNone
  | TOpt (t : ty)
  | TList (t : ty)
  | TDict (t : ty)
  | TRecord (fields : list (string * ty)).

(** [v] has type [t]; a dict has no key twice, a record has exactly its
    fields, in order. *)
Fixpoint has_ty (v : pyval) (t : ty) {struct t} : bool :=
  match t with
  | TStr => match v with PStr _ => true | _ => false end
  | TFloat => match v with PFloat _ => true | _ => false end
  | TNone => match v with PNone => true | _ => false end
  | TOpt t' => match v with PNone => true | _ => has_ty v t' end
  | TList t' => match v with PList l => forallb (fun x => has_ty x t') l | _ => false end
  | TDict t' =>
      match v with
      | PDict d => bool_decide (NoDup d.*1) && forallb (fun kx => has_ty kx.2 t') d
      | _ => false
      end
  | TRecord fs =>
      match v with
      | PDict d =>
          (fix fields_ok (d : list (string * pyval)) (fs : list (string * ty)) {struct fs} : bool :=
             match d, fs with
             | [], [] => true
             | (k, x) :: d', (k', t') :: fs' => String.eqb k k' && has_ty x t' && fields_ok d' fs'
             | _, _ => false
             end) d fs
      | _ => false
      end
  end.

(** [{"MIN": ..., "MAX": ..., "AVG": ...}] of nullable numbers. *)
Definition stats_ty : ty := TRecord [("MIN", TOpt TFloat); ("MAX", TOpt TFloat); ("AVG", TOpt TFloat)].

(** The type of the answer of each view, as the route table gives it. *)
Definition view_ty (v : view) : ty :=
  match v with
  | VWelcome => TStr
  | VPrecipitation => TDict (TOpt TFloat)
  | VStations => TList TStr
  | VTobs => TList (TOpt TFloat)
  | VStartEnd | VStart => stats_ty
  end.

Lemma of_real_ty (o : option Q) : has_ty (of_real o) (TOpt TFloat) = true.
Proof. by destruct o. Qed.

Lemma forallb_map_of_real {A} (f : A -> option Q) (l : list A) :
  forallb (fun x => has_ty x (TOpt TFloat)) (map (fun a => of_real (f a)) l) = true.
Proof. apply forallb_forall. intros x (a & <- & _)%in_map_iff. apply of_real_ty. Qed.

Lemma stats_dict_ty (r : option Q * option Q * option Q) : has_ty (stats_dict r) stats_ty = true.
Proof. destruct r as [[[mn|] [mx|]] [av|]]; reflexivity. Qed.

Lemma forallb_of_real_pairs {A} (l : list (A * option Q)) :
  forallb (fun x => has_ty x (TOpt TFloat)) (map (fun '(_, o) => of_real o) l) = true /\
  Forall (fun kv => has_ty kv.2 (TOpt TFloat) = true) (map (fun '(a, o) => (a, of_real o)) l).
Proof.
  induction l as [|[a o] l [IH1 IH2]]; cbn [map forallb]; [split; [done|constructor]|].
  rewrite of_real_ty, IH1. split; [done|]. constructor; [apply of_real_ty|done].
Qed.

(** The values of the dict of [precipitation()] are nullable numbers. *)
Lemma precipitation_dict_ty (items : list (string * option Q)) :
  has_ty (PDict (dict_comprehension (map (fun '(date, prcp) => (date, of_real prcp)) items)))
    (TDict (TOpt TFloat)) = true.
Proof.
  simpl. apply andb_true_intro. split.
  - apply bool_decide_eq_true. apply dict_wf_fold. constructor.
  - apply forallb_forall. intros kx Hin. apply (proj2 (list_elem_of_In _ _)) in Hin.
    revert kx Hin. apply Forall_forall.
    apply (dict_comprehension_Forall (fun x => has_ty x (TOpt TFloat) = true)), forallb_of_real_pairs.
Qed.

(** The converter values a route passes match the arity of its view. *)
Lemma route_arity (parts : list string) (v : view) (vals : list string) :
  route parts = Some (v, vals) ->
  match v with VStartEnd => List.length vals = 2%nat | VStart => List.length vals = 1%nat | _ => vals = [] end.
Proof.
  rewrite route_eq_spec_route. unfold spec_route.
  destruct parts as [|a [|b [|x [|y [|z rest]]]]]; try discriminate; [by intros [= <- <-]|..];
    repeat case_match; intros; simplify_eq; done.
Qed.

(** A view called with its arity answers a value of its type, or raises
    in [precipitation()] and [tobs()] only. *)
Lemma run_view_ty (db : Dataset) (v : view) (vals : list string) :
  match v with VStartEnd => List.length vals = 2%nat | VStart => List.length vals = 1%nat | _ => vals = [] end ->
  match run_view db v vals with
  | Ok pv => has_ty pv (view_ty v) = true
  | Err _ => v = VPrecipitation \/ v = VTobs
  end.
Proof.
  destruct v; intros Har;
    [subst vals..|destruct vals as [|s [|e [|]]]; try discriminate
                 |destruct vals as [|s [|]]; try discriminate]; cbn [run_view].
  - done.
  - unfold precipitation. destruct (one_year_ago db); cbn [res_bind]; [apply precipitation_dict_ty|by left].
  - apply forallb_forall. intros x (s & <- & _)%in_map_iff. done.
  - unfold tobs. destruct (one_year_ago db); cbn [res_bind]; [|by right].
    destruct (q_most_active_row db); cbn [res_bind of_option]; [apply forallb_of_real_pairs|by right].
  - apply stats_dict_ty.
  - apply stats_dict_ty.
Qed.

(** C8: every answer has the shape the route table promises: a 200 answer
    carries a value of the type of its view (a dict without duplicate
    keys of nullable numbers, a list of strings, a list of nullable
    numbers, the record [{MIN, MAX, AVG}], the welcome text), 404 is
    exactly an unmatched path, and only [precipitation()] and [tobs()]
    can answer 500. *)
Theorem serve_well_typed (db : Dataset) (parts : list string) :
  match serve db parts with
  | Http200 pv => exists v vals, route parts = Some (v, vals) /\ has_ty pv (view_ty v) = true
  | Http404 => route parts = None
  | Http500 _ => route parts = Some (VPrecipitation, []) \/ route parts = Some (VTobs, [])
  end.
Proof.
  unfold serve. destruct (route parts) as [[v vals]|] eqn:Er; [|done].
  pose proof (route_arity _ _ _ Er) as Har. pose proof (run_view_ty db v vals Har) as Hty.
  destruct (run_view db v vals) as [pv|e].
  - by exists v, vals.
  - destruct Hty as [->| ->]; subst vals; auto.
Qed.

(** ** [jsonify] *)

(** A JSON document. *)
Inductive json :=
  | JNull
  | JNum (q : Q)
  | JStr (s : string)
  | JArr (l : list json)
  | JObj (members : list (string * json)).

(** [sorted(dct.items())]: members ordered by their key. *)
Definition key_le (a b : string * json) : Prop := Text.text_le a.1 b.1 = true.

#[export] Instance key_le_dec : RelDecision key_le.
Proof. intros a b. unfold key_le. apply _. Defined.

(** [jsonify(value)] with Flask's [sort_keys=True]: [None] is [null], a
    list an array, a dict an object whose members are sorted by key. *)
Fixpoint jsonify (v : pyval) : json :=
  match v with
  | PNone => JNull
  | PFloat q => JNum q
  | PStr s => JStr s
  | PList l => JArr (map jsonify l)
  | PDict d => JObj (merge_sort key_le (map (fun kx => (kx.1, jsonify kx.2)) d))
  end.

#[local] Instance key_le_trans : Transitive key_le.
Proof. intros a b c. apply Text.text_le_trans. Qed.

#[local] Instance key_le_total : Total key_le.
Proof. intros a b. apply Text.text_le_total. Qed.

(** The answer of [precipitation()] on the example database: the dict
    keeps the insertion order of the rows, the JSON object the order of
    the dates. *)
Example precipitation_json_example :
  match precipitation example_db with
  | Ok pv => Some (jsonify pv)
  | Err _ => None
  end =
  Some (JObj [("2016-08-23", JNum (1#10)); ("2017-01-01", JNum 0); ("2017-08-23", JNum (3#10))]).
Proof. vm_compute. reflexivity. Qed.

Example stats_json_example :
  jsonify (stats_dict (Some 60, Some 72, None)) =
  JObj [("AVG", JNull); ("MAX", JNum 72); ("MIN", JNum 60)].
Proof. vm_compute. reflexivity. Qed.

End Response.
