(* ===== verification/Json.v ===== *)
(** * The body of a JSON answer: [json.dumps] and its inverse

    [jsonify] (lines 61, 68, 83, 99, 114) serialises the document with
    [json.dumps(obj, sort_keys=True, separators=(',', ':'),
    ensure_ascii=True)] and appends a newline: the members sorted (see
    [Response]), no whitespace, strings between double quotes with
    backslash escapes for the backslash, the double quote, backspace,
    form feed, newline, carriage return and tab, and [\u00XX] in
    lower-case hexadecimal for the other characters outside
    [' ' .. '~'].  This file writes that encoder ([dumps]) and a parser
    for the same documents in the way of [json.loads] ([loads]: values
    after optional whitespace, the string escapes, nothing left but
    whitespace), and proves that the parser inverts the encoder on every
    document and that the encoder's output is ASCII.

    Numbers are printed by Python's [float.__repr__], which the model of
    REAL values as rationals cannot reproduce; the encoder and parser are
    therefore given the printing and reading of numbers as section
    variables [num_repr] and [num_parse], and the theorems assume only
    that they invert each other on the numbers of the document and that a
    printed number is a JSON number token.  A character of a Rocq
    string is a code point below 256; the data of [app.py] is ASCII. *)

From S2P Require Import Prelude SqlText Calendar DateFormat SqlQuery PyDict Handlers App Response.
From stdpp Require Import strings.
From Stdlib Require Import String Ascii QArith.
Import Handlers App Response.

Module Json.

Local Open Scope string_scope.

(** ** Induction on documents *)

Definition json_nested_ind (P : json -> Prop)
    (fnull : P JNull) (fnum : forall q, P (JNum q)) (fstr : forall s, P (JStr s))
    (farr : forall l, Forall P l -> P (JArr l))
    (fobj : forall m, Forall (fun kv => P kv.2) m -> P (JObj m)) : forall j, P j :=
  fix F j :=
    match j with
    | JNull => fnull
    | JNum q => fnum q
    | JStr s => fstr s
    | JArr l =>
        farr l ((fix G (l : list json) : Forall P l :=
                   match l with
                   | [] => List.Forall_nil _
                   | x :: l' => @List.Forall_cons _ P x l' (F x) (G l')
                   end) l)
    | JObj m =>
        fobj m ((fix G (m : list (string * json)) : Forall (fun kv => P kv.2) m :=
                   match m with
                   | [] => List.Forall_nil _
                   | kv :: m' => @List.Forall_cons _ (fun kv => P kv.2) kv m' (F kv.2) (G m')
                   end) m)
    end.

(** ** Characters *)

Definition QUOTE : ascii := ascii_of_N 34.
Definition BSLASH : ascii := ascii_of_N 92.

(** One character as a string. *)
Definition chr (c : ascii) : string := String c EmptyString.

(** A lower-case hexadecimal digit ['{0:04x}']. *)
Definition hex_digit (n : N) : ascii :=
  if (n <? 10)%N then ascii_of_N (48 + n) else ascii_of_N (87 + n).

Definition hex4 (n : N) : string :=
  String (hex_digit (n / 4096 mod 16)) (String (hex_digit (n / 256 mod 16))
    (String (hex_digit (n / 16 mod 16)) (String (hex_digit (n mod 16)) EmptyString))).

(** The value of a hexadecimal digit, either case ([int(esc, 16)]). *)
Definition hex_val (c : ascii) : option N :=
  let n := N_of_ascii c in
  if (48 <=? n)%N && (n <=? 57)%N then Some (n - 48)%N
  else if (97 <=? n)%N && (n <=? 102)%N then Some (n - 87)%N
  else if (65 <=? n)%N && (n <=? 70)%N then Some (n - 55)%N
  else None.

(** [ESCAPE_DCT] and the [\uXXXX] fallback of [py_encode_basestring_ascii]. *)
Definition escape_char (c : ascii) : string :=
  let n := N_of_ascii c in
  if (n =? 92)%N then String BSLASH (chr BSLASH)
  else if (n =? 34)%N then String BSLASH (chr QUOTE)
  else if (n =? 8)%N then String BSLASH "b"
  else if (n =? 12)%N then String BSLASH "f"
  else if (n =? 10)%N then String BSLASH "n"
  else if (n =? 13)%N then String BSLASH "r"
  else if (n =? 9)%N then String BSLASH "t"
  else if (32 <=? n)%N && (n <=? 126)%N then chr c
  else String BSLASH (String "u" (hex4 n)).

Fixpoint escape (s : string) : string :=
  match s with
  | EmptyString => EmptyString
  | String c s' => escape_char c ++ escape s'
  end.

(** A string literal. *)
Definition encode_string (s : string) : string := String QUOTE (escape s ++ chr QUOTE).

(** The one-character escapes of [json.decoder.BACKSLASH]. *)
Definition unescape (e : ascii) : option ascii :=
  let n := N_of_ascii e in
  if (n =? 34)%N then Some QUOTE
  else if (n =? 92)%N then Some BSLASH
  else if (n =? 47)%N then Some "/"%char
  else if (n =? 98)%N then Some (ascii_of_N 8)
  else if (n =? 102)%N then Some (ascii_of_N 12)
  else if (n =? 110)%N then Some (ascii_of_N 10)
  else if (n =? 114)%N then Some (ascii_of_N 13)
  else if (n =? 116)%N then Some (ascii_of_N 9)
  else None.

(** JSON whitespace. *)
Definition is_ws (c : ascii) : bool :=
  let n := N_of_ascii c in (n =? 32)%N || (n =? 9)%N || (n =? 10)%N || (n =? 13)%N.

(** The characters of a number token, and those it may start with. *)
Definition is_digit_char (c : ascii) : bool :=
  let n := N_of_ascii c in (48 <=? n)%N && (n <=? 57)%N.

Definition num_start (c : ascii) : bool := is_digit_char c || (N_of_ascii c =? 45)%N.

Definition num_char (c : ascii) : bool :=
  let n := N_of_ascii c in
  is_digit_char c || (n =? 43)%N || (n =? 45)%N || (n =? 46)%N || (n =? 101)%N || (n =? 69)%N.

Fixpoint str_forall (p : ascii -> bool) (s : string) : bool :=
  match s with EmptyString => true | String c s' => p c && str_forall p s' end.

(** ** The parser's pieces *)

(** [scanstring]: the body of a string literal after its opening quote,
    up to the closing quote. *)
Fixpoint parse_string (s : string) : option (string * string) :=
  match s with
  | EmptyString => None
  | String c r =>
      if (N_of_ascii c =? 34)%N then Some (EmptyString, r)
      else if (N_of_ascii c =? 92)%N then
        match r with
        | EmptyString => None
        | String e r1 =>
            if (N_of_ascii e =? 117)%N then
              match r1 with
              | String h1 (String h2 (String h3 (String h4 r2))) =>
                  match hex_val h1, hex_val h2, hex_val h3, hex_val h4 with
                  | Some a, Some b, Some c', Some d =>
                      let n := (a * 4096 + b * 256 + c' * 16 + d)%N in
                      if (n <? 256)%N then
                        match parse_string r2 with
                        | Some (t, rest) => Some (String (ascii_of_N n) t, rest)
                        | None => None
                        end
                      else None
                  | _, _, _, _ => None
                  end
              | _ => None
              end
            else
              match unescape e with
              | Some c' =>
                  match parse_string r1 with
                  | Some (t, rest) => Some (String c' t, rest)
                  | None => None
                  end
              | None => None
              end
        end
      else if (N_of_ascii c <? 32)%N then None
      else
        match parse_string r with
        | Some (t, rest) => Some (String c t, rest)
        | None => None
        end
  end.

Fixpoint skip_ws (s : string) : string :=
  match s with
  | String c r => if is_ws c then skip_ws r else s
  | EmptyString => EmptyString
  end.

(** The longest prefix of number characters. *)
Fixpoint span_num (s : string) : string * string :=
  match s with
  | String c r => if num_char c then let '(t, rest) := span_num r in (String c t, rest) else (EmptyString, s)
  | EmptyString => (EmptyString, EmptyString)
  end.

Fixpoint strip_prefix (p s : string) : option string :=
  match p, s with
  | EmptyString, _ => Some s
  | String a p', String b s' => if ascii_dec a b then strip_prefix p' s' else None
  | _, _ => None
  end.

(** The next non-blank character is [c]: what follows it. *)
Definition expect (c : ascii) (s : string) : option string :=
  match skip_ws s with
  | String c' r => if ascii_dec c c' then Some r else None
  | EmptyString => None
  end.

(** ** Encoder and parser *)

Section Codec.

(** [float.__repr__] and the reading of a number token. *)
Variable num_repr : Q -> string.
Variable num_parse : string -> option Q.

(** The elements of an array, comma-separated. *)
Fixpoint join (l : list string) : string :=
  match l with
  | [] => EmptyString
  | [x] => x
  | x :: l' => x ++ String "," (join l')
  end.

(** [json.dumps] with [separators=(',', ':')] and [ensure_ascii]. *)
Fixpoint dumps (j : json) : string :=
  match j with
  | JNull => "null"
  | JNum q => num_repr q
  | JStr s => encode_string s
  | JArr l => String "[" (join (map dumps l) ++ "]")
  | JObj m => String "{" (join (map (fun kv => encode_string kv.1 ++ String ":" (dumps kv.2)) m) ++ "}")
  end.

(** The body Flask sends: the document and a newline. *)
Definition body (j : json) : string := dumps j ++ chr (ascii_of_N 10).

(** [JSONDecoder.raw_decode] with fuel: a value, then the rest. *)
Fixpoint parse_value (fuel : nat) (s : string) {struct fuel} : option (json * string) :=
  match fuel with
  | O => None
  | S f =>
      match skip_ws s with
      | EmptyString => None
      | String c r =>
          if (N_of_ascii c =? 34)%N then
            match parse_string r with Some (t, rest) => Some (JStr t, rest) | None => None end
          else if (N_of_ascii c =? 91)%N then
            match expect "]" r with
            | Some rest => Some (JArr [], rest)
            | None => match parse_elems f r with Some (l, rest) => Some (JArr l, rest) | None => None end
            end
          else if (N_of_ascii c =? 123)%N then
            match expect "}" r with
            | Some rest => Some (JObj [], rest)
            | None => match parse_members f r with Some (m, rest) => Some (JObj m, rest) | None => None end
            end
          else if (N_of_ascii c =? 110)%N then
            match strip_prefix "ull" r with Some rest => Some (JNull, rest) | None => None end
          else if num_start c then
            let '(tok, rest) := span_num (String c r) in
            match num_parse tok with Some q => Some (JNum q, rest) | None => None end
          else None
      end
  end
(** Array elements up to the closing bracket. *)
with parse_elems (fuel : nat) (s : string) {struct fuel} : option (list json * string) :=
  match fuel with
  | O => None
  | S f =>
      match parse_value f s with
      | Some (x, r) =>
          match expect "," r with
          | Some r' => match parse_elems f r' with Some (l, rest) => Some (x :: l, rest) | None => None end
          | None => match expect "]" r with Some rest => Some ([x], rest) | None => None end
          end
      | None => None
      end
  end
(** Object members up to the closing brace. *)
with parse_members (fuel : nat) (s : string) {struct fuel} : option (list (string * json) * string) :=
  match fuel with
  | O => None
  | S f =>
      match expect QUOTE s with
      | Some r0 =>
          match parse_string r0 with
          | Some (k, r1) =>
              match expect ":" r1 with
              | Some r2 =>
                  match parse_value f r2 with
                  | Some (v, r) =>
                      match expect "," r with
                      | Some r' =>
                          match parse_members f r' with
                          | Some (m, rest) => Some ((k, v) :: m, rest)
                          | None => None
                          end
                      | None => match expect "}" r with Some rest => Some ([(k, v)], rest) | None => None end
                      end
                  | None => None
                  end
              | None => None
              end
          | None => None
          end
      | None => None
      end
  end.

(** [json.loads]: one value and nothing but whitespace after it; the
    length of the text is the fuel. *)
Definition loads (s : string) : option json :=
  match parse_value (String.length s) s with
  | Some (j, rest) => if String.eqb (skip_ws rest) EmptyString then Some j else None
  | None => None
  end.

End Codec.

(** ** A number printer for the examples *)

(** The decimal digits of [n], most significant first ([fuel] digits at
    most). *)
Fixpoint dec_digits (fuel : nat) (n : N) (acc : string) : string :=
  match fuel with
  | O => acc
  | S f => let acc' := String (ascii_of_N (48 + n mod 10)) acc in
           if (n <? 10)%N then acc' else dec_digits f (n / 10) acc'
  end.

Definition N_to_dec (n : N) : string := dec_digits 40 n EmptyString.

(** [k] digits of [n], zero-padded. *)
Fixpoint pad_digits (k : nat) (n : N) (acc : string) : string :=
  match k with
  | O => acc
  | S k' => pad_digits k' (n / 10) (String (ascii_of_N (48 + n mod 10)) acc)
  end.

(** The fewest decimals (at most 17) that write [q] exactly. *)
Definition decimals (q : Q) : nat :=
  let d := Npos (Qden (Qred q)) in
  from_option (fun k => k) 17%nat (List.find (fun k => (10 ^ N.of_nat k mod d =? 0)%N) (seq 0 17)).

(** What [float.__repr__] prints for a value with a short exact decimal
    expansion: the digits, with [.0] when it is integral. *)
Definition decimal_repr (q : Q) : string :=
  let q' := Qred q in
  let k := decimals q' in
  let m := (Z.abs_N (Qnum q') * (10 ^ N.of_nat k / Npos (Qden q')))%N in
  let sign := if (Qnum q' <? 0)%Z then "-" else EmptyString in
  match k with
  | O => sign ++ N_to_dec m ++ ".0"
  | _ => sign ++ N_to_dec (m / 10 ^ N.of_nat k) ++ String "." (pad_digits k (m mod 10 ^ N.of_nat k) EmptyString)
  end.

(** Reading [-?digits(.digits)?] back, as a reduced rational. *)
Fixpoint read_digits (s : string) (acc : N) (len : nat) : N * nat * string :=
  match s with
  | String c r => if is_digit_char c then read_digits r (acc * 10 + (N_of_ascii c - 48)) (S len) else (acc, len, s)
  | EmptyString => (acc, len, EmptyString)
  end.

Definition decimal_parse (tok : string) : option Q :=
  let '(neg, s) := match tok with
                   | String c r => if (N_of_ascii c =? 45)%N then (true, r) else (false, tok)
                   | EmptyString => (false, tok)
                   end in
  let '(ip, il, r) := read_digits s 0 0 in
  let '(fp, fl, r') := match r with
                       | String c r1 => if (N_of_ascii c =? 46)%N then read_digits r1 0 0 else (0%N, 0%nat, r)
                       | EmptyString => (0%N, 0%nat, r)
                       end in
  if (il =? 0)%nat || negb (String.eqb r' EmptyString) then None
  else
    let v := (Z.of_N (ip * 10 ^ N.of_nat fl + fp) # Pos.of_nat (Nat.max 1 (N.to_nat (10 ^ N.of_nat fl))))%Q in
    Some (Qred (if neg then - v else v)%Q).

(** ** Lemmas on strings and characters *)

Lemma sapp_cons (c : ascii) (s t : string) : String c s ++ t = String c (s ++ t).
Proof. reflexivity. Qed.

Lemma sapp_assoc (a b c : string) : (a ++ b) ++ c = a ++ (b ++ c).
Proof. induction a as [|x a IH]; [done|]. rewrite !sapp_cons. by rewrite IH. Qed.

Lemma escape_app (s t : string) : escape (s ++ t) = escape s ++ escape t.
Proof. induction s as [|c s IH]; [done|]. simpl. by rewrite IH, sapp_assoc. Qed.

(** Every character, escaped, is read back by [scanstring]. *)
Lemma parse_string_escape_char (c : ascii) (t : string) :
  parse_string (escape_char c ++ t) =
  match parse_string t with Some (u, rest) => Some (String c u, rest) | None => None end.
Proof. destruct c as [[] [] [] [] [] [] [] []]; reflexivity. Qed.

Lemma parse_string_escape (s rest : string) :
  parse_string (escape s ++ String QUOTE rest) = Some (s, rest).
Proof.
  induction s as [|c s IH]; [reflexivity|]. cbn [escape].
  by rewrite sapp_assoc, parse_string_escape_char, IH.
Qed.

(** [ensure_ascii]: an escaped character is ASCII. *)
Definition is_ascii (c : ascii) : bool := (N_of_ascii c <? 128)%N.

Lemma str_forall_app (p : ascii -> bool) (s t : string) :
  str_forall p (s ++ t) = str_forall p s && str_forall p t.
Proof. induction s as [|c s IH]; [done|]. simpl. rewrite IH. apply andb_assoc. Qed.

Lemma escape_char_ascii (c : ascii) : str_forall is_ascii (escape_char c) = true.
Proof. destruct c as [[] [] [] [] [] [] [] []]; reflexivity. Qed.

Lemma escape_ascii (s : string) : str_forall is_ascii (escape s) = true.
Proof. induction s as [|c s IH]; [done|]. simpl. by rewrite str_forall_app, escape_char_ascii, IH. Qed.

Lemma num_start_char (c : ascii) : num_start c = true ->
  num_char c = true /\ is_ws c = false /\ (N_of_ascii c =? 34)%N = false /\
  (N_of_ascii c =? 91)%N = false /\ (N_of_ascii c =? 123)%N = false /\ (N_of_ascii c =? 110)%N = false.
Proof. destruct c as [[] [] [] [] [] [] [] []]; vm_compute; intros H; try discriminate H; auto 10. Qed.

Lemma skip_ws_nonblank (c : ascii) (s : string) : is_ws c = false -> skip_ws (String c s) = String c s.
Proof. simpl. by intros ->. Qed.

Lemma span_num_app (s rest : string) :
  str_forall num_char s = true ->
  match rest with String c _ => num_char c = false | EmptyString => True end ->
  span_num (s ++ rest) = (s, rest).
Proof.
  intros Hs Hr. induction s as [|c s IH]; simpl in *.
  - destruct rest as [|c r]; [done|]. simpl. by rewrite Hr.
  - apply andb_prop in Hs as [Hc Hs]. rewrite Hc, IH by done. done.
Qed.

Lemma expect_hit (c : ascii) (r : string) : is_ws c = false -> expect c (String c r) = Some r.
Proof. intros H. unfold expect. rewrite skip_ws_nonblank by done. by destruct (ascii_dec c c). Qed.

Lemma expect_miss (c c' : ascii) (r : string) :
  is_ws c' = false -> N_of_ascii c <> N_of_ascii c' -> expect c (String c' r) = None.
Proof.
  intros H Hne. unfold expect. rewrite skip_ws_nonblank by done.
  destruct (ascii_dec c c'); [subst; done|done].
Qed.

(** The statistics dict serialises with its keys sorted. *)
Lemma stats_jsonify (mn mx av : option Q) :
  jsonify (stats_dict (mn, mx, av)) =
  JObj [("AVG", jsonify (of_real av)); ("MAX", jsonify (of_real mx)); ("MIN", jsonify (of_real mn))].
Proof. destruct mn, mx, av; vm_compute; reflexivity. Qed.

(** The numbers of a document. *)
Fixpoint numbers (j : json) : list Q :=
  match j with
  | JNum q => [q]
  | JArr l => flat_map numbers l
  | JObj m => flat_map (fun kv => numbers kv.2) m
  | _ => []
  end.

Lemma Forall_flat_map {A B} (P : B -> Prop) (g : A -> list B) (l : list A) :
  Forall P (flat_map g l) <-> Forall (fun x => Forall P (g x)) l.
Proof.
  induction l as [|x l IH]; simpl; [split; constructor|].
  rewrite List.Forall_app, IH. split; [intros [??]; by constructor|intros H; inversion H; by split].
Qed.

(** What may follow a number token. *)
Definition delim_ok (rest : string) : Prop :=
  match rest with String c _ => num_char c = false | EmptyString => True end.

Section Roundtrip.
Variable num_repr : Q -> string.
Variable num_parse : string -> option Q.

(** A number is printed as a JSON number token and read back. *)
Definition num_ok (q : Q) : Prop :=
  num_parse (num_repr q) = Some q /\
  match num_repr q with
  | String c t => num_start c = true /\ str_forall num_char t = true
  | EmptyString => False
  end.

(** The first character of a document: not blank, not a closing bracket. *)
Lemma dumps_head (j : json) :
  Forall num_ok (numbers j) ->
  exists c t, dumps num_repr j = String c t /\ is_ws c = false /\
              (N_of_ascii c <> 93)%N /\ (N_of_ascii c <> 125)%N.
Proof.
  destruct j as [|q|s|l|m]; intros Hn;
    [| |eexists _, _; split; [reflexivity|]; vm_compute; split; [done|split; discriminate]..].
  - eexists _, _. split; [reflexivity|]. vm_compute. split; [done|split; discriminate].
  - simpl in Hn. apply Forall_cons in Hn as [[_ Hq] _]. simpl.
    destruct (num_repr q) as [|c t]; [done|].
    destruct Hq as [Hc _]. exists c, t. split; [done|].
    destruct c as [[] [] [] [] [] [] [] []]; vm_compute in Hc |- *; try discriminate;
      (split; [done|split; discriminate]).
Qed.

(** The parser reads back a printed document followed by [rest]. *)
Definition value_rt (j : json) : Prop :=
  Forall num_ok (numbers j) ->
  forall f rest, (String.length (dumps num_repr j) <= f)%nat -> delim_ok rest ->
  parse_value num_parse f (dumps num_repr j ++ rest) = Some (j, rest).

Lemma parse_elems_dumps (l : list json) :
  Forall value_rt l -> Forall (fun x => Forall num_ok (numbers x)) l -> l <> [] ->
  forall f rest, (String.length (join (map (dumps num_repr) l)) < f)%nat ->
  parse_elems num_parse f (join (map (dumps num_repr) l) ++ String "]" rest) = Some (l, rest).
Proof.
  induction l as [|x l IH]; intros Hrt Hn Hne f rest Hf; [done|].
  apply Forall_cons in Hrt as [Hx Hrt]. apply Forall_cons in Hn as [Hnx Hn].
  destruct f as [|f]; [lia|]. destruct l as [|y l].
  - cbn [map join] in *. cbn [parse_elems]. rewrite Hx by (done || lia). reflexivity.
  - change (join (map (dumps num_repr) (x :: y :: l)))
      with (dumps num_repr x ++ String "," (join (map (dumps num_repr) (y :: l)))) in *.
    rewrite Text.length_append in Hf. cbn [String.length] in Hf.
    cbn [parse_elems]. rewrite sapp_assoc, sapp_cons, Hx by (done || lia).
    rewrite expect_hit by reflexivity. rewrite IH by (done || lia). reflexivity.
Qed.

Lemma parse_members_dumps (m : list (string * json)) :
  Forall (fun kv => value_rt kv.2) m -> Forall (fun kv => Forall num_ok (numbers kv.2)) m -> m <> [] ->
  forall f rest,
  (String.length (join (map (fun kv => encode_string kv.1 ++ String ":" (dumps num_repr kv.2)) m)) < f)%nat ->
  parse_members num_parse f
    (join (map (fun kv => encode_string kv.1 ++ String ":" (dumps num_repr kv.2)) m) ++ String "}" rest) =
  Some (m, rest).
Proof.
  induction m as [|[k v] m IH]; intros Hrt Hn Hne f rest Hf; [done|].
  apply Forall_cons in Hrt as [Hv Hrt]. apply Forall_cons in Hn as [Hnv Hn]. simpl in Hv, Hnv.
  destruct f as [|f]; [lia|].
  assert (Hmem : forall T, (encode_string k ++ String ":" (dumps num_repr v)) ++ T =
                           String QUOTE (escape k ++ String QUOTE (String ":" (dumps num_repr v ++ T)))).
  { intros T. unfold encode_string. rewrite sapp_assoc, sapp_cons, sapp_assoc. reflexivity. }
  destruct m as [|kv' m].
  - cbn [map join] in *. cbn [parse_members]. rewrite Hmem, expect_hit by reflexivity.
    rewrite parse_string_escape, expect_hit by reflexivity.
    rewrite Hv by (done || (rewrite !Text.length_append in Hf; simpl in Hf; lia)). reflexivity.
  - set (J := join (map (fun kv => encode_string kv.1 ++ String ":" (dumps num_repr kv.2)) (kv' :: m))) in *.
    change (join (map (fun kv => encode_string kv.1 ++ String ":" (dumps num_repr kv.2)) ((k, v) :: kv' :: m)))
      with ((encode_string k ++ String ":" (dumps num_repr v)) ++ String "," J) in *.
    rewrite !Text.length_append in Hf. cbn [String.length] in Hf.
    cbn [parse_members]. rewrite sapp_assoc, Hmem, expect_hit by reflexivity.
    rewrite parse_string_escape, expect_hit by reflexivity.
    rewrite sapp_cons, Hv by (done || lia).
    rewrite expect_hit by reflexivity. subst J. rewrite IH by (done || lia). reflexivity.
Qed.

Lemma join_cons (a : string) (l : list string) :
  join (a :: l) = a ++ match l with [] => EmptyString | _ => String "," (join l) end.
Proof. destruct l; simpl; [by rewrite Text.append_empty|done]. Qed.

(** A non-empty sequence does not start with the closing character. *)
Lemma expect_close_miss (close : ascii) (a : string) (l : list string) (rest : string) :
  (exists c t, a = String c t /\ is_ws c = false /\ N_of_ascii close <> N_of_ascii c) ->
  expect close (join (a :: l) ++ rest) = None.
Proof.
  intros (c & t & -> & Hws & Hne). rewrite join_cons, !sapp_assoc, sapp_cons.
  by apply expect_miss.
Qed.

Lemma parse_value_dumps (j : json) : value_rt j.
Proof.
  induction j as [| q | s | l IH | m IH] using json_nested_ind; intros Hn f rest Hf Hd.
  - destruct f as [|f]; [simpl in Hf; lia|]. reflexivity.
  - simpl in Hn. apply Forall_cons in Hn as [[Hp Hq] _]. simpl in Hf |- *.
    destruct (num_repr q) as [|c t] eqn:E; [done|]. destruct Hq as [Hc Ht].
    destruct f as [|f]; [simpl in Hf; lia|].
    destruct (num_start_char c Hc) as (Hnc & Hws & H34 & H91 & H123 & H110).
    assert (Hs : span_num (String c (t ++ rest)) = (String c t, rest)).
    { rewrite <- sapp_cons. apply span_num_app; [simpl; by rewrite Hnc, Ht|done]. }
    cbn [parse_value]. rewrite sapp_cons, skip_ws_nonblank by done.
    rewrite H34, H91, H123, H110, Hc, Hs. cbn beta iota. by rewrite Hp.
  - destruct f as [|f]; [simpl in Hf; lia|].
    cbn [dumps]. unfold encode_string. rewrite sapp_cons, sapp_assoc.
    change (chr QUOTE ++ rest) with (String QUOTE rest).
    cbn [parse_value]. rewrite skip_ws_nonblank by reflexivity. cbn -[parse_string].
    by rewrite parse_string_escape.
  - destruct f as [|f]; [simpl in Hf; lia|].
    destruct l as [|x l']; [reflexivity|].
    cbn [dumps]. rewrite sapp_cons, sapp_assoc. change ("]" ++ rest) with (String "]" rest).
    cbn [numbers] in Hn. apply Forall_flat_map in Hn.
    assert (Hx : Forall num_ok (numbers x)) by (by apply Forall_cons in Hn as [? _]).
    assert (Hexp : expect "]" (join (map (dumps num_repr) (x :: l')) ++ String "]" rest) = None).
    { cbn [map]. apply expect_close_miss. destruct (dumps_head x Hx) as (c & t & Hct & Hws & H93 & _).
      exists c, t. split; [done|]. split; [done|]. simpl. lia. }
    cbn [parse_value]. rewrite skip_ws_nonblank by reflexivity. cbn -[expect parse_elems join map].
    rewrite Hexp, parse_elems_dumps; [done|done|done|done|].
    cbn [dumps String.length] in Hf. rewrite Text.length_append in Hf. cbn [String.length] in Hf. lia.
  - destruct f as [|f]; [simpl in Hf; lia|].
    destruct m as [|[k v] m']; [reflexivity|].
    cbn [dumps]. rewrite sapp_cons, sapp_assoc. change ("}" ++ rest) with (String "}" rest).
    cbn [numbers] in Hn. apply Forall_flat_map in Hn.
    assert (Hexp : expect "}" (join (map (fun kv => encode_string kv.1 ++ String ":" (dumps num_repr kv.2))
                                      ((k, v) :: m')) ++ String "}" rest) = None).
    { cbn [map]. apply expect_close_miss. exists QUOTE, (escape k ++ chr QUOTE ++ String ":" (dumps num_repr v)).
      split; [unfold encode_string; by rewrite sapp_cons, sapp_assoc|]. split; [reflexivity|]. simpl. lia. }
    cbn [parse_value]. rewrite skip_ws_nonblank by reflexivity. cbn -[expect parse_members join map].
    rewrite Hexp, parse_members_dumps; [done|done|done|done|].
    cbn [dumps String.length] in Hf. rewrite Text.length_append in Hf. cbn [String.length] in Hf. lia.
Qed.

(** ** Main theorems *)

(** C9: [json.loads] reads back the body Flask sends for every document
    whose numbers are printed as JSON number tokens and read back. *)
Theorem loads_body (j : json) :
  Forall num_ok (numbers j) -> loads num_parse (body num_repr j) = Some j.
Proof.
  intros Hn. unfold loads, body.
  rewrite (parse_value_dumps j Hn); [reflexivity| |reflexivity].
  rewrite Text.length_append. lia.
Qed.

Lemma join_ascii (l : list string) :
  Forall (fun x => str_forall is_ascii x = true) l -> str_forall is_ascii (join l) = true.
Proof.
  induction 1 as [|x l Hx Hl IH]; [done|]. rewrite join_cons, str_forall_app, Hx.
  destruct l; [done|]. cbn [str_forall andb]. by rewrite IH.
Qed.

(** C19: with [ensure_ascii], the body is ASCII whenever the numbers are
    printed in ASCII. *)
Theorem body_ascii (j : json) :
  Forall (fun q => str_forall is_ascii (num_repr q) = true) (numbers j) ->
  str_forall is_ascii (body num_repr j) = true.
Proof.
  unfold body. rewrite str_forall_app, andb_true_r. revert j.
  induction j as [| q | s | l IH | m IH] using json_nested_ind; intros Hn; cbn [dumps].
  - reflexivity.
  - by apply Forall_cons in Hn as [? _].
  - unfold encode_string. simpl. by rewrite str_forall_app, escape_ascii.
  - cbn [numbers] in Hn. apply Forall_flat_map in Hn. simpl. rewrite str_forall_app, join_ascii; [done|].
    apply List.Forall_forall. intros y (x & <- & Hx)%in_map_iff.
    rewrite List.Forall_forall in IH, Hn. by apply IH, Hn.
  - cbn [numbers] in Hn. apply Forall_flat_map in Hn. simpl. rewrite str_forall_app, join_ascii; [done|].
    apply List.Forall_forall. intros y ([k v] & <- & Hx)%in_map_iff.
    rewrite List.Forall_forall in IH, Hn. unfold encode_string. simpl.
    rewrite !str_forall_app, escape_ascii. simpl. by apply (IH (k, v)), (Hn (k, v)).
Qed.

(** The text of a nullable number. *)
Definition opt_num (o : option Q) : string :=
  match o with Some q => num_repr q | None => "null" end.

(** C16: the body of [start_date] and [start_end_date] is
    [{AVG:..,MAX:..,MIN:..}] with the quoted keys in that order (sorted,
    not the order of the source) and [null] for a missing statistic,
    followed by a newline. *)
Theorem stats_body (mn mx av : option Q) :
  body num_repr (jsonify (stats_dict (mn, mx, av))) =
  String "{" (encode_string "AVG" ++ String ":" (opt_num av ++
    String "," (encode_string "MAX" ++ String ":" (opt_num mx ++
    String "," (encode_string "MIN" ++ String ":" (opt_num mn ++
    String "}" (chr (ascii_of_N 10)))))))).
Proof.
  unfold body. rewrite stats_jsonify.
  destruct mn, mx, av; cbn -[encode_string]; repeat first [rewrite sapp_assoc | rewrite sapp_cons]; reflexivity.
Qed.

End Roundtrip.

(** ** Examples and witnesses *)

(** The document [precipitation()] answers on the example database. *)
Definition example_doc : json :=
  JObj [("2016-08-23", JNum (1#10)); ("2017-01-01", JNum 0); ("2017-08-23", JNum (3#10))].

Example example_doc_jsonify :
  match precipitation example_db with Ok pv => Some (jsonify pv) | Err _ => None end = Some example_doc.
Proof. vm_compute. reflexivity. Qed.

(** Its body: the keys quoted, in date order, no blanks. *)
Example example_body :
  body decimal_repr example_doc =
  String "{" (encode_string "2016-08-23" ++ String ":" ("0.1" ++ String ","
    (encode_string "2017-01-01" ++ String ":" ("0.0" ++ String ","
    (encode_string "2017-08-23" ++ String ":" ("0.3" ++ String "}" (chr (ascii_of_N 10)))))))).
Proof. vm_compute. reflexivity. Qed.

Local Ltac numbers_ok :=
  apply List.Forall_forall; intros q Hq; vm_compute in Hq;
  repeat destruct Hq as [<-|Hq]; try contradiction; vm_compute; auto.

Lemma loads_body_witness :
  Forall (num_ok decimal_repr decimal_parse) (numbers example_doc) /\
  loads decimal_parse (body decimal_repr example_doc) = Some example_doc.
Proof.
  split; [numbers_ok|]. apply (loads_body decimal_repr decimal_parse example_doc). numbers_ok.
Defined.

Lemma body_ascii_witness :
  Forall (fun q => str_forall is_ascii (decimal_repr q) = true) (numbers example_doc) /\
  str_forall is_ascii (body decimal_repr example_doc) = true.
Proof. split; [numbers_ok|]. apply body_ascii. numbers_ok. Defined.

End Json.
