(* ===== verification/Setup.v ===== *)
(** * Database setup: the module-level code of [app.py] (lines 14-31)

    Importing [app.py] runs, in order:
    - [engine = create_engine("sqlite:///Resources/hawaii.sqlite")]
      (line 15): SQLAlchemy's pysqlite dialect turns the database part of
      the URL into [os.path.abspath(...)], so the relative path is resolved
      against the working directory of the process at import time
      ([create_engine], [abspath]); no file is opened yet;
    - [Base = automap_base(); Base.prepare(engine, reflect=True)] (lines
      18-19): the first connection runs [sqlite3.connect(filename)], which
      opens the file or, when it is missing in an existing directory,
      creates an empty database there ([sqlite_connect]); reflection reads
      the schema, raising [DatabaseError] on a file that is not a
      database ([reflect]), and automap makes a class for each table that
      declares a primary key ([automap_classes], [prepare]);
    - [Measurement = Base.classes.measurement], [Station = ...] (lines
      22-23): attribute access on [Base.classes], [AttributeError] when no
      class has that name ([classes_getattr]);
    - [session = Session(engine)] and [app = Flask(__name__)] (lines 26 and
      31): a session with no transaction, i.e. [App.init] of the tables.

    The file system is a set of directories and a map from absolute paths
    (lists of segments) to files ([fs]); [import_app] threads it through
    the import and returns the server, or the exception that aborts the
    import.  The theorems: the import succeeds exactly when the file at
    the resolved path is a database whose [measurement] and [station]
    tables declare primary keys, and then starts [App.init] of that
    file's rows; each exception is characterised; a missing file is
    replaced by an empty database, so a restart fails again with the
    same [AttributeError]. *)

From S2P Require Import Prelude SqlText Calendar DateFormat SqlQuery PyDict Handlers App.
From stdpp Require Import strings gmap.
From Stdlib Require Import String Ascii.
Import Sql Handlers App.

Module Setup.

Local Open Scope string_scope.

(** ** Paths *)

(** [s.split(c)]. *)
Fixpoint split_on (c : ascii) (s : string) : list string :=
  match s with
  | EmptyString => [""]
  | String a s' =>
      let rest := split_on c s' in
      if Ascii.eqb a c then "" :: rest
      else match rest with
           | x :: xs => String a x :: xs
           | [] => [String a ""]
           end
  end.

Definition is_absolute (p : string) : bool :=
  match p with String "/" _ => true | _ => false end.

(** One component of [posixpath.normpath] on an absolute path: empty and
    [.] components vanish, [..] removes the last one (and is dropped at
    the root). *)
Definition norm_seg (acc : list string) (seg : string) : list string :=
  if String.eqb seg "" || String.eqb seg "." then acc
  else if String.eqb seg ".." then removelast acc
  else acc ++ [seg].

(** [os.path.abspath(p)] with the working directory [cwd] (the segments of
    an absolute path): [normpath(join(os.getcwd(), p))]. *)
Definition abspath (cwd : list string) (p : string) : list string :=
  fold_left norm_seg (split_on "/" p) (if is_absolute p then [] else cwd).



(** ** The file system *)

(** A table of the SQLite schema, with whether it declares a primary key. *)
Record table := mkTable { tbl_name : string; tbl_has_pk : bool }.

(** A file: a SQLite database (its schema, and the rows of the two tables
    the views read), or bytes that are not a database. *)
Inductive file := SqliteFile (tables : list table) (data : Dataset) | OtherFile.

Record fs := mkFs { fs_dirs : gset (list string); fs_files : gmap (list string) file }.

(** The database SQLite makes of a file it creates (or of an empty file). *)
Definition empty_db : file := SqliteFile [] (mkDataset [] []).

(** ** The import of [app.py] *)

(** The database part of the URL of line 15. *)
Definition engine_database : string := "Resources/hawaii.sqlite".

Record engine := mkEngine { eng_file : list string }.

(** [create_engine("sqlite:///" + database)]: the path is made absolute
    at once, nothing is opened. *)
Definition create_engine (cwd : list string) (database : string) : engine :=
  mkEngine (abspath cwd database).

(** [sqlite3.connect(filename)] (open flags READWRITE | CREATE): an
    existing file is opened; a missing one is created empty when its
    directory exists; otherwise [unable to open database file], which
    SQLAlchemy raises as [OperationalError]. *)
Definition sqlite_connect (f : fs) (p : list string) : fs * res file :=
  match fs_files f !! p with
  | Some d => (f, Ok d)
  | None =>
      if decide ((p ∉ fs_dirs f) /\ (removelast p ∈ fs_dirs f))
      then (mkFs (fs_dirs f) (<[p := empty_db]> (fs_files f)), Ok empty_db)
      else (f, Err OperationalError)
  end.

(** Reading the schema: [file is not a database] on other bytes. *)
Definition reflect (d : file) : res (list table * Dataset) :=
  match d with
  | SqliteFile ts data => Ok (ts, data)
  | OtherFile => Err DatabaseError
  end.

(** automap maps the tables that declare a primary key. *)
Definition automap_classes (ts : list table) : list string :=
  map tbl_name (List.filter tbl_has_pk ts).

(** [Base.prepare(engine, reflect=True)]: connect, reflect, map. *)
Definition prepare (f : fs) (e : engine) : fs * res (list string * Dataset) :=
  let '(f', r) := sqlite_connect f (eng_file e) in
  (f', res_bind r (fun d => res_map (fun '(ts, data) => (automap_classes ts, data)) (reflect d))).

(** [Base.classes.<name>]. *)
Definition classes_getattr (classes : list string) (name : string) : res string :=
  if decide (name ∈ classes) then Ok name else Err AttributeError.

(** Lines 22-31, after [Base.prepare]: the two class lookups, then
    [Session(engine)], which has no transaction yet, and [Flask(__name__)],
    which holds no state of the model. *)
Definition module_rest (classes : list string) (data : Dataset) : res server :=
  (_ <- classes_getattr classes "measurement" ;;
   _ <- classes_getattr classes "station" ;;
   Ok (App.init data))%py.

(** The whole module body, from line 15 to line 31, in the working
    directory [cwd]: the file system after the import, and the server or
    the exception. *)
Definition import_app (f : fs) (cwd : list string) : fs * res server :=
  let '(f', r) := prepare f (create_engine cwd engine_database) in
  (f', (cd <- r ;; module_rest cd.1 cd.2)%py).

(** ** Specification *)

(** automap makes a class [name]: the schema has a table of that name
    with a primary key. *)
Definition mapped (ts : list table) (name : string) : Prop :=
  exists t, In t ts /\ tbl_name t = name /\ tbl_has_pk t = true.

(** The absolute path of the database file. *)
Abbreviation db_path cwd := (abspath cwd engine_database).

(** ** Lemmas *)

(** *** Paths *)










(** *** The import *)

Lemma automap_classes_spec (ts : list table) (name : string) :
  name ∈ automap_classes ts <-> mapped ts name.
Proof.
  unfold automap_classes, mapped. rewrite list_elem_of_In, in_map_iff.
  setoid_rewrite filter_In. naive_solver.
Qed.

Lemma classes_getattr_ok (ts : list table) (name x : string) :
  classes_getattr (automap_classes ts) name = Ok x <-> mapped ts name /\ x = name.
Proof.
  unfold classes_getattr. rewrite <- automap_classes_spec.
  case_decide; naive_solver.
Qed.

Lemma classes_getattr_err (ts : list table) (name : string) (e : exn) :
  classes_getattr (automap_classes ts) name = Err e <-> ~ mapped ts name /\ e = AttributeError.
Proof.
  unfold classes_getattr. rewrite <- automap_classes_spec.
  case_decide; naive_solver.
Qed.

Lemma import_app_connect (f : fs) (cwd : list string) :
  import_app f cwd =
    let '(f', r) := sqlite_connect f (db_path cwd) in
    (f', res_bind r (fun file =>
           match file with
           | SqliteFile ts d => module_rest (automap_classes ts) d
           | OtherFile => Err DatabaseError
           end)).
Proof.
  unfold import_app, prepare, create_engine. cbn [eng_file].
  destruct (sqlite_connect f _) as [f' [[ts d|]|e]]; reflexivity.
Qed.

Lemma module_rest_ok (ts : list table) (d : Dataset) (s : server) :
  module_rest (automap_classes ts) d = Ok s <-> mapped ts "measurement" /\ mapped ts "station" /\ s = App.init d.
Proof.
  unfold module_rest.
  destruct (classes_getattr _ "measurement") as [x|e] eqn:Hm;
    [apply classes_getattr_ok in Hm as [Hm _]|apply classes_getattr_err in Hm as [Hm _]];
  simpl; [|split; [discriminate|tauto]].
  destruct (classes_getattr _ "station") as [y|e] eqn:Hs;
    [apply classes_getattr_ok in Hs as [Hs _]|apply classes_getattr_err in Hs as [Hs _]];
  simpl; [|split; [discriminate|tauto]].
  split; [intros [= <-]|intros (_ & _ & ->)]; auto.
Qed.

Lemma module_rest_err (ts : list table) (d : Dataset) (e : exn) :
  module_rest (automap_classes ts) d = Err e <-> ~ (mapped ts "measurement" /\ mapped ts "station") /\ e = AttributeError.
Proof.
  unfold module_rest.
  destruct (classes_getattr _ "measurement") as [x|e'] eqn:Hm;
    [apply classes_getattr_ok in Hm as [Hm _]|apply classes_getattr_err in Hm as [Hm ->]];
  simpl; [|split; [intros [= <-]; tauto|intros [_ ->]; done]].
  destruct (classes_getattr _ "station") as [y|e'] eqn:Hs;
    [apply classes_getattr_ok in Hs as [Hs _]|apply classes_getattr_err in Hs as [Hs ->]];
  simpl; [|split; [intros [= <-]; tauto|intros [_ ->]; done]].
  split; [discriminate|tauto].
Qed.

(** An empty database has no table, hence no class. *)
Lemma empty_db_no_class (name : string) : ~ mapped [] name.
Proof. intros (t & [] & _). Qed.

(** The cases of [sqlite_connect], for the proofs below. *)
Ltac connect_cases f p :=
  rewrite import_app_connect; unfold sqlite_connect;
  destruct (fs_files f !! p) as [[?ts ?d|]|] eqn:?Hf; simpl;
  [| |destruct (decide ((p ∉ fs_dirs f) /\ (removelast p ∈ fs_dirs f))) as [[?Hnd ?Hpd]|?Hdir]; simpl].

(** ** Theorems *)

(** C10: the import of [app.py] succeeds exactly when the file at the
    resolved path is a SQLite database whose [measurement] and [station]
    tables declare a primary key, and it then starts the server of
    [App] on the rows of that file, with the session closed. *)
Theorem import_app_ok (f : fs) (cwd : list string) (s : server) :
  (import_app f cwd).2 = Ok s <->
  exists ts d, fs_files f !! db_path cwd = Some (SqliteFile ts d) /\
    mapped ts "measurement" /\ mapped ts "station" /\ s = App.init d.
Proof.
  connect_cases f (db_path cwd).
  - rewrite module_rest_ok. naive_solver.
  - naive_solver.
  - rewrite module_rest_ok. pose proof (empty_db_no_class "station"). naive_solver.
  - naive_solver.
Qed.

(** C13: the exceptions that abort the import: [OperationalError] when the
    path is missing and cannot be created (no such directory) or is a
    directory; [DatabaseError] when the file is not a database;
    [AttributeError] from [Base.classes.measurement] or
    [Base.classes.station] when a table is missing or has no primary key,
    in particular when the file was missing and SQLite created it empty. *)
Theorem import_app_errors (f : fs) (cwd : list string) (e : exn) :
  (import_app f cwd).2 = Err e <->
  (fs_files f !! db_path cwd = None /\
     (db_path cwd ∈ fs_dirs f \/ removelast (db_path cwd) ∉ fs_dirs f) /\ e = OperationalError) \/
  (fs_files f !! db_path cwd = Some OtherFile /\ e = DatabaseError) \/
  (((fs_files f !! db_path cwd = None /\ (db_path cwd ∉ fs_dirs f) /\ removelast (db_path cwd) ∈ fs_dirs f) \/
    exists ts d, fs_files f !! db_path cwd = Some (SqliteFile ts d) /\
                 ~ (mapped ts "measurement" /\ mapped ts "station")) /\ e = AttributeError).
Proof.
  connect_cases f (db_path cwd).
  - rewrite module_rest_err. naive_solver.
  - naive_solver.
  - rewrite module_rest_err. pose proof (empty_db_no_class "station"). naive_solver.
  - destruct (decide (db_path cwd ∈ fs_dirs f)); naive_solver.
Qed.

(** C11: when the file is missing in an existing directory, the import
    creates an empty database there and fails with [AttributeError]; a
    restart in the same directory then finds that empty database and fails
    again in the same way, leaving the file system as it is. *)
Theorem import_missing_creates_empty (f : fs) (cwd : list string) :
  fs_files f !! db_path cwd = None -> (db_path cwd ∉ fs_dirs f) ->
  removelast (db_path cwd) ∈ fs_dirs f ->
  let f' := mkFs (fs_dirs f) (<[db_path cwd := empty_db]> (fs_files f)) in
  import_app f cwd = (f', Err AttributeError) /\ import_app f' cwd = (f', Err AttributeError).
Proof.
  intros Hf Hnd Hpd f'. rewrite !import_app_connect. unfold sqlite_connect.
  rewrite Hf, decide_True by done. cbn [fs_files f']. rewrite lookup_insert_eq. done.
Qed.


(** ** Witnesses *)

(** The deployment the code expects: [/srv/climate/Resources/hawaii.sqlite]
    holds both tables with their primary keys. *)
Definition hawaii_tables : list table := [mkTable "measurement" true; mkTable "station" true].

Definition deploy_fs : fs :=
  mkFs {[ []; ["srv"]; ["srv"; "climate"]; ["srv"; "climate"; "Resources"] ]}
       {[ ["srv"; "climate"; "Resources"; "hawaii.sqlite"] := SqliteFile hawaii_tables example_db ]}.

Definition climate_dir : list string := ["srv"; "climate"].

(** Started from [/srv/climate] the import succeeds; started from [/srv]
    it fails ([/srv/Resources] does not exist); a fresh checkout without
    the data file gets an empty one and [AttributeError]. *)
Example import_from_app_dir : import_app deploy_fs climate_dir = (deploy_fs, Ok (App.init example_db)).
Proof. vm_compute. reflexivity. Qed.

Example import_from_parent_dir : (import_app deploy_fs ["srv"]).2 = Err OperationalError.
Proof. vm_compute. reflexivity. Qed.

Definition checkout_fs : fs := mkFs {[ []; ["srv"]; climate_dir; ["srv"; "climate"; "Resources"] ]} ∅.

Lemma import_missing_creates_empty_witness :
  fs_files checkout_fs !! db_path climate_dir = None /\ (db_path climate_dir ∉ fs_dirs checkout_fs) /\
  removelast (db_path climate_dir) ∈ fs_dirs checkout_fs /\
  (import_app checkout_fs climate_dir).2 = Err AttributeError.
Proof.
  assert (H1 : fs_files checkout_fs !! db_path climate_dir = None) by (vm_compute; reflexivity).
  assert (H2 : db_path climate_dir ∉ fs_dirs checkout_fs) by (apply (bool_decide_unpack _); vm_compute; exact I).
  assert (H3 : removelast (db_path climate_dir) ∈ fs_dirs checkout_fs)
    by (apply (bool_decide_unpack _); vm_compute; exact I).
  split; [exact H1|]. split; [exact H2|]. split; [exact H3|].
  by rewrite (proj1 (import_missing_creates_empty checkout_fs climate_dir H1 H2 H3)).
Defined.


End Setup.
